(* ===== verification/_CoqProject ===== *)
-Q . S2P
Prelude.v
JsString.v
Types.v
JsSort.v
JsObject.v
Grouping.v
ShopView.v
PrintView.v
ShareView.v
ProductList.v
Modals.v
AdminForm.v
AdminDom.v
Schema.v
AdminView.v
Layout.v
HelpView.v
