(* ===== verification/Prelude.v ===== *)
(** * Weekly Shop: a verification development of the shopping-list client

    The program is a React single-page client (src/src/) over a hosted
    relational backend.  It has no server of its own: every view fetches a
    snapshot of the current weekly shop (a [weekly_shops] row joined with
    its [weekly_shop_items], each joined with its [products] row and that
    product's [store_locations] row), transforms it with a few lines of
    JavaScript, and renders it.  Writes go straight to the backend from event
    handlers.  This development models that JavaScript: the data the views
    receive, the transforms they apply, the handlers that write, and the
    pieces of the JavaScript runtime whose semantics the transforms depend on.

    ** Parts of the program, and the files that model them

    Files are listed in dependency order, as in _CoqProject.

    - [Prelude.v] (this file): the completion type of JavaScript
      ([Normal]/[Throw]) with its bind notation in [js_scope]; [js_reduce];
      the [x || d] fallbacks on numbers and strings; the reflexive
      transitive closure [star] of a step relation and its invariant rule;
      the tactics and the hint databases [shop] and [shop_rw]; generic
      lemmas on [List.filter], permutations and sortedness.
    - [JsString.v]: the string built-ins the views call: [join], [split] on
      one character, [trim], [`${n}`] on an integer, [parseInt] without a
      radix (ECMAScript 2023, 19.2.5).  Lemmas: [split] inverts [join] on
      comma-free pieces, [trim] is idempotent, and
      [js_parseInt_to_string] shows [parseInt(String(n)) = n] for every
      integer.
    - [Types.v] ([types/supabase.ts], [types/index.ts]): one [Module] per
      row type ([StoreLocation], [Product], [WeeklyShopItem], [WeeklyShop])
      whose [Record t] has the columns under the source's names.  Joined
      rows are [option]s, since a join that does not resolve leaves
      [undefined].  The string unions have their run-time strings and a
      typing judgment, [has_literal_type], for the code's casts.
    - [JsSort.v]: [Array.prototype.sort] with a comparator.  The language
      requires the sort to be stable, and the result is then determined by
      the comparator alone.  The model is a stable insertion sort.  It is
      proved sorted, a permutation and stable, and any list with these
      three properties is its result (C1, the refinement that justifies the
      model whatever algorithm an engine uses).
    - [JsObject.v]: the object literal [{}] used as a [Record<string, T[]>]:
      own properties in creation order, lookup through [Object.prototype]
      (so [acc["constructor"]] is not [undefined]), and the key order of
      [Object.entries] (array-index keys first, ascending, then the others
      in creation order).  [map_values] models the in-place mutation of the
      arrays [Object.values] hands out.
    - [Grouping.v]: the grouping [reduce] that ShopView, PrintView and
      ShareView repeat verbatim, with its [TypeError] when a section name is
      an inherited property.  It is proved equal to a declarative partition
      (C2).  No item is lost or duplicated (C3), and the bucket order is
      first occurrence (C4) unless names are array indices.
    - [ShopView.v] ([views/ShopView.tsx]): filter, sort by location or by
      name, group, progress counts and bar, the share-unavailable handler,
      and the view with the backend as a step relation over writes to the
      four tables its query reads, the change channel on
      [weekly_shop_items] and its subscription, fetch answers in any order,
      failed requests and toggles (C5-C14).
    - [PrintView.v] ([views/PrintView.tsx]): grouping in fetch order, the
      per-bucket sort by product sequence seen through the shared arrays,
      the rendered sections (C15).
    - [ShareView.v] ([views/ShareView.tsx]): the jsPDF layout of
      [generatePDF] as the list of calls it makes, with page breaks; the
      preview; the share handler with its clipboard fallback; the fetch
      continuation and the render (C17-C20, C35).
    - [ProductList.v] ([components/ProductList.tsx]): the status, quantity
      and remove handlers against the [weekly_shop_items] table (a [gmap]
      keyed by id); each item's row as the list of elements React renders,
      with the status buttons drawn from [Object.entries(statusIcons)]
      (C21-C25).
    - [Modals.v] ([components/ProductList.tsx], [components/modals/]): the
      list's [selectedImage] and [selectedUrl], the buttons that set them,
      the two modals, the clicks that close them and the key presses that
      reach the rows behind them, as a step relation (C26).
    - [AdminForm.v] ([views/AdminView.tsx], the product form): aliases
      parsing, the [parseInt]/[parseFloat]/[|| null] conversions, the
      inputs' default values while editing, the shelf-height select and
      the (unreachable) location form's data (C27).
    - [AdminDom.v] ([views/AdminView.tsx], the form in the browser): the
      uncontrolled fields with React's [defaultValue] updates (inputs,
      textarea, selects applied at mount only), the dirty flags, [reset()]
      and [FormData] (C30).
    - [Schema.v] ([types/supabase.ts]): the column types of each table's
      [Row], [Insert] and [Update], and the JSON objects the handlers of
      AdminView and ProductList send (C31).
    - [AdminView.v] ([views/AdminView.tsx], the view): the state, the fetch
      continuation, the product and location submit handlers, delete, the
      product list, and the view with its form and the table as a
      transition system (C28, C29, C32).
    - [Layout.v] ([App.tsx], [components/Layout.tsx], [views/ListView.tsx]):
      the routes with the redirect of ["/"] and React Router's matching
      (case-insensitive, trailing slashes allowed), the menu, the
      highlighted link, the title effect, the menu's step relation, and the
      document the layout renders with what [window.print()] prints of it
      (C16, C33, C34).
    - [HelpView.v] ([views/HelpView.tsx]): the help page's sections and the
      element tree with its React keys, proved distinct.

    ** What the theorems show

    - Runtime semantics: the sort model is exact (C1); the grouping
      reduce equals its closed form, including the error path (C2-C4).
    - Composition: what ShopView displays is exactly the filtered items
      (C5), in store order under stated conditions (C6, C7).  PrintView's
      sections are sorted stably by product sequence (C15), and its
      printout, the application's header included, lists every item once
      (C16).  The PDF draws each section's heading and then its items, in
      the grouping's order (C18); its sections are the preview's (C19).
      A saved product is listed after the refetch, with the aliases the
      admin typed (C29).
    - Functional behaviour of the handlers on every branch: the quantity
      buttons' write and report (C22), the share handler (C11).
    - Bounds: the progress bar stays within its track (C10), and the PDF
      inside the page margins (C17).
    - Types: the casts the code makes from strings to the schema's unions
      (the status buttons' keys, the shelf-height select) always yield a
      member of the union (C24, C30), and every object the client writes
      is an [Insert] or [Update] of its table (C31).
    - State machines, by rule induction over [star]: ShopView never renders
      its empty-list screen and spins for ever without a shop (C12, C13),
      and neither does ShareView (C35).  A write the change channel
      reports is shown once its answers arrive in order (C8); a write it
      does not report (another table, or before the subscription) is never
      shown (C9).  ProductList's handlers keep every quantity at least one
      (C21); its modals show URLs the rows offered, a click removes the
      topmost one, and both can be open at once (C26).  The admin handlers
      keep the rows in the form's normal shape (C32).
    - Round trips: aliases joined and parsed back (C27); inputs prefilled
      from a saved row write it back ([data_of_form_of_product]), but the
      form as the browser shows it does not (C28).
    - Findings, proved in general or on a reachable trace: section names
      that are prototype properties throw (C2;
      [Grouping.group_by_location_prototype_name]) and numeric names
      reorder sections ([Grouping.group_by_location_numeric_names]).  An
      empty shop shows a full progress bar (C10).  Changes to
      [weekly_shops], [products] and [store_locations] never reach an open
      ShopView (C9), and stale fetch answers win (C14).  The print view
      ignores the store order ([PrintView.print_section_order_differs]) and
      prints the application's header (C16).  A missing product prints as
      "undefined" (C20).  Two quick increments lose one (C23).  A maximum
      price of 0 shows a stray "0" (C25).  The keyboard opens the page
      modal over the image modal (C26).  Saving an edit unchanged moves
      the product to the first section and the top shelf, and leaves its
      notes in the add form (C28).  The title misses case variants of a
      path ([Layout.title_case_sensitive]); the help page describes
      controls of ListView, which renders nothing
      ([HelpView.help_describes_blank_list]).  The location form's handler
      is attached to no form.
    - Navigation: one redirect suffices for every path (C33), and in every
      state the layout reaches the title names exactly the highlighted
      menu link (C34).

    Each claim's theorem is a consequence of the library's lemmas (the
    closed form of the grouping, the sort's contract, ...).  Claims are
    never used in other proofs; the lemmas are.

    ** Bounds and fuel

    Every definition is structurally recursive.  The one fuel, the number
    of redirects [Layout.resolve] follows, is enough at 1 for every path
    (C33).
    Integers are [Z]: sequence numbers and quantities are integer columns,
    and the arithmetic the code does on them (differences, [+ delta],
    [Math.max]) stays far below 2^53.  [parseInt] is exact where JavaScript
    rounds above 2^53.  The progress bar's percentage is the exact
    rational; the browser's double differs from it by rounding.  The PDF
    theorems need a page at least 50 (C17) or 40 (C18) units high.  The
    cursor starts at [margin + 20 = 40], and a page of height [h] holds
    lines from [margin] to [h - margin].  jsPDF's default page is A4,
    297 mm high.

    ** Not modelled

    - The backend: its answers are inputs of the handlers (query results,
      write replies, drawn ids), and tables are [gmap]s updated as
      PostgREST would update them.  A query's answer is any ordering of
      the table's rows; AdminView's [order(...)] is not modelled.
    - React rendering beyond the elements a view produces: CSS layout
      (except the rules the theorems need: the print style sheet, the
      dropped [NaN%] width, the modal overlay covering the list from the
      pointer but not from the keyboard), the [Suspense] fallback shown
      while a view's code loads, and toasts' timing.  [ListView] returns
      [undefined], which React 18 renders as nothing and React 17 rejects;
      the repository does not pin React's version, and the model takes
      React 18.
    - Time: a query's answer is computed from the backend as it is when
      the query is sent, not when the server runs it; unmounting a view
      (ShopView's [unsubscribe()]) is not modelled.
    - [pages/AdminView.tsx], [pages/HelpView.tsx], [pages/ShopView.tsx]:
      static placeholder pages that no module imports; App routes to
      [views/*].  The [search_products] function type of [supabase.ts],
      which the client never calls.  [lib/supabase],
      [components/ErrorBoundary] and [components/ThemeToggle] are imported
      but absent from the sources.

    ** This file

    Shared vocabulary: the JavaScript completion type ([Normal]/[Throw]) with
    its bind notation in [js_scope], the [x || d] fallbacks on numbers and
    strings as the views use them, the tactics and hint database [shop] of
    the development, and generic lemmas on [List.filter] and permutations.
*)

From Stdlib Require Export ZArith String Ascii Permutation Sorted.

From stdpp Require Export base list strings option.
From stdpp Require sorting.

(** ** JavaScript completions *)

(** The error values a modelled expression can throw. *)
Inductive js_error : Type :=
| TypeError (message : string).

(** The outcome of evaluating JavaScript: a normal value or a thrown error. *)
Inductive completion (A : Type) : Type :=
| Normal (a : A)
| Throw (e : js_error).
Arguments Normal {A} a.
Arguments Throw {A} e.

Definition completion_bind {A B : Type} (c : completion A) (k : A -> completion B)
  : completion B :=
  match c with
  | Normal a => k a
  | Throw e => Throw e
  end.

Declare Scope js_scope.
Delimit Scope js_scope with js.
Notation "x <- c ;; k" := (completion_bind c (fun x => k))
  (at level 100, c at next level, right associativity) : js_scope.

(** A left fold whose step may throw: [Array.prototype.reduce] with a
    callback that can raise. *)
Fixpoint js_reduce {A B : Type} (f : B -> A -> completion B) (l : list A) (acc : B)
  : completion B :=
  match l with
  | [] => Normal acc
  | x :: t => completion_bind (f acc x) (js_reduce f t)
  end.

(** ** The [||] fallback on the values the views use *)

(** [n || d] for a number that may be [undefined]: [0] (and [undefined]) are
    falsy.  The sequence numbers are integer columns, so [NaN] never occurs. *)
Definition js_or_num (n : option Z) (d : Z) : Z :=
  match n with
  | Some v => if Z.eqb v 0 then d else v
  | None => d
  end.

(** [s || d] for a string that may be [undefined]: [""] is falsy. *)
Definition js_or_str (s : option string) (d : string) : string :=
  match s with
  | Some v => if String.eqb v "" then d else v
  | None => d
  end.

(** ** Tactics and hints *)

Create HintDb shop.
Create Rewrite HintDb shop_rw.

Ltac invc H := inversion H; subst; clear H.

(** Case on every boolean [String.eqb]/[Z.eqb] test in the goal, turning it
    into a Prop equation. *)
Ltac eqb_cases :=
  repeat match goal with
  | |- context [String.eqb ?a ?b] =>
      destruct (String.eqb_spec a b); subst
  | |- context [Z.eqb ?a ?b] => destruct (Z.eqb_spec a b); subst
  end.

(** ** Generic lemmas on lists *)

Section ListFacts.
Context {A : Type}.

Lemma js_reduce_app {B : Type} (f : B -> A -> completion B) l1 l2 acc :
  js_reduce f (l1 ++ l2) acc = completion_bind (js_reduce f l1 acc) (js_reduce f l2).
Proof.
  revert acc. induction l1 as [|x l1 IH]; intros acc; simpl; [done|].
  destruct (f acc x); simpl; [apply IH|done].
Qed.

(** Two filters with disjoint predicates together hold the elements the
    disjunction keeps. *)
Lemma filter_disjoint_Permutation (p q : A -> bool) (l : list A) :
  (forall x, In x l -> p x = true -> q x = false) ->
  Permutation (List.filter p l ++ List.filter q l)
              (List.filter (fun x => p x || q x) l).
Proof.
  induction l as [|x l IH]; intros Hdis; simpl; [done|].
  assert (IH' := IH (fun y Hy => Hdis y (or_intror Hy))).
  destruct (p x) eqn:Hp; simpl.
  - rewrite (Hdis x (or_introl eq_refl) Hp). simpl. by constructor.
  - destruct (q x); simpl; [|done].
    rewrite <- Permutation_middle. by constructor.
Qed.

Lemma filter_true_id (p : A -> bool) (l : list A) :
  (forall x, In x l -> p x = true) -> List.filter p l = l.
Proof.
  induction l as [|x l IH]; intros H; simpl; [done|].
  rewrite (H x (or_introl eq_refl)). f_equal. apply IH. intros y Hy. by apply H; right.
Qed.

Lemma filter_false_nil (p : A -> bool) (l : list A) :
  (forall x, In x l -> p x = false) -> List.filter p l = [].
Proof.
  induction l as [|x l IH]; intros H; simpl; [done|].
  rewrite (H x (or_introl eq_refl)). apply IH. intros y Hy. by apply H; right.
Qed.

Lemma filter_ext_in (p q : A -> bool) (l : list A) :
  (forall x, In x l -> p x = q x) -> List.filter p l = List.filter q l.
Proof.
  induction l as [|x l IH]; intros H; simpl; [done|].
  rewrite (H x (or_introl eq_refl)). rewrite IH; [done|]. intros y Hy. by apply H; right.
Qed.

Lemma filter_Permutation_compat (p : A -> bool) (l1 l2 : list A) :
  Permutation l1 l2 -> Permutation (List.filter p l1) (List.filter p l2).
Proof.
  induction 1; simpl.
  - done.
  - destruct (p x); [by constructor|done].
  - destruct (p x), (p y); try constructor; done.
  - by etrans.
Qed.

Lemma Permutation_concat_compat (ls1 ls2 : list (list A)) :
  Permutation ls1 ls2 -> Permutation (concat ls1) (concat ls2).
Proof.
  induction 1; simpl; [done| by apply Permutation_app_head | |by etrans].
  rewrite !app_assoc. apply Permutation_app_tail, Permutation_app_comm.
Qed.

Lemma StronglySorted_impl (R S : A -> A -> Prop) (l : list A) :
  (forall a b, R a b -> S a b) -> StronglySorted R l -> StronglySorted S l.
Proof.
  intros HRS. induction 1; constructor; [done|].
  eapply List.Forall_impl; [|eassumption]. auto.
Qed.

Lemma count_filter_length (p : A -> bool) (l : list A) :
  length (List.filter p l) <= length l.
Proof.
  induction l as [|x l IH]; simpl; [lia|]. destruct (p x); simpl; lia.
Qed.

(** A filter keeps every element exactly when it keeps its length. *)
Lemma filter_length_full (p : A -> bool) (l : list A) :
  length (List.filter p l) = length l <-> Forall (fun x => p x = true) l.
Proof.
  induction l as [|x l IH]; simpl; [split; [constructor|done]|].
  pose proof (count_filter_length p l).
  destruct (p x) eqn:Hx; simpl; rewrite Forall_cons_iff.
  - rewrite <- IH. split; [intros ?; split; [done|lia]|intros [_ ?]; lia].
  - split; [intros ?; lia|]. intros [? _]. congruence.
Qed.
End ListFacts.

(** ** Reflexive-transitive closure of a step relation *)

Section Star.
Context {S : Type} (R : S -> S -> Prop).

Inductive star : S -> S -> Prop :=
| star_refl s : star s s
| star_step s1 s2 s3 : R s1 s2 -> star s2 s3 -> star s1 s3.

Lemma star_one s1 s2 : R s1 s2 -> star s1 s2.
Proof. intros H. eapply star_step; [exact H|constructor]. Qed.

Lemma star_trans s1 s2 s3 : star s1 s2 -> star s2 s3 -> star s1 s3.
Proof. induction 1; [done|]. intros H3. eapply star_step; eauto. Qed.

(** A property preserved by every step holds in every reachable state. *)
Lemma star_invariant (P : S -> Prop) :
  (forall s1 s2, P s1 -> R s1 s2 -> P s2) ->
  forall s1 s2, star s1 s2 -> P s1 -> P s2.
Proof. intros Hstep s1 s2 H. induction H; eauto. Qed.
End Star.

#[export] Hint Constructors star : shop.
#[export] Hint Resolve filter_Permutation_compat : shop.
#[export] Hint Rewrite @filter_app : shop_rw.
