(* ===== verification/JsString.v ===== *)
(** * String built-ins the views call

    [arr.join(sep)], [s.split(c)] with a one-character separator,
    [s.trim()], [`${n}`] on an integer and [parseInt(s)] (no radix), with the
    lemmas the clients use: [split] inverts [join] when the pieces are free
    of the separator, [trim] is idempotent, and [parseInt] reads back what
    [`${n}`] prints.

    Strings are Rocq strings, that is byte strings; the views' strings are
    UTF-8.  Trimming removes the ASCII white space and line terminators
    (TAB, LF, VT, FF, CR, SPACE).  The non-ASCII ones (U+00A0, U+FEFF, the
    Zs category, U+2028, U+2029) are not modelled: as bytes they overlap
    other characters' encodings.  [parseInt] yields [None] for [NaN], and an
    exact integer where the language rounds beyond 2^53. *)

From S2P Require Import Prelude.
From Stdlib Require Import DecimalString DecimalZ.
Local Open Scope Z_scope.

Definition newline : string := String (Ascii.ascii_of_nat 10) EmptyString.

(** [arr.join(sep)] *)
Fixpoint js_join (sep : string) (l : list string) : string :=
  match l with
  | [] => ""
  | [s] => s
  | s :: rest => s +:+ sep +:+ js_join sep rest
  end.

(** [s.split(c)]: the pieces between the occurrences of [c]; [""] gives
    [[""]]. *)
Fixpoint js_split (sep : ascii) (s : string) : list string :=
  match s with
  | EmptyString => [""]
  | String c rest =>
      let parts := js_split sep rest in
      if Ascii.eqb c sep then "" :: parts
      else match parts with
           | p :: ps => String c p :: ps
           | [] => [String c ""]
           end
  end.

Fixpoint str_has (c : ascii) (s : string) : bool :=
  match s with
  | EmptyString => false
  | String c' rest => Ascii.eqb c' c || str_has c rest
  end.

Definition is_js_space (c : ascii) : bool :=
  let n := nat_of_ascii c in ((9 <=? n) && (n <=? 13))%nat || (n =? 32)%nat.

Fixpoint trim_start (s : string) : string :=
  match s with
  | EmptyString => EmptyString
  | String c rest => if is_js_space c then trim_start rest else s
  end.

Fixpoint trim_end (s : string) : string :=
  match s with
  | EmptyString => EmptyString
  | String c rest =>
      let rest' := trim_end rest in
      if String.eqb rest' "" && is_js_space c then "" else String c rest'
  end.

(** [s.trim()] *)
Definition js_trim (s : string) : string := trim_end (trim_start s).

(** [`${n}`] for an integer. *)
Definition js_int_to_string (n : Z) : string := NilEmpty.string_of_int (Z.to_int n).

(** ** [parseInt(s)] (ECMAScript 2023, 19.2.5) *)

(** The value of a digit in radix 36; [36] for a character that is no
    digit. *)
Definition radix_digit (c : ascii) : Z :=
  let n := Z.of_nat (nat_of_ascii c) in
  if (48 <=? n) && (n <=? 57) then n - 48
  else if (65 <=? n) && (n <=? 90) then n - 55
  else if (97 <=? n) && (n <=? 122) then n - 87
  else 36.

(** The value of the longest prefix of radix-[radix] digits; [None] when
    the prefix is empty and [acc] is [None]. *)
Fixpoint parse_digits (radix : Z) (acc : option Z) (s : string) : option Z :=
  match s with
  | EmptyString => acc
  | String c rest =>
      if radix_digit c <? radix
      then parse_digits radix (Some (default 0 acc * radix + radix_digit c)) rest
      else acc
  end.

(** Steps 4-5: the sign. *)
Definition strip_sign (s : string) : Z * string :=
  match s with
  | String c rest =>
      if Ascii.eqb c "-" then (-1, rest)
      else if Ascii.eqb c "+" then (1, rest) else (1, s)
  | EmptyString => (1, s)
  end.

(** Steps 8-10 with the radix [undefined]: a [0x] or [0X] prefix selects
    radix 16, otherwise radix 10. *)
Definition strip_hex (s : string) : Z * string :=
  match s with
  | String "0" (String x rest) =>
      if Ascii.eqb x "x" || Ascii.eqb x "X" then (16, rest) else (10, s)
  | _ => (10, s)
  end%char.

Definition js_parseInt (s : string) : option Z :=
  let '(sign, s1) := strip_sign (trim_start s) in
  let '(radix, s2) := strip_hex s1 in
  option_map (Z.mul sign) (parse_digits radix None s2).

(** ** Lemmas on [split] and [join] *)

Lemma js_split_no_sep sep s : str_has sep s = false -> js_split sep s = [s].
Proof.
  induction s as [|c s IH]; simpl; [done|].
  intros [Hc Hs]%orb_false_iff. rewrite Hc, IH by done. done.
Qed.

Lemma js_split_app sep s1 s2 :
  str_has sep s1 = false ->
  js_split sep (s1 +:+ String sep s2) = s1 :: js_split sep s2.
Proof.
  induction s1 as [|c s1 IH]; simpl.
  - by rewrite Ascii.eqb_refl.
  - intros [Hc Hs]%orb_false_iff. by rewrite Hc, IH.
Qed.

(** The pieces of [js_split] are free of the separator. *)
Lemma js_split_pieces sep s : Forall (fun p => str_has sep p = false) (js_split sep s).
Proof.
  induction s as [|c s IH]; simpl; [by repeat constructor|].
  destruct (Ascii.eqb_spec c sep) as [->|Hne]; [by constructor|].
  apply Ascii.eqb_neq in Hne.
  destruct (js_split sep s) as [|p ps]; [by repeat constructor; simpl; rewrite Hne|].
  apply Forall_cons_iff in IH as [Hp Hps]. constructor; [|done]. simpl. by rewrite Hne, Hp.
Qed.

(** ** Lemmas on [trim] *)

Lemma trim_end_idem s : trim_end (trim_end s) = trim_end s.
Proof.
  induction s as [|c s IH]; simpl; [done|].
  destruct (String.eqb (trim_end s) "" && is_js_space c) eqn:E; [done|].
  simpl. rewrite IH, E. done.
Qed.

(** [trim_end] keeps a first character that is no white space. *)
Lemma trim_start_trim_end s : trim_start s = s -> trim_start (trim_end s) = trim_end s.
Proof.
  destruct s as [|c s]; simpl; [done|].
  destruct (is_js_space c) eqn:Hc.
  - intros H. exfalso. apply (f_equal String.length) in H. simpl in H.
    assert (forall t, (String.length (trim_start t) <= String.length t)%nat) as Hle.
    { induction t as [|c' t IHt]; simpl; [done|]. destruct (is_js_space c'); simpl; lia. }
    specialize (Hle s). lia.
  - intros _. rewrite andb_false_r. simpl. by rewrite Hc.
Qed.

Lemma trim_start_idem s : trim_start (trim_start s) = trim_start s.
Proof.
  induction s as [|c s IH]; simpl; [done|].
  destruct (is_js_space c) eqn:Hc; [done|]. simpl. by rewrite Hc.
Qed.

Lemma js_trim_idem s : js_trim (js_trim s) = js_trim s.
Proof.
  unfold js_trim. rewrite trim_start_trim_end by apply trim_start_idem.
  apply trim_end_idem.
Qed.

Lemma js_trim_space c s : is_js_space c = true -> js_trim (String c s) = js_trim s.
Proof. intros Hc. unfold js_trim. simpl. by rewrite Hc. Qed.

Lemma str_has_trim_start c s : str_has c s = false -> str_has c (trim_start s) = false.
Proof.
  induction s as [|c' s IH]; simpl; [done|].
  intros [? ?]%orb_false_iff. destruct (is_js_space c'); simpl; [auto|].
  by apply orb_false_iff.
Qed.

Lemma str_has_trim_end c s : str_has c s = false -> str_has c (trim_end s) = false.
Proof.
  induction s as [|c' s IH]; simpl; [done|].
  intros [? ?]%orb_false_iff. destruct (_ && _); simpl; [done|].
  apply orb_false_iff. auto.
Qed.

Lemma str_has_trim c s : str_has c s = false -> str_has c (js_trim s) = false.
Proof. intros H. by apply str_has_trim_end, str_has_trim_start. Qed.

#[export] Hint Resolve js_split_pieces str_has_trim : shop.

(** ** [parseInt] reads back [`${n}`] *)

Lemma parse_digits_cons radix acc c s :
  radix_digit c < radix ->
  parse_digits radix acc (String c s) =
  parse_digits radix (Some (default 0 acc * radix + radix_digit c)) s.
Proof. intros H. simpl. by rewrite (proj2 (Z.ltb_lt _ _) H). Qed.

Ltac digit_step IH :=
  cbn [NilEmpty.string_of_uint Pos.of_uint_acc]; rewrite parse_digits_cons by reflexivity; simpl default;
  match goal with
  | |- parse_digits _ (Some (?b + radix_digit ?c)) _ = Some (Z.pos (Pos.of_uint_acc _ ?p)) =>
      let v := eval vm_compute in (radix_digit c) in
      replace (b + radix_digit c) with (Z.pos p)
        by (change (radix_digit c) with v; rewrite ?Pos2Z.inj_add, ?Pos2Z.inj_mul; lia)
  end; apply IH.

Lemma parse_digits_acc d (acc : positive) :
  parse_digits 10 (Some (Z.pos acc)) (NilEmpty.string_of_uint d) =
  Some (Z.pos (Pos.of_uint_acc d acc)).
Proof. revert acc. induction d; intros acc; [done|..]; digit_step IHd. Qed.

Lemma parse_digits_uint d :
  parse_digits 10 (Some 0) (NilEmpty.string_of_uint d) = Some (Z.of_uint d).
Proof.
  induction d; [done|..]; cbn [NilEmpty.string_of_uint];
    rewrite parse_digits_cons by reflexivity; simpl default;
    [exact IHd|..]; apply parse_digits_acc.
Qed.

Section Uint.
Variable d : Decimal.uint.
Hypothesis Hd : d <> Decimal.Nil.

Let digits := NilEmpty.string_of_uint d.

Lemma trim_start_uint : trim_start digits = digits.
Proof. unfold digits. by destruct d. Qed.

Lemma strip_sign_uint : strip_sign digits = (1, digits).
Proof. unfold digits. by destruct d. Qed.

Lemma strip_hex_uint : strip_hex digits = (10, digits).
Proof. unfold digits. destruct d as [|d'|d'|d'|d'|d'|d'|d'|d'|d'|d']; try done. by destruct d'. Qed.

Lemma parse_digits_none_uint : parse_digits 10 None digits = parse_digits 10 (Some 0) digits.
Proof.
  unfold digits. destruct d; try done; cbn [NilEmpty.string_of_uint];
    by rewrite !parse_digits_cons by reflexivity.
Qed.

(** A nonempty digit string: no sign, no [0x] prefix, no leading space. *)
Lemma js_parseInt_uint : js_parseInt digits = Some (Z.of_uint d).
Proof.
  unfold js_parseInt. rewrite trim_start_uint, strip_sign_uint, strip_hex_uint.
  cbv iota. rewrite parse_digits_none_uint. unfold digits. rewrite parse_digits_uint.
  simpl. by rewrite Z.mul_1_l.
Qed.

Lemma js_parseInt_neg_uint : js_parseInt (String "-" digits) = Some (- Z.of_uint d).
Proof.
  unfold js_parseInt.
  replace (strip_sign (trim_start (String "-" digits))) with (-1, digits) by reflexivity.
  rewrite strip_hex_uint.
  cbv iota. rewrite parse_digits_none_uint. unfold digits. rewrite parse_digits_uint.
  done.
Qed.
End Uint.

(** [parseInt(`${n}`)] is [n]. *)
Lemma js_parseInt_to_string n : js_parseInt (js_int_to_string n) = Some n.
Proof.
  unfold js_int_to_string. pose proof (DecimalZ.of_to n) as Hn.
  destruct (Z.to_int n) as [d|d] eqn:E; simpl in Hn |- *;
    (assert (d <> Decimal.Nil) by (intros ->; subst n; discriminate E)).
  - rewrite js_parseInt_uint by done. by f_equal.
  - rewrite js_parseInt_neg_uint by done. by f_equal.
Qed.
