(* ===== verification/Types.v ===== *)
(** * Row types of the backend, as the client sees them

    [src/src/types/supabase.ts] declares the [Row] type of each table and
    [src/src/types/index.ts] adds the joined rows ([Product.location],
    [WeeklyShopItem.product], [WeeklyShop.items]).  Each row type is a
    [Module] holding a [Record t] with the columns under their source names.
    Nullable columns ([T | null]) and joins that may be absent
    ([location?: StoreLocation]) are [option]s; integer columns are [Z];
    prices are rationals; timestamps and dates are the strings the backend
    returns.  The string unions of the schema are inductive types, with
    their strings at run time and a typing judgment for casts. *)

From S2P Require Import Prelude.
From Stdlib Require Import QArith_base.

(** [shelf_height: 'top' | 'middle' | 'bottom'] *)
Inductive shelf_height : Type :=
| top
| middle
| bottom.

(** [status: 'required' | 'bought' | 'unavailable'] *)
Inductive item_status : Type :=
| required
| bought
| unavailable.

#[export] Instance shelf_height_eq_dec : EqDecision shelf_height.
Proof. solve_decision. Defined.
#[export] Instance item_status_eq_dec : EqDecision item_status.
Proof. solve_decision. Defined.

(** The boolean [a === b] on statuses, as the views write it. *)
Definition status_eqb (a b : item_status) : bool := bool_decide (a = b).

Lemma status_eqb_eq a b : status_eqb a b = true <-> a = b.
Proof. unfold status_eqb. by rewrite bool_decide_eq_true. Qed.

(** ** The unions at run time

    At run time a value of a string-literal union is a string, and a
    TypeScript cast ([x as 'top' | 'middle' | 'bottom']) checks nothing.
    [has_literal_type lit s] is the typing judgment: [s] is the string of
    some member of the union.  The decoders read a string back. *)

Definition shelf_height_literal (h : shelf_height) : string :=
  match h with top => "top" | middle => "middle" | bottom => "bottom" end.

Definition status_literal (st : item_status) : string :=
  match st with required => "required" | bought => "bought" | unavailable => "unavailable" end.

Inductive has_literal_type {T : Type} (lit : T -> string) : string -> Prop :=
| literal_member (x : T) : has_literal_type lit (lit x).

Definition shelf_height_of_string (s : string) : option shelf_height :=
  if String.eqb s "top" then Some top
  else if String.eqb s "middle" then Some middle
  else if String.eqb s "bottom" then Some bottom else None.

Definition status_of_string (s : string) : option item_status :=
  if String.eqb s "required" then Some required
  else if String.eqb s "bought" then Some bought
  else if String.eqb s "unavailable" then Some unavailable else None.

Lemma shelf_height_of_literal h : shelf_height_of_string (shelf_height_literal h) = Some h.
Proof. by destruct h. Qed.

Lemma status_of_literal st : status_of_string (status_literal st) = Some st.
Proof. by destruct st. Qed.

Lemma shelf_height_of_string_some s h :
  shelf_height_of_string s = Some h -> s = shelf_height_literal h.
Proof.
  unfold shelf_height_of_string.
  destruct (String.eqb_spec s "top") as [->|_]; [by intros [= <-]|].
  destruct (String.eqb_spec s "middle") as [->|_]; [by intros [= <-]|].
  destruct (String.eqb_spec s "bottom") as [->|_]; [by intros [= <-]|]. by intros [=].
Qed.

Lemma status_of_string_some s st : status_of_string s = Some st -> s = status_literal st.
Proof.
  unfold status_of_string.
  destruct (String.eqb_spec s "required") as [->|_]; [by intros [= <-]|].
  destruct (String.eqb_spec s "bought") as [->|_]; [by intros [= <-]|].
  destruct (String.eqb_spec s "unavailable") as [->|_]; [by intros [= <-]|]. by intros [=].
Qed.

(** A string has the union's type exactly when it decodes. *)
Lemma has_status_type s : has_literal_type status_literal s <-> is_Some (status_of_string s).
Proof.
  split; [intros [st]; rewrite status_of_literal; by eexists|].
  intros [st Hs]. rewrite (status_of_string_some _ _ Hs). constructor.
Qed.

Lemma has_shelf_height_type s :
  has_literal_type shelf_height_literal s <-> is_Some (shelf_height_of_string s).
Proof.
  split; [intros [h]; rewrite shelf_height_of_literal; by eexists|].
  intros [h Hs]. rewrite (shelf_height_of_string_some _ _ Hs). constructor.
Qed.

Module StoreLocation.
(** [Tables.store_locations.Row] *)
Record t : Type := mk {
  id : string;
  name : string;
  sequence_number : Z;
  created_at : string
}.
End StoreLocation.

Module Product.
(** [Tables.products.Row & { location?: StoreLocation }] *)
Record t : Type := mk {
  id : string;
  name : string;
  store_location_id : string;
  shelf_height : Types.shelf_height;
  typical_price : option Q;
  notes : option string;
  sequence_number : Z;
  created_at : string;
  product_url : option string;
  image_url : option string;
  barcode : option string;
  default_quantity : Z;
  aliases : option (list string);
  location : option StoreLocation.t
}.
End Product.

Module WeeklyShopItem.
(** [Tables.weekly_shop_items.Row & { product?: Product }] *)
Record t : Type := mk {
  id : string;
  weekly_shop_id : string;
  product_id : string;
  quantity : Z;
  max_price : option Q;
  notes : option string;
  status : item_status;
  created_at : string;
  product : option Product.t
}.
End WeeklyShopItem.

Module WeeklyShop.
(** [Tables.weekly_shops.Row & { items: WeeklyShopItem[] }] *)
Record t : Type := mk {
  id : string;
  shop_date : string;
  created_at : string;
  items : list WeeklyShopItem.t
}.
End WeeklyShop.

(** ** Optional chaining on the joined rows *)

(** [item.product?.location] *)
Definition item_location (item : WeeklyShopItem.t) : option StoreLocation.t :=
  match WeeklyShopItem.product item with
  | Some p => Product.location p
  | None => None
  end.

(** [item.product?.name] *)
Definition item_product_name (item : WeeklyShopItem.t) : option string :=
  option_map Product.name (WeeklyShopItem.product item).

(** ** Fixtures for concrete runs

    Rows with the columns the client reads set and the others left at
    neutral values, used by the examples and witnesses of the development. *)
Module Fixtures.
Definition location (name : string) (seq : Z) : StoreLocation.t :=
  StoreLocation.mk name name seq "".

Definition product (name : string) (seq : Z) (loc : option StoreLocation.t)
  : Product.t :=
  Product.mk name name "" middle None None seq "" None None None 1 None loc.

Definition item (id : string) (st : item_status) (p : option Product.t)
  : WeeklyShopItem.t :=
  WeeklyShopItem.mk id "shop" id 1 None None st "" p.

(** An item whose product sits at [seq] in section [loc] (sequence
    [lseq]). *)
Definition placed (id : string) (st : item_status) (loc : string) (lseq seq : Z)
  : WeeklyShopItem.t :=
  item id st (Some (product id seq (Some (location loc lseq)))).
End Fixtures.
