(* ===== verification/JsSort.v ===== *)
(** * [Array.prototype.sort] with a comparator

    ShopView sorts with [[...filteredItems].sort((a, b) => ...)]
    ([src/src/views/ShopView.tsx:112-123]) and PrintView with
    [items.sort((a, b) => ...)] ([src/src/views/PrintView.tsx:69-71]).
    ECMAScript (2019 and later) requires this sort to be stable. When the
    comparator is consistent, the result is then fixed: the output is a
    permutation of the input, ordered by the comparator, and keeps elements
    the comparator calls equal in their input order.

    [js_sort] is a stable insertion sort.  [js_sort_meets_contract] proves that it
    meets the contract ([sort_contract]).  [sort_contract_unique] proves that
    only one list meets the contract.  Together they give
    [js_sort_refines]: whatever algorithm the engine uses, it returns
    [js_sort]. *)

From S2P Require Import Prelude.
Local Open Scope Z_scope.

(** The laws of a "consistent comparator": the sign of [cmp a b] is the
    opposite of the sign of [cmp b a], and [cmp _ _ <= 0] is transitive. *)
Class ConsistentComparator {A : Type} (cmp : A -> A -> Z) : Prop := {
  cmp_antisym : forall a b, Z.sgn (cmp a b) = - Z.sgn (cmp b a);
  cmp_le_trans : forall a b c, cmp a b <= 0 -> cmp b c <= 0 -> cmp a c <= 0
}.

(** The numeric comparator [(a, b) => a - b] on integers. *)
Definition numeric_compare (a b : Z) : Z := a - b.

Section JsSort.
Context {A : Type} (cmp : A -> A -> Z).

(** [x] may stay before [y]: the comparator does not return a positive
    number. *)
Definition sort_le (x y : A) : bool := Z.leb (cmp x y) 0.

(** The comparator calls [x] and [y] equal. *)
Definition sort_eqv (x y : A) : bool := Z.eqb (cmp x y) 0.

(** Insert [x] before the first element it may precede. *)
Fixpoint insert (x : A) (l : list A) : list A :=
  match l with
  | [] => [x]
  | y :: t => if sort_le x y then x :: y :: t else y :: insert x t
  end.

(** The stable sort: every element is inserted, from the last one to the
    first, before the sorted rest, so it goes before the elements it
    compares equal to. *)
Definition js_sort (l : list A) : list A := fold_right insert [] l.

(** The contract ECMAScript puts on the sort's result. *)
Record sort_contract (input output : list A) : Prop := {
  contract_perm : Permutation output input;
  contract_sorted : Sorted (fun x y => cmp x y <= 0) output;
  contract_stable : forall x,
    List.filter (sort_eqv x) output = List.filter (sort_eqv x) input
}.

Lemma insert_Permutation x l : Permutation (insert x l) (x :: l).
Proof.
  induction l as [|y t IH]; simpl; [done|].
  destruct (sort_le x y); [done|].
  rewrite IH. apply perm_swap.
Qed.

(** Insertion splits the list: the elements before [x] are all strictly
    smaller than [x]. *)
Lemma insert_split x l :
  exists l1 l2, l = l1 ++ l2 /\ insert x l = l1 ++ x :: l2 /\
                Forall (fun y => 0 < cmp x y) l1.
Proof.
  induction l as [|y t IH]; simpl.
  - by exists [], [].
  - unfold sort_le. destruct (Z.leb_spec (cmp x y) 0).
    + by exists [], (y :: t).
    + destruct IH as (l1 & l2 & -> & -> & Hl1).
      exists (y :: l1), l2. split; [done|]. split; [done|].
      constructor; [lia|done].
Qed.

Lemma js_sort_Permutation l : Permutation (js_sort l) l.
Proof.
  induction l as [|x l IH]; simpl; [done|].
  by rewrite insert_Permutation, IH.
Qed.

Section Consistent.
Context `{!ConsistentComparator cmp}.

Lemma cmp_refl a : cmp a a = 0.
Proof.
  pose proof (cmp_antisym a a) as H.
  destruct (Z.sgn_spec (cmp a a)) as [[? ?]|[[? ?]|[? ?]]]; lia.
Qed.

Lemma cmp_flip_pos a b : 0 < cmp a b -> cmp b a < 0.
Proof.
  intros H. pose proof (cmp_antisym a b) as Hs.
  rewrite (Z.sgn_pos _ H) in Hs.
  destruct (Z.sgn_spec (cmp b a)) as [[? ?]|[[? ?]|[? ?]]]; lia.
Qed.

Lemma cmp_le_antisym a b : cmp a b <= 0 -> cmp b a <= 0 -> cmp a b = 0.
Proof.
  intros H1 H2. destruct (Z.eq_dec (cmp a b) 0) as [|Hne]; [done|].
  pose proof (cmp_antisym a b) as Hs.
  rewrite (Z.sgn_neg (cmp a b)) in Hs by lia.
  destruct (Z.sgn_spec (cmp b a)) as [[? ?]|[[? ?]|[? ?]]]; lia.
Qed.

Lemma cmp_eq_sym a b : cmp a b = 0 -> cmp b a = 0.
Proof.
  intros H. pose proof (cmp_antisym a b) as Hs. rewrite H in Hs.
  destruct (Z.sgn_spec (cmp b a)) as [[? ?]|[[? ?]|[? ?]]]; lia.
Qed.

Lemma cmp_eq_trans a b c : cmp a b = 0 -> cmp b c = 0 -> cmp a c = 0.
Proof.
  intros H1 H2.
  pose proof (cmp_eq_sym a b H1). pose proof (cmp_eq_sym b c H2).
  apply cmp_le_antisym;
    [apply (cmp_le_trans a b c) | apply (cmp_le_trans c b a)]; lia.
Qed.

Lemma insert_StronglySorted x l :
  StronglySorted (fun x y => cmp x y <= 0) l ->
  StronglySorted (fun x y => cmp x y <= 0) (insert x l).
Proof.
  induction l as [|y t IH]; intros Hs; simpl.
  - by repeat constructor.
  - apply StronglySorted_inv in Hs as [Ht Hy].
    unfold sort_le. destruct (Z.leb_spec (cmp x y) 0) as [Hxy|Hxy].
    + constructor; [by constructor|].
      constructor; [done|].
      eapply List.Forall_impl; [|exact Hy]. intros z Hz. by apply (cmp_le_trans x y z).
    + constructor; [by apply IH|].
      eapply Permutation_Forall; [symmetry; apply insert_Permutation|].
      constructor; [|done]. pose proof (cmp_flip_pos x y Hxy). lia.
Qed.

Lemma js_sort_StronglySorted l :
  StronglySorted (fun x y => cmp x y <= 0) (js_sort l).
Proof.
  induction l as [|x l IH]; simpl; [constructor|].
  by apply insert_StronglySorted.
Qed.

(** Inserting keeps the elements equal to any [x] in input order, with
    the inserted one first. *)
Lemma filter_eqv_insert x z s :
  List.filter (sort_eqv x) (insert z s) = List.filter (sort_eqv x) (z :: s).
Proof.
  destruct (insert_split z s) as (l1 & l2 & -> & -> & Hl1).
  simpl. rewrite !filter_app. simpl.
  destruct (sort_eqv x z) eqn:Hxz; [|reflexivity].
  unfold sort_eqv in Hxz. apply Z.eqb_eq in Hxz.
  rewrite (filter_false_nil (sort_eqv x) l1); [done|].
  intros y Hy. rewrite Forall_forall in Hl1. specialize (Hl1 y Hy).
  unfold sort_eqv. apply Z.eqb_neq. intros Hxy.
  assert (cmp z y = 0) by (eapply cmp_eq_trans; [apply cmp_eq_sym|]; eassumption).
  lia.
Qed.

(** The uniqueness argument: two sorted permutations of one another that
    agree on every class of equal elements are equal. *)
Lemma sorted_stable_unique l1 l2 :
  StronglySorted (fun x y => cmp x y <= 0) l1 ->
  StronglySorted (fun x y => cmp x y <= 0) l2 ->
  Permutation l1 l2 ->
  (forall x, List.filter (sort_eqv x) l1 = List.filter (sort_eqv x) l2) ->
  l1 = l2.
Proof.
  revert l2. induction l1 as [|a t1 IH]; intros l2 H1 H2 Hp Hf.
  { symmetry. by apply Permutation_nil. }
  destruct l2 as [|b t2]; [by apply Permutation_sym, Permutation_nil in Hp|].
  apply StronglySorted_inv in H1 as [H1 Ha].
  apply StronglySorted_inv in H2 as [H2 Hb].
  assert (Hab : cmp a b <= 0).
  { destruct (Permutation_in b (Permutation_sym Hp) (or_introl eq_refl)) as [<-|Hin].
    - rewrite cmp_refl. lia.
    - by eapply Forall_forall in Ha. }
  assert (Hba : cmp b a <= 0).
  { destruct (Permutation_in a Hp (or_introl eq_refl)) as [->|Hin].
    - rewrite cmp_refl. lia.
    - by eapply Forall_forall in Hb. }
  assert (Heq := cmp_le_antisym a b Hab Hba).
  specialize (Hf a) as Hfa. simpl in Hfa.
  assert (Haa : sort_eqv a a = true) by (unfold sort_eqv; rewrite cmp_refl; done).
  assert (Hab' : sort_eqv a b = true) by (unfold sort_eqv; rewrite Heq; done).
  rewrite Haa, Hab' in Hfa. injection Hfa as <- _.
  f_equal. apply IH; [done|done| |].
  - by apply Permutation_cons_inv in Hp.
  - intros x. specialize (Hf x). simpl in Hf.
    destruct (sort_eqv x a); [by injection Hf|done].
Qed.

Lemma js_sort_stable l x :
  List.filter (sort_eqv x) (js_sort l) = List.filter (sort_eqv x) l.
Proof.
  induction l as [|z l IH]; simpl; [done|].
  rewrite filter_eqv_insert. simpl. by rewrite IH.
Qed.

Lemma sort_le_transitive :
  Relations_1.Transitive (fun x y => cmp x y <= 0).
Proof. intros a b c. apply cmp_le_trans. Qed.

(** The stable sort meets the contract of [Array.prototype.sort]. *)
Lemma js_sort_meets_contract l : sort_contract l (js_sort l).
Proof.
  split.
  - apply js_sort_Permutation.
  - apply StronglySorted_Sorted, js_sort_StronglySorted.
  - apply js_sort_stable.
Qed.

(** At most one list meets the contract. *)
Lemma sort_contract_unique l o1 o2 :
  sort_contract l o1 -> sort_contract l o2 -> o1 = o2.
Proof.
  intros [P1 S1 T1] [P2 S2 T2].
  apply sorted_stable_unique.
  - by apply Sorted_StronglySorted; [apply sort_le_transitive|].
  - by apply Sorted_StronglySorted; [apply sort_le_transitive|].
  - by rewrite P1, P2.
  - intros x. by rewrite T1, T2.
Qed.

(** C1: refinement.  A list is a result the language allows for
    [input.sort(cmp)] exactly when it is [js_sort cmp input]: whatever
    algorithm the engine runs, the views see the model's result. *)
Theorem js_sort_refines input output :
  sort_contract input output <-> output = js_sort input.
Proof.
  split.
  - intros H. eapply sort_contract_unique; [exact H|apply js_sort_meets_contract].
  - intros ->. apply js_sort_meets_contract.
Qed.
End Consistent.
End JsSort.

Arguments insert {A} cmp x l.
Arguments js_sort {A} cmp l.

(** Sorting commutes with a map that the comparator does not see. *)
Lemma js_sort_map {A B : Type} (cmp : A -> A -> Z) (cmp' : B -> B -> Z) (g : A -> B) l :
  (forall x y, cmp' (g x) (g y) = cmp x y) ->
  js_sort cmp' (map g l) = map g (js_sort cmp l).
Proof.
  intros Hg. induction l as [|x l IH]; simpl; [done|]. rewrite IH.
  clear IH. induction (js_sort cmp l) as [|y t IHt]; simpl; [done|].
  unfold sort_le. rewrite Hg. destruct (cmp x y <=? 0); simpl; [done|].
  by rewrite IHt.
Qed.


#[export] Instance numeric_compare_consistent : ConsistentComparator numeric_compare.
Proof.
  split; unfold numeric_compare.
  - intros a b. replace (b - a) with (- (a - b)) by lia. by rewrite Z.sgn_opp, Z.opp_involutive.
  - intros a b c. lia.
Qed.

Lemma js_sort_refines_witness :
  js_sort numeric_compare [5; (-2); 0] = [(-2); 0; 5] /\
  sort_contract numeric_compare [5; (-2); 0] [(-2); 0; 5].
Proof.
  split; [reflexivity|].
  apply (proj2 (js_sort_refines numeric_compare [5; (-2); 0] [(-2); 0; 5])).
  reflexivity.
Defined.
