(* ===== verification/JsObject.v ===== *)
(** * The object literal [{}] used as a [Record<string, T[]>]

    The views' grouping [reduce] starts from [{} as Record<string, ...>],
    reads [acc[locationName]], assigns [acc[locationName] = []] and finally
    enumerates the object with [Object.entries].  Three pieces of the
    language's object semantics decide what the views show:

    - [[Get]] looks the key up among the object's own properties and then on
      [Object.prototype].  So [acc["constructor"]] is a function and
      [acc["__proto__"]] is [Object.prototype], never [undefined]
      ([get], [object_prototype_keys]).
    - Assigning a key the object does not have creates an own data property
      at the end of the creation order.  Assigning a key it has replaces the
      value in place ([set]).
    - [Object.entries] lists the own keys in [[OwnPropertyKeys]] order.  The
      array-index keys ([canonical decimal strings of 0 .. 2^32 - 2]) come
      first, in ascending numeric order.  The other string keys follow, in
      creation order ([entries], [array_index]).

    The object is a [Record] holding its own properties as an association
    list in creation order.  [set] is only used on keys that are absent from
    [Object.prototype]: the one accessor there, [__proto__], is never
    assigned by the code. *)

From S2P Require Import Prelude JsSort.
Local Open Scope Z_scope.

(** The own property names of [Object.prototype]: ECMAScript 2023 section
    20.1.3 and Annex B.2.2. *)
Definition object_prototype_keys : list string :=
  ["constructor"; "__defineGetter__"; "__defineSetter__"; "hasOwnProperty";
   "__lookupGetter__"; "__lookupSetter__"; "isPrototypeOf";
   "propertyIsEnumerable"; "toString"; "valueOf"; "__proto__";
   "toLocaleString"].

Definition is_prototype_key (k : string) : bool :=
  existsb (String.eqb k) object_prototype_keys.

(** ** Array indices *)

Definition digit_value (c : ascii) : option Z :=
  let n := Z.of_nat (nat_of_ascii c) in
  if (48 <=? n) && (n <=? 57) then Some (n - 48) else None.

(** The value of a string of decimal digits, [None] if another character
    occurs. *)
Fixpoint digits_value (acc : Z) (s : string) : option Z :=
  match s with
  | EmptyString => Some acc
  | String c rest =>
      match digit_value c with
      | Some d => digits_value (10 * acc + d) rest
      | None => None
      end
  end.

(** [2^32 - 2], the largest array index. *)
Definition max_array_index : Z := 4294967294.

(** [Some i] when [k] is an array index with value [i]: a canonical decimal
    numeral (no sign, no leading zero) of an integer in [0 .. 2^32 - 2]. *)
Definition array_index (k : string) : option Z :=
  match k with
  | EmptyString => None
  | String c rest =>
      if Ascii.eqb c "0"%char then
        (if String.eqb rest "" then Some 0 else None)
      else
        match digits_value 0 k with
        | Some n => if n <=? max_array_index then Some n else None
        | None => None
        end
  end.

Section JsObject.
Context {V : Type}.

(** An ordinary object whose prototype is [Object.prototype]; its own
    enumerable data properties in creation order. *)
Record js_object : Type := mk_object {
  own_properties : list (string * V)
}.

Definition empty_object : js_object := mk_object [].

(** The result of [obj[k]]: an own value, a value inherited from
    [Object.prototype] (a function or an object, never an array), or
    [undefined]. *)
Inductive property_value : Type :=
| OwnValue (v : V)
| InheritedValue
| Undefined.

Fixpoint assoc_lookup (k : string) (l : list (string * V)) : option V :=
  match l with
  | [] => None
  | (k', v) :: rest => if String.eqb k k' then Some v else assoc_lookup k rest
  end.

(** Replace the value of [k] in place, or add [k] at the end. *)
Fixpoint assoc_update (k : string) (v : V) (l : list (string * V))
  : list (string * V) :=
  match l with
  | [] => [(k, v)]
  | (k', v') :: rest =>
      if String.eqb k k' then (k, v) :: rest else (k', v') :: assoc_update k v rest
  end.

(** [obj[k]] *)
Definition get (o : js_object) (k : string) : property_value :=
  match assoc_lookup k (own_properties o) with
  | Some v => OwnValue v
  | None => if is_prototype_key k then InheritedValue else Undefined
  end.

(** [obj[k] = v] *)
Definition set (o : js_object) (k : string) (v : V) : js_object :=
  mk_object (assoc_update k v (own_properties o)).

Definition index_keyed (p : string * V) : bool :=
  match array_index (fst p) with Some _ => true | None => false end.

(** The numeric order of array-index keys. *)
Definition index_compare (p q : string * V) : Z :=
  numeric_compare (default (-1) (array_index (fst p)))
                  (default (-1) (array_index (fst q))).

(** [Object.entries(obj)]: the array-index keys in ascending numeric order,
    then the other keys in creation order. *)
Definition entries (o : js_object) : list (string * V) :=
  js_sort index_compare (List.filter index_keyed (own_properties o))
  ++ List.filter (fun p => negb (index_keyed p)) (own_properties o).

(** ** Lemmas *)

#[export] Instance index_compare_consistent : ConsistentComparator index_compare.
Proof.
  split; unfold index_compare.
  - intros a b. apply numeric_compare_consistent.
  - intros a b c. apply numeric_compare_consistent.
Qed.

Lemma assoc_update_update k v1 v2 l :
  assoc_update k v2 (assoc_update k v1 l) = assoc_update k v2 l.
Proof.
  induction l as [|[k' v'] l IH]; simpl.
  - by rewrite String.eqb_refl.
  - destruct (String.eqb_spec k k'); simpl.
    + by rewrite String.eqb_refl.
    + destruct (String.eqb_spec k k'); [done|]. by rewrite IH.
Qed.

Lemma assoc_lookup_update_eq k v l :
  assoc_lookup k (assoc_update k v l) = Some v.
Proof.
  induction l as [|[k' v'] l IH]; simpl; [by rewrite String.eqb_refl|].
  destruct (String.eqb_spec k k'); simpl; [by rewrite String.eqb_refl|].
  destruct (String.eqb_spec k k'); [done|]. done.
Qed.

Lemma assoc_lookup_update_ne k k' v l :
  k <> k' -> assoc_lookup k' (assoc_update k v l) = assoc_lookup k' l.
Proof.
  intros Hne. induction l as [|[k'' v'] l IH]; simpl.
  - destruct (String.eqb_spec k' k); congruence.
  - destruct (String.eqb_spec k k''); simpl.
    + subst. destruct (String.eqb_spec k' k''); congruence.
    + by rewrite IH.
Qed.

Lemma get_set_eq o k v : get (set o k v) k = OwnValue v.
Proof. unfold get, set. simpl. by rewrite assoc_lookup_update_eq. Qed.

Lemma get_set_ne o k k' v : k <> k' -> get (set o k v) k' = get o k'.
Proof. intros Hne. unfold get, set. simpl. by rewrite assoc_lookup_update_ne. Qed.

Lemma entries_Permutation o : Permutation (entries o) (own_properties o).
Proof.
  unfold entries. rewrite js_sort_Permutation.
  rewrite (filter_disjoint_Permutation index_keyed (fun p => negb (index_keyed p))).
  - rewrite filter_true_id; [done|]. intros p _. by destruct (index_keyed p).
  - intros p _ ->. done.
Qed.

(** Without array-index keys, [Object.entries] is the creation order. *)
Lemma entries_no_index o :
  Forall (fun p => array_index (fst p) = None) (own_properties o) ->
  entries o = own_properties o.
Proof.
  intros H. rewrite Forall_forall in H. unfold entries.
  rewrite (filter_false_nil index_keyed).
  - simpl. apply filter_true_id. intros p Hp. unfold index_keyed. by rewrite H.
  - intros p Hp. unfold index_keyed. by rewrite H.
Qed.
End JsObject.

Arguments js_object : clear implicits.
Arguments property_value : clear implicits.
#[export] Hint Rewrite @get_set_eq @assoc_update_update @assoc_lookup_update_eq : shop_rw.

(** [Object.values(obj).forEach(v => mutate(v))]: every own value replaced by
    its image, keys and their order unchanged. *)
Definition map_values {V W : Type} (f : V -> W) (o : js_object V) : js_object W :=
  mk_object (map (fun p => (fst p, f (snd p))) (own_properties o)).

Lemma filter_map_fst {V W : Type} (p : string * W -> bool) (q : string * V -> bool)
  (f : V -> W) l :
  (forall x, p (fst x, f (snd x)) = q x) ->
  List.filter p (map (fun x => (fst x, f (snd x))) l) =
  map (fun x => (fst x, f (snd x))) (List.filter q l).
Proof.
  intros H. induction l as [|x l IH]; simpl; [done|].
  rewrite H. destruct (q x); simpl; by rewrite IH.
Qed.

Lemma entries_map_values {V W : Type} (f : V -> W) (o : js_object V) :
  entries (map_values f o) = map (fun p => (fst p, f (snd p))) (entries o).
Proof.
  unfold entries, map_values. simpl. rewrite map_app.
  rewrite (filter_map_fst index_keyed index_keyed) by done.
  rewrite (filter_map_fst (fun p => negb (index_keyed p)) (fun p => negb (index_keyed p))) by done.
  f_equal. apply js_sort_map. done.
Qed.
