(* ===== verification/Grouping.v ===== *)
(** * The grouping [reduce] of the views

    ShopView ([src/src/views/ShopView.tsx:126-131]), PrintView
    ([PrintView.tsx:61-66]) and ShareView ([ShareView.tsx:63-68] and
    [163-168]) all group the shop's items with the same callback:

    [items.reduce((acc, item) => {
       const locationName = item.product?.location?.name || 'Other';
       if (!acc[locationName]) acc[locationName] = [];
       acc[locationName].push(item);
       return acc;
     }, {})]

    [group_by] is that reduce over the object model of [JsObject.v],
    written for any key function.  [location_name] is the views' key, and
    [group_by_location] is the instance they share.  [push] appends to the
    array held by the object.  Nothing else references that array, so
    replacing the value by the extended list is the same as mutating it in
    place.  When the key names a property inherited from [Object.prototype],
    [acc[locationName]] is a function or an object, the [if] does not fire,
    and [.push] is [undefined]: calling it throws a [TypeError].

    [group_spec] is the declarative result: one bucket per distinct key, in
    first-occurrence order, holding the items with that key in input order.
    [group_by_closed_form] proves the reduce computes it whenever it does
    not throw. *)

From S2P Require Import Prelude Types JsSort JsObject.
Local Open Scope Z_scope.

(** The message V8 gives for the thrown error. *)
Definition push_not_a_function : js_error :=
  TypeError "acc[locationName].push is not a function".

Section Grouping.
Context {A : Type} (key : A -> string).

(** One call of the reduce callback. *)
Definition group_step (acc : js_object (list A)) (item : A)
  : completion (js_object (list A)) :=
  let locationName := key item in
  let acc := match get acc locationName with
             | Undefined => set acc locationName []
             | _ => acc
             end in
  match get acc locationName with
  | OwnValue bucket => Normal (set acc locationName (bucket ++ [item]))
  | _ => Throw push_not_a_function
  end.

Definition group_by (items : list A) : completion (js_object (list A)) :=
  js_reduce group_step items empty_object.

(** ** The declarative grouping *)

Definition first_occurrences (ks : list string) : list string :=
  fold_left (fun seen k => if existsb (String.eqb k) seen then seen else seen ++ [k])
            ks [].

Definition bucket (items : list A) (k : string) : list A :=
  List.filter (fun x => String.eqb (key x) k) items.

Definition group_spec (items : list A) : list (string * list A) :=
  map (fun k => (k, bucket items k)) (first_occurrences (map key items)).

(** ** Lemmas on the declarative grouping *)

Lemma first_occurrences_snoc ks k :
  first_occurrences (ks ++ [k]) =
  if existsb (String.eqb k) (first_occurrences ks)
  then first_occurrences ks else first_occurrences ks ++ [k].
Proof. unfold first_occurrences. by rewrite fold_left_app. Qed.

Lemma existsb_eqb_In k ks : existsb (String.eqb k) ks = true <-> In k ks.
Proof.
  rewrite existsb_exists. split.
  - intros (k' & Hin & Heq). apply String.eqb_eq in Heq. by subst.
  - intros Hin. exists k. split; [done|]. apply String.eqb_refl.
Qed.

Lemma first_occurrences_In ks k : In k (first_occurrences ks) <-> In k ks.
Proof.
  induction ks as [|k' ks IH] using rev_ind; [done|].
  rewrite first_occurrences_snoc, in_app_iff.
  destruct (existsb (String.eqb k') (first_occurrences ks)) eqn:E.
  - apply existsb_eqb_In in E. rewrite IH. simpl. split; [tauto|].
    intros [H|[<-|[]]]; [done|]. by apply IH.
  - rewrite in_app_iff, IH. done.
Qed.

Lemma first_occurrences_NoDup ks : List.NoDup (first_occurrences ks).
Proof.
  induction ks as [|k ks IH] using rev_ind; [constructor|].
  rewrite first_occurrences_snoc.
  destruct (existsb (String.eqb k) (first_occurrences ks)) eqn:E; [done|].
  apply NoDup_app; [done|repeat constructor; by intros []|].
  intros k' Hin [<-|[]]. apply existsb_eqb_In in Hin. congruence.
Qed.

Lemma bucket_snoc items x k :
  bucket (items ++ [x]) k =
  bucket items k ++ (if String.eqb (key x) k then [x] else []).
Proof. unfold bucket. rewrite filter_app. simpl. by destruct (String.eqb (key x) k). Qed.

Lemma bucket_absent items k : ~ In k (map key items) -> bucket items k = [].
Proof.
  intros H. apply filter_false_nil. intros x Hx.
  destruct (String.eqb_spec (key x) k); [|done].
  exfalso. apply H. subst. by apply in_map.
Qed.

Lemma assoc_lookup_map (f : string -> list A) k ks :
  assoc_lookup k (map (fun k' => (k', f k')) ks) =
  if existsb (String.eqb k) ks then Some (f k) else None.
Proof.
  induction ks as [|k' ks IH]; simpl; [done|].
  destruct (String.eqb_spec k k'); [by subst|done].
Qed.

Lemma assoc_update_map (f : string -> list A) k v ks :
  List.NoDup ks -> In k ks ->
  assoc_update k v (map (fun k' => (k', f k')) ks) =
  map (fun k' => (k', if String.eqb k' k then v else f k')) ks.
Proof.
  induction ks as [|k' ks IH]; intros Hnd Hin; [done|].
  apply NoDup_cons_iff in Hnd as [Hnot Hnd]. simpl.
  destruct (String.eqb_spec k k') as [<-|Hne].
  - rewrite String.eqb_refl. f_equal. apply map_ext_in. intros k'' Hk''.
    destruct (String.eqb_spec k'' k); [|done]. subst.
    by exfalso.
  - destruct (String.eqb_spec k' k); [congruence|]. f_equal.
    apply IH; [done|]. destruct Hin; [congruence|done].
Qed.

Lemma assoc_update_map_absent (f : string -> list A) k v ks :
  ~ In k ks ->
  assoc_update k v (map (fun k' => (k', f k')) ks) =
  map (fun k' => (k', f k')) ks ++ [(k, v)].
Proof.
  induction ks as [|k' ks IH]; intros Hin; [done|]. simpl.
  destruct (String.eqb_spec k k'); [exfalso; apply Hin; by left|].
  f_equal. apply IH. intros H. apply Hin. by right.
Qed.

(** ** The reduce computes the declarative grouping *)

Definition not_prototype_key (x : A) : bool := negb (is_prototype_key (key x)).

Lemma lookup_group_spec_prototype pre k :
  Forall (fun x => not_prototype_key x = true) pre -> is_prototype_key k = true ->
  assoc_lookup k (group_spec pre) = None.
Proof.
  intros Hpre Hk. unfold group_spec. rewrite assoc_lookup_map.
  destruct (existsb (String.eqb k) _) eqn:E; [|done].
  apply existsb_eqb_In, first_occurrences_In, in_map_iff in E as (x & <- & Hx).
  rewrite Forall_forall in Hpre. specialize (Hpre x Hx).
  unfold not_prototype_key in Hpre. rewrite Hk in Hpre. done.
Qed.

Lemma get_group_spec pre k :
  get (mk_object (group_spec pre)) k =
  if existsb (String.eqb k) (first_occurrences (map key pre))
  then OwnValue (bucket pre k)
  else if is_prototype_key k then InheritedValue else Undefined.
Proof. unfold get, group_spec. simpl. rewrite assoc_lookup_map. by destruct existsb. Qed.

Lemma group_step_spec pre x :
  is_prototype_key (key x) = false ->
  group_step (mk_object (group_spec pre)) x = Normal (mk_object (group_spec (pre ++ [x]))).
Proof.
  intros Hk. unfold group_step. cbv zeta. rewrite get_group_spec.
  assert (Hs : group_spec (pre ++ [x]) =
               map (fun k => (k, bucket (pre ++ [x]) k))
                   (first_occurrences (map key pre ++ [key x])))
    by (unfold group_spec; by rewrite map_app).
  rewrite Hs, first_occurrences_snoc.
  destruct (existsb (String.eqb (key x)) (first_occurrences (map key pre))) eqn:E.
  - rewrite get_group_spec, E. unfold set, group_spec. simpl.
    rewrite assoc_update_map; [|apply first_occurrences_NoDup|by apply existsb_eqb_In].
    do 2 f_equal. apply map_ext_in. intros k _. rewrite bucket_snoc.
    destruct (String.eqb_spec k (key x)) as [->|Hne].
    + by rewrite String.eqb_refl.
    + destruct (String.eqb_spec (key x) k); [congruence|]. by rewrite app_nil_r.
  - assert (Hnot : ~ In (key x) (first_occurrences (map key pre))).
    { intros H. apply existsb_eqb_In in H. congruence. }
    rewrite Hk, get_set_eq. unfold set, group_spec. simpl.
    rewrite assoc_update_update, assoc_update_map_absent by done.
    assert (Hb : bucket (pre ++ [x]) (key x) = [x]).
    { rewrite bucket_snoc, String.eqb_refl, bucket_absent; [done|].
      by rewrite <- first_occurrences_In. }
    rewrite map_app. simpl. rewrite Hb. f_equal. f_equal. apply (f_equal (fun l => l ++ _)).
    apply map_ext_in. intros k Hk'. rewrite bucket_snoc.
    destruct (String.eqb_spec (key x) k); [by subst|]. by rewrite app_nil_r.
Qed.

Lemma group_step_prototype pre x :
  Forall (fun y => not_prototype_key y = true) pre ->
  is_prototype_key (key x) = true ->
  group_step (mk_object (group_spec pre)) x = Throw push_not_a_function.
Proof.
  intros Hpre Hk. unfold group_step. cbv zeta.
  unfold get. cbn [own_properties]. rewrite lookup_group_spec_prototype by done.
  rewrite Hk. cbn [own_properties]. rewrite lookup_group_spec_prototype by done. reflexivity.
Qed.

Lemma group_reduce_from pre items :
  Forall (fun y => not_prototype_key y = true) pre ->
  js_reduce group_step items (mk_object (group_spec pre)) =
  if forallb not_prototype_key items
  then Normal (mk_object (group_spec (pre ++ items)))
  else Throw push_not_a_function.
Proof.
  revert pre. induction items as [|x items IH]; intros pre Hpre; simpl.
  - by rewrite app_nil_r.
  - unfold not_prototype_key at 1. destruct (is_prototype_key (key x)) eqn:Hk; simpl.
    + by rewrite group_step_prototype.
    + rewrite group_step_spec by done. simpl. rewrite IH.
      * by rewrite <- app_assoc.
      * apply Forall_app. split; [done|]. constructor; [|done].
        unfold not_prototype_key. by rewrite Hk.
Qed.

(** Every bucket of distinct keys together holds the items with one of
    these keys. *)
Lemma concat_buckets_Permutation items ks :
  List.NoDup ks ->
  Permutation (concat (map (bucket items) ks))
              (List.filter (fun x => existsb (String.eqb (key x)) ks) items).
Proof.
  induction ks as [|k ks IH]; intros Hnd; simpl.
  - by rewrite filter_false_nil.
  - apply NoDup_cons_iff in Hnd as [Hk Hnd].
    rewrite IH by done. unfold bucket.
    apply filter_disjoint_Permutation. intros x _ Hx.
    apply String.eqb_eq in Hx. subst.
    destruct (existsb _ ks) eqn:E; [|done].
    by apply existsb_eqb_In in E.
Qed.

(** ** Grouping a sorted list *)

Section Sorted.
Context (f : A -> Z).

Lemma StronglySorted_first_occurrences (R : string -> string -> Prop) ks :
  StronglySorted R ks -> StronglySorted R (first_occurrences ks).
Proof.
  induction ks as [|k ks IH] using rev_ind; intros Hs; [constructor|].
  apply sorting.StronglySorted_app in Hs as (Hx & Hks & _).
  rewrite first_occurrences_snoc. destruct (existsb _ _); [by apply IH|].
  apply sorting.StronglySorted_app_2; [|by apply IH|by repeat constructor].
  intros k1 k2 Hk1 Hk2. apply Hx; [|done].
  apply list_elem_of_In. apply list_elem_of_In in Hk1. by apply first_occurrences_In.
Qed.

Lemma StronglySorted_map_key (g : string -> Z) l :
  (forall x, In x l -> g (key x) = f x) ->
  StronglySorted (fun a b => f a <= f b) l ->
  StronglySorted (fun k1 k2 => g k1 <= g k2) (map key l).
Proof.
  intros Hg. induction 1 as [|x l Hs IH Hx]; simpl; constructor.
  - apply IH. intros y Hy. apply Hg. by right.
  - apply Forall_map, Forall_forall. intros y Hy.
    eapply Forall_forall in Hx; [|exact Hy].
    rewrite (Hg x), (Hg y); [done|by right|by left].
Qed.

Lemma bucket_value (g : string -> Z) l k y :
  (forall x, In x l -> g (key x) = f x) -> In y (bucket l k) -> f y = g k.
Proof.
  intros Hg Hy. unfold bucket in Hy.
  apply filter_In in Hy as [Hy Hky]. apply String.eqb_eq in Hky.
  rewrite <- (Hg y Hy). by f_equal.
Qed.

Lemma StronglySorted_constant (c : Z) l :
  (forall y, In y l -> f y = c) -> StronglySorted (fun a b => f a <= f b) l.
Proof.
  induction l as [|x l IH]; intros Hc; constructor.
  - apply IH. intros y Hy. apply Hc. by right.
  - apply Forall_forall. intros y Hy. rewrite (Hc x), (Hc y); [lia|by right|by left].
Qed.

Lemma StronglySorted_concat_buckets (g : string -> Z) l ks :
  (forall x, In x l -> g (key x) = f x) ->
  StronglySorted (fun k1 k2 => g k1 <= g k2) ks ->
  StronglySorted (fun a b => f a <= f b) (concat (map (bucket l) ks)).
Proof.
  intros Hg. induction 1 as [|k ks Hs IH Hk]; simpl; [constructor|].
  apply sorting.StronglySorted_app_2; [| |done].
  2: { apply (StronglySorted_constant (g k)). intros y Hy. by apply (bucket_value g l k y). }
  intros a b Ha Hb. apply list_elem_of_In in Ha, Hb.
  apply in_concat in Hb as (bs & Hbs & Hbin).
  apply in_map_iff in Hbs as (k' & <- & Hk').
  rewrite (bucket_value g l k a), (bucket_value g l k' b); [|done..].
  by eapply Forall_forall in Hk.
Qed.

(** Grouping a list sorted by [f] yields buckets that, concatenated,
    are still sorted by [f], provided items with the same key have the
    same [f]. *)
Lemma group_spec_StronglySorted l :
  StronglySorted (fun a b => f a <= f b) l ->
  (forall a b, In a l -> In b l -> key a = key b -> f a = f b) ->
  StronglySorted (fun a b => f a <= f b) (concat (map snd (group_spec l))).
Proof.
  intros Hs Hfun.
  set (g := fun k => match List.find (fun x => String.eqb (key x) k) l with
                     | Some x => f x | None => 0 end).
  assert (Hg : forall x, In x l -> g (key x) = f x).
  { intros x Hx. unfold g.
    destruct (List.find _ l) as [y|] eqn:Hf.
    - apply find_some in Hf as [Hy Hky]. apply String.eqb_eq in Hky. by apply Hfun.
    - eapply find_none in Hf; [|exact Hx]. by rewrite String.eqb_refl in Hf. }
  unfold group_spec. rewrite map_map. simpl.
  apply (StronglySorted_concat_buckets g); [done|].
  by apply StronglySorted_first_occurrences, StronglySorted_map_key.
Qed.
End Sorted.

(** The grouping reduce in closed form. *)
Lemma group_by_closed_form items :
  group_by items =
  if forallb not_prototype_key items
  then Normal (mk_object (group_spec items))
  else Throw push_not_a_function.
Proof. unfold group_by. apply (group_reduce_from [] items). constructor. Qed.

(** The buckets, concatenated, are a permutation of the items. *)
Lemma group_by_buckets_Permutation items o :
  group_by items = Normal o ->
  Permutation (concat (map snd (entries o))) items.
Proof.
  rewrite group_by_closed_form. destruct (forallb _ _); [|done]. intros [= <-].
  rewrite (Permutation_concat_compat _ _ (Permutation_map snd (entries_Permutation _))).
  simpl. unfold group_spec. rewrite map_map. simpl.
  rewrite concat_buckets_Permutation by apply first_occurrences_NoDup.
  rewrite filter_true_id; [done|]. intros x Hx.
  apply existsb_eqb_In, first_occurrences_In. by apply in_map.
Qed.

(** C3: no item is lost or duplicated: when the reduce returns, the
    buckets [Object.entries] lists, concatenated, are a permutation of the
    input. *)
Theorem group_by_partition items o :
  group_by items = Normal o ->
  Permutation (concat (map snd (entries o))) items.
Proof. apply group_by_buckets_Permutation. Qed.

(** C2: the grouping reduce, on every input: when no item's key names a
    property of [Object.prototype] it returns the object whose own
    properties are [group_spec items] (one bucket per distinct key, in
    first-occurrence order, each holding that key's items in input order);
    otherwise the callback throws [TypeError] at the first such item. *)
Theorem group_by_spec items :
  group_by items =
  if forallb not_prototype_key items
  then Normal (mk_object (group_spec items))
  else Throw push_not_a_function.
Proof. apply group_by_closed_form. Qed.

(** Without array-index names the buckets come in first-occurrence order. *)
Lemma group_by_entries_first_occurrence items o :
  group_by items = Normal o ->
  Forall (fun x => array_index (key x) = None) items ->
  entries o = group_spec items.
Proof.
  rewrite group_by_closed_form. destruct (forallb _ _); [|done]. intros [= <-] Hidx.
  apply entries_no_index. simpl. apply Forall_forall. intros [k b] Hin.
  unfold group_spec in Hin. apply in_map_iff in Hin as (k' & [= <- _] & Hk').
  apply first_occurrences_In, in_map_iff in Hk' as (x & <- & Hx).
  simpl. by eapply Forall_forall in Hidx.
Qed.

(** C4: when no key is an array index, [Object.entries] lists the buckets
    in first-occurrence order, as [group_spec] has them. *)
Theorem group_by_entries_order items o :
  group_by items = Normal o ->
  Forall (fun x => array_index (key x) = None) items ->
  entries o = group_spec items.
Proof. apply group_by_entries_first_occurrence. Qed.
End Grouping.

(** ** The views' grouping key *)

(** [item.product?.location?.name || 'Other'] *)
Definition location_name (item : WeeklyShopItem.t) : string :=
  js_or_str (option_map StoreLocation.name (item_location item)) "Other".

Definition group_by_location : list WeeklyShopItem.t -> completion (js_object (list WeeklyShopItem.t)) :=
  group_by location_name.

(** ** Concrete runs *)

Lemma group_by_partition_witness :
  let items := [Fixtures.placed "milk" required "Dairy" 2 1;
                Fixtures.item "bread" required None;
                Fixtures.placed "cheese" bought "Dairy" 2 3] in
  exists o, group_by_location items = Normal o /\
            Permutation (concat (map snd (entries o))) items.
Proof.
  intros items. eexists. split; [reflexivity|].
  apply (group_by_partition location_name items). reflexivity.
Defined.

Lemma group_by_entries_order_witness :
  let items := [Fixtures.placed "milk" required "Dairy" 2 1;
                Fixtures.item "bread" required None;
                Fixtures.placed "cheese" bought "Dairy" 2 3] in
  exists o, group_by_location items = Normal o /\
            entries o = group_spec location_name items.
Proof.
  intros items. eexists. split; [reflexivity|].
  apply (group_by_entries_order location_name items); [reflexivity|].
  repeat constructor.
Defined.

(** A section named after a property of [Object.prototype] makes the
    views' grouping throw: the callback reads [acc["constructor"]], gets
    [Object]'s constructor function, skips the initialisation and calls
    [.push] on it. *)
Example group_by_location_prototype_name :
  group_by_location [Fixtures.placed "milk" required "Dairy" 1 1;
                     Fixtures.placed "salt" required "constructor" 2 1]
  = Throw push_not_a_function.
Proof. reflexivity. Qed.

(** Section names that are array indices are listed first by
    [Object.entries], in numeric order, whatever order the items came in:
    sections "Produce", "12", "3" seen in that order are shown as
    "3", "12", "Produce". *)
Example group_by_location_numeric_names :
  exists o,
    group_by_location [Fixtures.placed "apple" required "Produce" 1 1;
                       Fixtures.placed "rice" required "12" 2 1;
                       Fixtures.placed "beans" required "3" 3 1] = Normal o /\
    map fst (entries o) = ["3"; "12"; "Produce"] /\
    map fst (own_properties o) = ["Produce"; "12"; "3"].
Proof. eexists. split; [reflexivity|]. split; reflexivity. Qed.
