(* ===== verification/ShopView.v ===== *)
(** * The shopping view ([src/src/views/ShopView.tsx])

    ShopView holds the latest weekly shop ([currentShop]), a [loading] flag
    and two toggles ([showCompleted], [sortBy]).  On each render it
    - filters the items ([showCompleted || item.status === 'required']),
    - sorts a copy with a comparator chosen by [sortBy],
    - groups the sorted items by section name with the shared reduce
      ([Grouping.v]) and renders [Object.entries] of the result,
    - computes the progress counts over ALL items.
    This file models those steps ([filtered_items], [shop_compare],
    [sorted_items], [items_by_location], [progress_of]), the progress
    bar's width ([bar_width]), the share-unavailable handler, and the
    view's state together with the backend as a step relation ([step]:
    writes to any of the four tables the query reads, of which only those
    to [weekly_shop_items] after [subscribe()] completed send a query; fetch
    answers in any order; failed requests; toggles).  [answer_in_order] is
    the answers arriving in the order the queries were sent.

    The alphabetical comparator calls [String.prototype.localeCompare],
    whose result depends on the browser's collation tables.  It is a
    parameter [localeCompare] of the definitions.  Theorems that need it to
    behave take a [ConsistentComparator localeCompare] instance, which
    ECMAScript requires of [localeCompare]. *)

From S2P Require Import Prelude JsString Types JsSort JsObject Grouping.
From Stdlib Require Import QArith_base.
Local Open Scope Z_scope.

(** [useState<'location' | 'alphabetical'>] *)
Inductive sort_by : Type :=
| location
| alphabetical.

(** ** The comparators *)

(** [a.product?.location?.sequence_number || 0] *)
Definition location_sequence (item : WeeklyShopItem.t) : Z :=
  js_or_num (option_map StoreLocation.sequence_number (item_location item)) 0.

(** [a.product?.sequence_number || 0] *)
Definition product_sequence (item : WeeklyShopItem.t) : Z :=
  js_or_num (option_map Product.sequence_number (WeeklyShopItem.product item)) 0.

(** [a.product?.name || ''] *)
Definition product_name_or_empty (item : WeeklyShopItem.t) : string :=
  js_or_str (item_product_name item) "".

(** The [sortBy === 'location'] branch of the comparator. *)
Definition location_compare (a b : WeeklyShopItem.t) : Z :=
  let locationDiff := location_sequence a - location_sequence b in
  if negb (Z.eqb locationDiff 0) then locationDiff
  else product_sequence a - product_sequence b.

(** The comparator passed to [sort]. *)
Definition shop_compare (localeCompare : string -> string -> Z) (sortBy : sort_by)
  (a b : WeeklyShopItem.t) : Z :=
  match sortBy with
  | location => location_compare a b
  | alphabetical => localeCompare (product_name_or_empty a) (product_name_or_empty b)
  end.

(** ** The composition pipeline *)

(** [currentShop.items.filter(item => showCompleted || item.status === 'required')] *)
Definition filtered_items (showCompleted : bool) (items : list WeeklyShopItem.t)
  : list WeeklyShopItem.t :=
  List.filter (fun item => showCompleted || status_eqb (WeeklyShopItem.status item) required)
              items.

(** [[...filteredItems].sort(...)] *)
Definition sorted_items (localeCompare : string -> string -> Z) (sortBy : sort_by)
  (showCompleted : bool) (items : list WeeklyShopItem.t) : list WeeklyShopItem.t :=
  js_sort (shop_compare localeCompare sortBy) (filtered_items showCompleted items).

(** [sortedItems.reduce(...)] *)
Definition items_by_location (localeCompare : string -> string -> Z) (sortBy : sort_by)
  (showCompleted : bool) (items : list WeeklyShopItem.t)
  : completion (js_object (list WeeklyShopItem.t)) :=
  group_by_location (sorted_items localeCompare sortBy showCompleted items).

(** The items in the order the view renders them: the buckets of
    [Object.entries(itemsByLocation)], one after the other. *)
Definition displayed_items (o : js_object (list WeeklyShopItem.t)) : list WeeklyShopItem.t :=
  concat (map snd (entries o)).

(** ** Progress *)

Module Progress.
(** [{ total, completed, unavailable }] *)
Record t : Type := mk {
  total : Z;
  completed : Z;
  unavailable : Z
}.
End Progress.

Definition count_status (st : item_status) (items : list WeeklyShopItem.t) : Z :=
  Z.of_nat (length (List.filter (fun item => status_eqb (WeeklyShopItem.status item) st) items)).

Definition progress_of (shop : WeeklyShop.t) : Progress.t :=
  Progress.mk (Z.of_nat (length (WeeklyShop.items shop)))
              (count_status bought (WeeklyShop.items shop))
              (count_status unavailable (WeeklyShop.items shop)).

(** [(progress.completed / progress.total) * 100] (line 177), a number:
    [NaN] ([None]) for [0 / 0].  The quotient is the exact rational; the
    double the browser computes differs from it by rounding only. *)
Definition progress_percent (p : Progress.t) : option Q :=
  if Z.eqb (Progress.total p) 0 then None
  else Some (inject_Z (Progress.completed p) / inject_Z (Progress.total p) * 100)%Q.

(** [style={{ width: `${...}%` }}] (lines 173-180): the browser drops the
    invalid declaration [width: NaN%], and the bar, a block [div], then
    fills its track. *)
Definition bar_width (p : Progress.t) : Q :=
  match progress_percent p with Some w => w | None => 100%Q end.

(** ** Sharing the unavailable items ([shareUnavailableItems], lines 59-85) *)

(** [.map(item => item.product?.name).filter(Boolean)]: the names that are
    defined and not empty. *)
Definition truthy_names (names : list (option string)) : list string :=
  fold_right (fun o acc => match o with
                           | Some s => if String.eqb s "" then acc else s :: acc
                           | None => acc
                           end) [] names.

Definition unavailable_names (items : list WeeklyShopItem.t) : list string :=
  truthy_names (map item_product_name
     (List.filter (fun item => status_eqb (WeeklyShopItem.status item) unavailable) items)).

(** What the handler does.  [toast.info] is not a function of
    react-hot-toast (it has [success], [error], [loading], [custom]), so the
    empty case throws. *)
Inductive share_action : Type :=
| ShareNothing                          (* [if (!currentShop) return;] *)
| ShareText (title text : string).      (* [navigator.share] or the clipboard *)

Definition toast_info_not_a_function : js_error := TypeError "toast.info is not a function".

Definition share_unavailable_items (currentShop : option WeeklyShop.t)
  : completion share_action :=
  match currentShop with
  | None => Normal ShareNothing
  | Some shop =>
      let unavailableItems := js_join newline (unavailable_names (WeeklyShop.items shop)) in
      if String.eqb unavailableItems "" then Throw toast_info_not_a_function
      else Normal (ShareText "Unavailable Items"
                             ("Unavailable Items:" +:+ newline +:+ unavailableItems))
  end.

(** ** The view's state ([useState] hooks, lines 9-12) *)

Record view_state : Type := mk_view {
  currentShop : option WeeklyShop.t;
  loading : bool;
  showCompleted : bool;
  sortBy : sort_by
}.

Definition initial_view : view_state := mk_view None true false location.

(** The answer to the [weekly_shops] query (lines 16-30).  [.single()]
    answers with an error when the query has no row. *)
Inductive fetch_result : Type :=
| FetchData (shop : WeeklyShop.t)
| FetchError.

(** [.order('shop_date', { ascending: false })]: later dates first. *)
Definition shop_date_desc (a b : WeeklyShop.t) : Z :=
  match String.compare (WeeklyShop.shop_date b) (WeeklyShop.shop_date a) with
  | Lt => -1
  | Eq => 0
  | Gt => 1
  end.

(** [.order(...).limit(1).single()] over the table's rows. *)
Definition latest_shop (shops : list WeeklyShop.t) : fetch_result :=
  match js_sort shop_date_desc shops with
  | shop :: _ => FetchData shop
  | [] => FetchError
  end.

(** The continuation of [fetchCurrentShop] once the query answers. *)
Definition apply_fetch (r : fetch_result) (s : view_state) : view_state :=
  match r with
  | FetchError => s                                  (* toast.error; return; *)
  | FetchData shop => mk_view (Some shop) false (showCompleted s) (sortBy s)
  end.

(** [setSortBy(prev => prev === 'location' ? 'alphabetical' : 'location')] *)
Definition toggle_sort (s : view_state) : view_state :=
  mk_view (currentShop s) (loading s) (showCompleted s)
          (match sortBy s with location => alphabetical | alphabetical => location end).

(** [setShowCompleted(!showCompleted)] *)
Definition toggle_completed (s : view_state) : view_state :=
  mk_view (currentShop s) (loading s) (negb (showCompleted s)) (sortBy s).

(** What the component renders (lines 87-191). *)
Inductive screen : Type :=
| Spinner
| NoActiveList
| ShopScreen (progress : Progress.t)
             (sections : completion (list (string * list WeeklyShopItem.t))).

Definition render (localeCompare : string -> string -> Z) (s : view_state) : screen :=
  if loading s then Spinner else
  match currentShop s with
  | None => NoActiveList
  | Some shop =>
      ShopScreen (progress_of shop)
        (completion_bind
           (items_by_location localeCompare (sortBy s) (showCompleted s) (WeeklyShop.items shop))
           (fun o => Normal (entries o)))
  end.

(** ** The view and the backend together

    The mount effect (lines 14-57) calls [fetchCurrentShop] and opens a
    channel on the changes of [weekly_shop_items] only; once [subscribe()]
    has completed, every change of that table calls [fetchCurrentShop]
    again.  The query joins four tables, so the backend is modelled by the
    joined rows ([shops_table]); a write changes them and names the table
    it writes.  A write to another table, or one made before the channel is
    subscribed, starts no query.  Queries run concurrently: each answer is
    computed from the rows as they are when the query is sent, answers
    arrive in any order, and any request may fail (network, permissions),
    which takes the error branch.  Unmounting is not modelled. *)

(** The tables the query reads. *)
Inductive table_name : Type :=
| weekly_shops_table
| weekly_shop_items_table
| products_table
| store_locations_table.

(** [.on('postgres_changes', { event: '*', schema: 'public',
    table: 'weekly_shop_items' }, () => fetchCurrentShop())] *)
Definition notifies (t : table_name) : bool :=
  match t with weekly_shop_items_table => true | _ => false end.

Record system : Type := mk_system {
  shops_table : list WeeklyShop.t;
  view : view_state;
  in_flight : list fetch_result;
  subscribed : bool
}.

(** At mount the first query is sent; the channel is not yet subscribed. *)
Definition initial_system (shops : list WeeklyShop.t) : system :=
  mk_system shops initial_view [latest_shop shops] false.

(** A write to table [t] leaving the rows [shops'], with the query its
    change notification sends. *)
Definition write (t : table_name) (shops' : list WeeklyShop.t) (s : system) : system :=
  mk_system shops' (view s)
    (if subscribed s && notifies t then in_flight s ++ [latest_shop shops'] else in_flight s)
    (subscribed s).

(** [.subscribe()] completes. *)
Definition subscribe (s : system) : system :=
  mk_system (shops_table s) (view s) (in_flight s) true.

(** The answer [r] arrives; [pre ++ post] are still in flight. *)
Definition receive (r : fetch_result) (pre post : list fetch_result) (s : system) : system :=
  mk_system (shops_table s) (apply_fetch r (view s)) (pre ++ post) (subscribed s).

Definition with_view (v : view_state) (s : system) : system :=
  mk_system (shops_table s) v (in_flight s) (subscribed s).

Inductive step : system -> system -> Prop :=
| step_write t shops' s : step s (write t shops' s)
| step_subscribe s : step s (subscribe s)
| step_answer s pre r post :
    in_flight s = pre ++ r :: post -> step s (receive r pre post s)
| step_fail s pre r post :
    (* the request fails: [if (error) { toast.error(...); return; }] *)
    in_flight s = pre ++ r :: post -> step s (receive FetchError pre post s)
| step_toggle_sort s : step s (with_view (toggle_sort (view s)) s)
| step_toggle_completed s : step s (with_view (toggle_completed (view s)) s).

(** The answers in flight arriving in the order the queries were sent,
    none failing, while the user only toggles. *)
Inductive answer_in_order : system -> system -> Prop :=
| in_order_answer s r post :
    in_flight s = r :: post -> answer_in_order s (receive r [] post s)
| in_order_toggle_sort s : answer_in_order s (with_view (toggle_sort (view s)) s)
| in_order_toggle_completed s : answer_in_order s (with_view (toggle_completed (view s)) s).

(** Every step but a write to [weekly_shop_items] once the channel is
    subscribed: the writes the channel does not report, and every step
    that is not a write (answers, failures, the subscription, toggles). *)
Inductive step_unnotified : system -> system -> Prop :=
| unnotified_write t shops' s :
    t <> weekly_shop_items_table \/ subscribed s = false ->
    step_unnotified s (write t shops' s)
| unnotified_other s1 s2 :
    step s1 s2 -> (forall t shops', s2 <> write t shops' s1) -> step_unnotified s1 s2.

(** ** Lemmas *)

Lemma location_compare_opp a b : location_compare b a = - location_compare a b.
Proof.
  unfold location_compare. cbv zeta.
  destruct (Z.eqb_spec (location_sequence a - location_sequence b) 0);
  destruct (Z.eqb_spec (location_sequence b - location_sequence a) 0); simpl; lia.
Qed.

Lemma location_compare_le a b :
  location_compare a b <= 0 <->
  location_sequence a < location_sequence b \/
  (location_sequence a = location_sequence b /\ product_sequence a <= product_sequence b).
Proof.
  unfold location_compare. cbv zeta.
  destruct (Z.eqb_spec (location_sequence a - location_sequence b) 0); simpl; lia.
Qed.

#[export] Instance location_compare_consistent : ConsistentComparator location_compare.
Proof.
  split.
  - intros a b. by rewrite location_compare_opp, Z.sgn_opp.
  - intros a b c. rewrite !location_compare_le. lia.
Qed.

#[export] Instance shop_compare_consistent localeCompare sortBy :
  ConsistentComparator localeCompare ->
  ConsistentComparator (shop_compare localeCompare sortBy).
Proof.
  intros Hlc. destruct sortBy; simpl; [apply location_compare_consistent|].
  split; intros; simpl.
  - apply cmp_antisym.
  - by eapply cmp_le_trans.
Qed.

Lemma filtered_items_In showCompleted items x :
  In x (filtered_items showCompleted items) <->
  In x items /\ (showCompleted = true \/ WeeklyShopItem.status x = required).
Proof.
  unfold filtered_items. rewrite filter_In, orb_true_iff, status_eqb_eq. done.
Qed.

Lemma sorted_items_In localeCompare sortBy showCompleted items x :
  In x (sorted_items localeCompare sortBy showCompleted items) ->
  In x items.
Proof.
  unfold sorted_items. intros Hx.
  apply (Permutation_in _ (js_sort_Permutation _ _)), filtered_items_In in Hx. tauto.
Qed.

(** C5: no entry is lost or duplicated: when the pipeline returns, the
    items it displays, bucket after bucket, are a permutation of the items
    the filter keeps (all items when [showCompleted], the [required] ones
    otherwise), whatever the sort mode. *)
Theorem shop_display_partition localeCompare sortBy showCompleted items o :
  items_by_location localeCompare sortBy showCompleted items = Normal o ->
  Permutation (displayed_items o) (filtered_items showCompleted items).
Proof.
  intros H. unfold displayed_items.
  rewrite (group_by_buckets_Permutation _ _ _ H). apply js_sort_Permutation.
Qed.

(** The location-mode sort orders by section, then by product sequence. *)
Lemma sorted_items_StronglySorted localeCompare showCompleted items :
  StronglySorted
    (fun a b => location_sequence a < location_sequence b \/
                (location_sequence a = location_sequence b /\
                 product_sequence a <= product_sequence b))
    (sorted_items localeCompare location showCompleted items).
Proof.
  eapply StronglySorted_impl; [|apply (js_sort_StronglySorted location_compare)].
  intros a b. apply location_compare_le.
Qed.

(** C6: in location mode the sorted list is ordered by section sequence
    number, and by product sequence number within equal section numbers
    (missing joins counting as [0]). *)
Theorem sorted_items_location_order localeCompare showCompleted items :
  StronglySorted
    (fun a b => location_sequence a < location_sequence b \/
                (location_sequence a = location_sequence b /\
                 product_sequence a <= product_sequence b))
    (sorted_items localeCompare location showCompleted items).
Proof. apply sorted_items_StronglySorted. Qed.

(** C7: the order the shopper sees.  In location mode the displayed
    items are ordered by section sequence number, provided no section name
    is an array index and sections with the same name have the same
    sequence number.  (Without these provisos it fails: see
    [shop_display_numeric_sections].) *)
Theorem shop_display_location_order localeCompare showCompleted items o :
  items_by_location localeCompare location showCompleted items = Normal o ->
  (forall x, In x items -> array_index (location_name x) = None) ->
  (forall a b, In a items -> In b items ->
     location_name a = location_name b -> location_sequence a = location_sequence b) ->
  StronglySorted (fun a b => location_sequence a <= location_sequence b)
                 (displayed_items o).
Proof.
  intros H Hidx Hfun. unfold displayed_items.
  rewrite (group_by_entries_first_occurrence _ _ _ H).
  2: { apply Forall_forall. intros x Hx. by eapply Hidx, sorted_items_In. }
  apply group_spec_StronglySorted.
  - eapply StronglySorted_impl; [|apply sorted_items_StronglySorted].
    intros a b Hab. cbv beta in Hab. lia.
  - intros a b Ha Hb. apply Hfun; by eapply sorted_items_In.
Qed.

(** Progress counts partition the shop: every item is counted once,
    as bought, unavailable or still required.  They are computed from all
    items, so the filter and sort toggles cannot change them. *)
Theorem progress_partition shop :
  Progress.total (progress_of shop) =
  Progress.completed (progress_of shop) + Progress.unavailable (progress_of shop)
  + count_status required (WeeklyShop.items shop).
Proof.
  unfold progress_of, count_status. simpl.
  induction (WeeklyShop.items shop) as [|x l IH]; simpl; [done|].
  destruct (WeeklyShopItem.status x); simpl; lia.
Qed.

(** The bar's width, from the counts: within the track, and full exactly
    when everything is collected or there is nothing to collect. *)
Lemma bar_width_bounds t c u :
  0 <= c <= t ->
  (0 <= bar_width (Progress.mk t c u) <= 100)%Q /\
  (bar_width (Progress.mk t c u) == 100 <-> c = t)%Q.
Proof.
  intros Hc. unfold bar_width, progress_percent. simpl.
  destruct (Z.eqb_spec t 0) as [->|Ht].
  - unfold Qle, Qeq. simpl. lia.
  - destruct t as [|tp|tn]; [done| |lia].
    unfold Qle, Qeq. simpl. rewrite !Pos.mul_1_r. nia.
Qed.

Lemma count_status_bounds st items :
  0 <= count_status st items <= Z.of_nat (length items).
Proof. unfold count_status. pose proof (count_filter_length (fun item => status_eqb (WeeklyShopItem.status item) st) items). lia. Qed.

Lemma count_status_full st items :
  count_status st items = Z.of_nat (length items) <->
  Forall (fun item => WeeklyShopItem.status item = st) items.
Proof.
  unfold count_status. rewrite Nat2Z.inj_iff, filter_length_full.
  apply Forall_iff. intros item. apply status_eqb_eq.
Qed.

(** C10: the progress bar stays within its track: its width is between 0%
    and 100% of it, and it is full exactly when every item is bought.  An
    empty shop therefore shows a full bar: [0 / 0] is [NaN], the browser
    drops [width: NaN%], and the bar fills the track. *)
Theorem progress_bar_bounds shop :
  (0 <= bar_width (progress_of shop) <= 100)%Q /\
  (bar_width (progress_of shop) == 100 <->
   Forall (fun item => WeeklyShopItem.status item = bought) (WeeklyShop.items shop))%Q.
Proof.
  unfold progress_of. rewrite <- count_status_full.
  apply bar_width_bounds, count_status_bounds.
Qed.

(** ** Concrete runs *)

(** No collation is needed in location mode. *)
Definition no_collation (a b : string) : Z := 0.

Definition scenario_items : list WeeklyShopItem.t :=
  [Fixtures.placed "A" required "Bakery" 2 1;
   Fixtures.placed "B" required "Produce" 1 5;
   Fixtures.placed "C" required "Produce" 1 1].

(** The spec's scenario: A (section 2, product 1), B (section 1,
    product 5), C (section 1, product 1) are shown C, B, A. *)
Example shop_scenario_location_order :
  exists o,
    items_by_location no_collation location false scenario_items = Normal o /\
    map WeeklyShopItem.id (displayed_items o) = ["C"; "B"; "A"].
Proof. eexists. split; reflexivity. Qed.

(** An item without a product and an item in a section numbered [0] keep
    their input order, in both orders. *)
Example shop_missing_product_stable :
  let orphan := Fixtures.item "orphan" required None in
  let zero := Fixtures.placed "zero" required "Entrance" 0 0 in
  map WeeklyShopItem.id (sorted_items no_collation location false [orphan; zero])
    = ["orphan"; "zero"] /\
  map WeeklyShopItem.id (sorted_items no_collation location false [zero; orphan])
    = ["zero"; "orphan"].
Proof. split; reflexivity. Qed.

(** Aisles named by numbers break the store order: aisle "12" comes
    first in the store (sequence 1) and aisle "3" second, yet the view
    shows aisle "3" first because [Object.entries] lists array-index keys
    in numeric order. *)
Example shop_display_numeric_sections :
  exists o,
    items_by_location no_collation location false
      [Fixtures.placed "rice" required "12" 1 1;
       Fixtures.placed "beans" required "3" 2 1] = Normal o /\
    map WeeklyShopItem.id (displayed_items o) = ["beans"; "rice"] /\
    map location_sequence (displayed_items o) = [2; 1].
Proof. eexists. split; [reflexivity|]. split; reflexivity. Qed.

Lemma shop_display_partition_witness :
  exists o,
    items_by_location no_collation location false scenario_items = Normal o /\
    Permutation (displayed_items o) (filtered_items false scenario_items).
Proof.
  eexists. split; [reflexivity|].
  apply (shop_display_partition no_collation location false scenario_items). reflexivity.
Defined.

Lemma shop_display_location_order_witness :
  exists o,
    items_by_location no_collation location false scenario_items = Normal o /\
    StronglySorted (fun a b => location_sequence a <= location_sequence b)
                   (displayed_items o).
Proof.
  eexists. split; [reflexivity|].
  apply (shop_display_location_order no_collation false scenario_items).
  - reflexivity.
  - intros x Hx. repeat (destruct Hx as [<-|Hx]; [reflexivity|]). destruct Hx.
  - intros a b Ha Hb.
    repeat (destruct Ha as [<-|Ha]; [|]); try destruct Ha;
    repeat (destruct Hb as [<-|Hb]; [|]); try destruct Hb;
    vm_compute; congruence.
Defined.

(** ** The share handler *)

Lemma truthy_names_nonempty names : Forall (fun s => s <> "") (truthy_names names).
Proof.
  induction names as [|[s|] names IH]; simpl; [constructor| |done].
  destruct (String.eqb_spec s ""); [done|]. by constructor.
Qed.

Lemma js_join_empty sep names :
  Forall (fun s => s <> "") names -> js_join sep names = "" <-> names = [].
Proof.
  intros H. split; [|by intros ->].
  destruct names as [|s [|s' rest]]; [done| |]; inversion H; subst.
  - done.
  - simpl. by destruct s.
Qed.

(** C11: the share-unavailable handler on every branch: with no shop it
    does nothing; when no unavailable item has a name it throws (it calls
    [toast.info], which react-hot-toast does not have); otherwise it shares
    the header line followed by the names of the unavailable items, one per
    line, in list order. *)
Theorem share_unavailable_spec shop :
  share_unavailable_items (Some shop) =
  match unavailable_names (WeeklyShop.items shop) with
  | [] => Throw toast_info_not_a_function
  | names => Normal (ShareText "Unavailable Items"
                      ("Unavailable Items:" +:+ newline +:+ js_join newline names))
  end.
Proof.
  unfold share_unavailable_items. cbv zeta.
  pose proof (js_join_empty newline _ (truthy_names_nonempty
     (map item_product_name
        (List.filter (fun item => status_eqb (WeeklyShopItem.status item) unavailable)
                     (WeeklyShop.items shop))))) as Hj.
  unfold unavailable_names in *.
  destruct (truthy_names _) as [|n ns]; [done|].
  destruct (String.eqb_spec (js_join newline (n :: ns)) ""); [|done].
  by apply Hj in e.
Qed.

(** ** The view's state machine *)

Ltac unfold_system := unfold write, subscribe, receive, with_view in *; simpl in *.

Definition loaded_has_shop (s : system) : Prop :=
  loading (view s) = false -> currentShop (view s) <> None.

Lemma loaded_has_shop_step s1 s2 :
  loaded_has_shop s1 -> step s1 s2 -> loaded_has_shop s2.
Proof.
  unfold loaded_has_shop. intros Hinv Hstep.
  destruct Hstep as [t shops' s|s|s pre r post _|s pre r post _|s|s]; unfold_system;
    try exact Hinv.
  destruct r; simpl; [done|exact Hinv].
Qed.

(** C12: the "No active shopping list" screen is unreachable: whatever
    writes, change notifications, answers (in any order), failed requests
    and toggles happen, a view that has stopped loading holds a shop,
    because only a successful fetch clears [loading]. *)
Theorem shop_view_never_no_active_list localeCompare shops s :
  star step (initial_system shops) s ->
  render localeCompare (view s) <> NoActiveList.
Proof.
  intros Hreach.
  assert (Hinv : loaded_has_shop s).
  { apply (star_invariant step loaded_has_shop loaded_has_shop_step _ _ Hreach).
    by unfold loaded_has_shop. }
  unfold render, loaded_has_shop in *.
  destruct (loading (view s)); [done|].
  destruct (currentShop (view s)); [done|]. by specialize (Hinv eq_refl).
Qed.

(** The steps possible while the backend has no weekly shop at all. *)
Definition step_without_shop (s1 s2 : system) : Prop :=
  step s1 s2 /\ shops_table s2 = [].

Definition still_loading (s : system) : Prop :=
  loading (view s) = true /\ currentShop (view s) = None /\
  Forall (fun r => r = FetchError) (in_flight s).

Lemma Forall_error_split pre r post :
  Forall (fun r => r = FetchError) (pre ++ r :: post) ->
  r = FetchError /\ Forall (fun r => r = FetchError) (pre ++ post).
Proof.
  intros [Hpre Hpost]%Forall_app. inversion Hpost; subst.
  split; [done|]. by apply Forall_app.
Qed.

Lemma still_loading_step s1 s2 :
  still_loading s1 -> step_without_shop s1 s2 -> still_loading s2.
Proof.
  intros (Hl & Hc & Hf) [Hstep Hempty]. unfold still_loading.
  destruct Hstep as [t shops' s|s|s pre r post Hr|s pre r post Hr|s|s]; unfold_system;
    try by repeat split.
  - subst shops'. repeat split; [done|done|]. destruct (_ && _); [|done].
    apply Forall_app. by repeat constructor.
  - rewrite Hr in Hf. apply Forall_error_split in Hf as [-> Hf]. by repeat split.
  - rewrite Hr in Hf. apply Forall_error_split in Hf as [_ Hf]. by repeat split.
Qed.

(** C13: while no weekly shop exists, every query fails ([.single()] on no
    row), the error branch returns without clearing [loading], and the
    view shows the spinner for ever; it never reaches its "No active
    shopping list" screen. *)
Theorem shop_view_spinner_without_shop localeCompare s :
  star step_without_shop (initial_system []) s ->
  render localeCompare (view s) = Spinner.
Proof.
  intros Hreach.
  assert (Hs : still_loading s).
  { apply (star_invariant _ still_loading still_loading_step _ _ Hreach).
    repeat split. by repeat constructor. }
  destruct Hs as [Hl _]. unfold render. by rewrite Hl.
Qed.

(** ** What the channel reports and what it misses *)

(** After a reported write the newest query in flight answers with
    [FetchData shop]; with nothing left in flight the view shows [shop]. *)
Definition shows_after (shop : WeeklyShop.t) (s : system) : Prop :=
  match in_flight s with
  | [] => currentShop (view s) = Some shop /\ loading (view s) = false
  | _ => head (reverse (in_flight s)) = Some (FetchData shop)
  end.

Lemma head_reverse_snoc {A} (l : list A) x : head (reverse (l ++ [x])) = Some x.
Proof. by rewrite reverse_snoc. Qed.

Lemma head_reverse_cons {A} (x y : A) l : head (reverse (x :: y :: l)) = head (reverse (y :: l)).
Proof.
  rewrite !reverse_cons, <- app_assoc. by destruct (reverse l).
Qed.

Lemma shows_after_write shop shops' s :
  subscribed s = true -> latest_shop shops' = FetchData shop ->
  shows_after shop (write weekly_shop_items_table shops' s).
Proof.
  intros Hs Hl. unfold shows_after, write. rewrite Hs, Hl. cbn [in_flight andb notifies].
  destruct (in_flight s ++ _) eqn:E; [by destruct (in_flight s)|].
  rewrite <- E. apply head_reverse_snoc.
Qed.

Lemma shows_after_step shop s1 s2 :
  shows_after shop s1 -> answer_in_order s1 s2 -> shows_after shop s2.
Proof.
  unfold shows_after. intros Hq Hstep.
  destruct Hstep as [s r post Hr|s|s]; unfold_system.
  - rewrite Hr in Hq. destruct post as [|r' post].
    + simpl in Hq. by injection Hq as ->.
    + by rewrite <- head_reverse_cons with (x := r).
  - by destruct (in_flight s).
  - by destruct (in_flight s).
Qed.

(** C8: a change the channel reports is shown: after a write to
    [weekly_shop_items] once the channel is subscribed, when the answers in
    flight arrive in the order the queries were sent and none fails, the
    view renders the shop that write left as soon as nothing is in flight,
    whatever the user toggles meanwhile.  Out of order it may not (C14). *)
Theorem shop_view_item_write_shown localeCompare s shops' s' shop :
  subscribed s = true -> latest_shop shops' = FetchData shop ->
  star answer_in_order (write weekly_shop_items_table shops' s) s' ->
  in_flight s' = [] ->
  currentShop (view s') = Some shop /\
  exists sections, render localeCompare (view s') = ShopScreen (progress_of shop) sections.
Proof.
  intros Hsub Hl Hreach Hnil.
  pose proof (star_invariant _ _ (shows_after_step shop) _ _ Hreach
                (shows_after_write _ _ _ Hsub Hl)) as H.
  unfold shows_after in H. rewrite Hnil in H. destruct H as [Hc Hload].
  split; [exact Hc|]. unfold render. rewrite Hload, Hc. by eexists.
Qed.

(** Nothing in flight and the shown shop fixed. *)
Definition view_frozen (v : view_state) (s : system) : Prop :=
  in_flight s = [] /\ currentShop (view s) = currentShop v /\ loading (view s) = loading v.

Lemma view_frozen_step v s1 s2 :
  view_frozen v s1 -> step_unnotified s1 s2 -> view_frozen v s2.
Proof.
  intros (Hf & Hc & Hl) Hstep. unfold view_frozen.
  destruct Hstep as [t shops' s Hn|s1 s2 Hstep Hnw].
  - unfold write. simpl. destruct (subscribed s) eqn:Hs; [destruct t|]; simpl;
      try by repeat split.
    by destruct Hn.
  - destruct Hstep as [t shops' s|s|s pre r post Hr|s pre r post Hr|s|s]; unfold_system;
      try by repeat split.
    + by destruct (Hnw t shops').
    + rewrite Hf in Hr. by destruct pre.
    + rewrite Hf in Hr. by destruct pre.
Qed.

(** C9: a change the channel does not report is never shown: with
    nothing in flight, writes to [weekly_shops], [products] or
    [store_locations], writes made before [subscribe()] completed, and the
    user's toggles leave the shop the view shows and its [loading] flag as
    they are, however the backend changed, until the next reported write. *)
Theorem shop_view_unnotified_writes_unseen s s' :
  in_flight s = [] -> star step_unnotified s s' ->
  in_flight s' = [] /\ currentShop (view s') = currentShop (view s) /\
  loading (view s') = loading (view s).
Proof.
  intros Hf Hs.
  exact (star_invariant _ _ (view_frozen_step (view s)) _ _ Hs (conj Hf (conj eq_refl eq_refl))).
Qed.

(** ** Concrete runs of the view *)

Definition shop_v1 : WeeklyShop.t :=
  WeeklyShop.mk "w1" "2024-06-01" "" [Fixtures.placed "milk" required "Dairy" 1 1].

(** The same shop after the shopper ticked the milk off. *)
Definition shop_v2 : WeeklyShop.t :=
  WeeklyShop.mk "w1" "2024-06-01" "" [Fixtures.placed "milk" bought "Dairy" 1 1].

(** The next week's list, created on another device. *)
Definition shop_next : WeeklyShop.t :=
  WeeklyShop.mk "w2" "2024-06-08" "" [Fixtures.placed "figs" required "Fruit" 1 1].

Definition shown (shop : WeeklyShop.t) : view_state := mk_view (Some shop) false false location.

(** C14: answers that arrive out of order leave the view stale.  The mount
    query is still running when the channel subscribes and the shopper
    ticks an item off; the change notification starts a second query; the
    second answer arrives first and the first answer then overwrites it.
    Nothing is left in flight, the backend holds the ticked item, and the
    view shows it unticked until the next change. *)
Example shop_view_stale_answer :
  exists s,
    star step (initial_system [shop_v1]) s /\
    in_flight s = [] /\
    latest_shop (shops_table s) = FetchData shop_v2 /\
    currentShop (view s) = Some shop_v1.
Proof.
  eexists. split.
  - eapply star_step; [apply step_subscribe|].
    eapply star_step; [apply (step_write weekly_shop_items_table [shop_v2])|].
    eapply star_step.
    { apply (step_answer _ [FetchData shop_v1] (FetchData shop_v2) []). reflexivity. }
    eapply star_step.
    { apply (step_answer _ [] (FetchData shop_v1) []). reflexivity. }
    apply star_refl.
  - split; [reflexivity|]. split; reflexivity.
Qed.

Lemma share_unavailable_spec_witness :
  share_unavailable_items (Some shop_v1) = Throw toast_info_not_a_function /\
  share_unavailable_items
    (Some (WeeklyShop.mk "w2" "2024-06-08" "" [Fixtures.placed "figs" unavailable "Fruit" 1 1]))
  = Normal (ShareText "Unavailable Items" ("Unavailable Items:" +:+ newline +:+ "figs")).
Proof.
  split.
  - rewrite share_unavailable_spec. reflexivity.
  - rewrite share_unavailable_spec. reflexivity.
Defined.

Lemma shop_view_never_no_active_list_witness :
  let s := mk_system [shop_v2] (shown shop_v2) [] true in
  star step (initial_system [shop_v1]) s /\
  render no_collation (view s) <> NoActiveList.
Proof.
  intros s.
  assert (Hreach : star step (initial_system [shop_v1]) s).
  { eapply star_step; [apply step_subscribe|].
    eapply star_step; [apply (step_write weekly_shop_items_table [shop_v2])|].
    eapply star_step.
    { apply (step_answer _ [] (FetchData shop_v1) [FetchData shop_v2]). reflexivity. }
    eapply star_step.
    { apply (step_answer _ [] (FetchData shop_v2) []). reflexivity. }
    apply star_refl. }
  split; [exact Hreach|].
  exact (shop_view_never_no_active_list no_collation [shop_v1] s Hreach).
Defined.

Lemma shop_view_spinner_without_shop_witness :
  let s := mk_system [] initial_view [FetchError] true in
  star step_without_shop (initial_system []) s /\
  render no_collation (view s) = Spinner.
Proof.
  intros s.
  assert (Hreach : star step_without_shop (initial_system []) s).
  { eapply star_step; [split; [apply step_subscribe|reflexivity]|].
    eapply star_step; [split; [apply (step_write weekly_shop_items_table [])|reflexivity]|].
    eapply star_step.
    { split; [apply (step_answer _ [] FetchError [FetchError]); reflexivity|reflexivity]. }
    apply star_refl. }
  split; [exact Hreach|].
  exact (shop_view_spinner_without_shop no_collation s Hreach).
Defined.

Lemma shop_view_item_write_shown_witness :
  let s := mk_system [shop_v1] (shown shop_v1) [] true in
  let s' := mk_system [shop_v2] (shown shop_v2) [] true in
  subscribed s = true /\ latest_shop [shop_v2] = FetchData shop_v2 /\
  star answer_in_order (write weekly_shop_items_table [shop_v2] s) s' /\
  in_flight s' = [] /\ currentShop (view s') = Some shop_v2.
Proof.
  intros s s'.
  assert (Hreach : star answer_in_order (write weekly_shop_items_table [shop_v2] s) s').
  { apply star_one. apply (in_order_answer (write weekly_shop_items_table [shop_v2] s)
                            (FetchData shop_v2) []). reflexivity. }
  split; [reflexivity|]. split; [reflexivity|]. split; [exact Hreach|]. split; [reflexivity|].
  exact (proj1 (shop_view_item_write_shown no_collation s [shop_v2] s' shop_v2
                  eq_refl eq_refl Hreach eq_refl)).
Defined.

(** A new weekly list created while the view is open: the view keeps the
    old list. *)
Lemma shop_view_unnotified_writes_unseen_witness :
  let s := mk_system [shop_v1] (shown shop_v1) [] true in
  let s' := write weekly_shops_table [shop_v1; shop_next] s in
  star step_unnotified s s' /\
  latest_shop (shops_table s') = FetchData shop_next /\
  currentShop (view s') = Some shop_v1.
Proof.
  intros s s'.
  assert (Hreach : star step_unnotified s s').
  { apply star_one. apply unnotified_write. by left. }
  split; [exact Hreach|]. split; [reflexivity|].
  exact (proj1 (proj2 (shop_view_unnotified_writes_unseen s s' eq_refl Hreach))).
Defined.
