(* ===== verification/PrintView.v ===== *)
(** * The print view ([src/src/views/PrintView.tsx])

    PrintView fetches the latest weekly shop once (no change subscription).
    It groups ALL its items by section name with the shared reduce, in fetch
    order, without filtering or sorting them first (lines 61-66).  It then
    sorts the array of each bucket in place by product sequence number
    (lines 69-71): [Object.values] hands out the very arrays the object
    holds, so the sort is seen by the [Object.entries] that renders the
    page (line 96).  [sort_buckets] models this aliasing as [map_values] on
    the object.

    The page shows, per section, a heading and one line per item (name and
    quantity), in the order of [Object.entries].  Even-numbered sections get
    the [break-inside-avoid] class.  The date is the browser's
    [toLocaleDateString], a parameter of [print_render].  The print
    button calls [window.print()]; the page's print style sheet hides the
    button ([print_hidden]).  What the printer receives, the application's
    header included, is in Layout.v ([printed]). *)

From S2P Require Import Prelude Types JsSort JsObject Grouping ShopView.
Local Open Scope Z_scope.

(** [(a, b) => (a.product?.sequence_number || 0) - (b.product?.sequence_number || 0)] *)
Definition print_compare (a b : WeeklyShopItem.t) : Z :=
  product_sequence a - product_sequence b.

(** [Object.values(groupedItems).forEach(items => items.sort(...))] *)
Definition sort_buckets (o : js_object (list WeeklyShopItem.t)) : js_object (list WeeklyShopItem.t) :=
  map_values (js_sort print_compare) o.

(** [groupedItems] after the in-place sort. *)
Definition grouped_items (shop : WeeklyShop.t) : completion (js_object (list WeeklyShopItem.t)) :=
  completion_bind (group_by_location (WeeklyShop.items shop)) (fun o => Normal (sort_buckets o)).

(** One [<li>]: the product name (nothing when the join is missing) and
    [Qty: {item.quantity}]. *)
Record print_line : Type := mk_print_line {
  line_name : option string;
  line_quantity : Z
}.

Definition print_line_of (item : WeeklyShopItem.t) : print_line :=
  mk_print_line (item_product_name item) (WeeklyShopItem.quantity item).

(** One section [<div>]: heading, [break-inside-avoid] flag, lines. *)
Record print_section : Type := mk_print_section {
  section_title : string;
  section_avoid_break : bool;
  section_lines : list print_line
}.

Fixpoint print_sections_from (i : nat) (es : list (string * list WeeklyShopItem.t))
  : list print_section :=
  match es with
  | [] => []
  | (locationName, items) :: rest =>
      mk_print_section locationName (Nat.even i) (map print_line_of items)
        :: print_sections_from (S i) rest
  end.

Inductive print_screen : Type :=
| PrintSpinner
| PrintEmpty                              (* "No items in current shopping list" *)
| PrintPage (date : string) (sections : list print_section)
| PrintThrows (e : js_error).             (* the render itself throws *)

Record print_state : Type := mk_print_state {
  print_shop : option WeeklyShop.t;
  print_loading : bool
}.

Definition print_initial : print_state := mk_print_state None true.

(** The continuation of [fetchCurrentShop] (lines 28-34): an error is only
    logged. *)
Definition print_apply_fetch (r : fetch_result) (s : print_state) : print_state :=
  match r with
  | FetchError => s
  | FetchData shop => mk_print_state (Some shop) false
  end.

Definition print_render (toLocaleDateString : string -> string) (s : print_state)
  : print_screen :=
  if print_loading s then PrintSpinner else
  match print_shop s with
  | None => PrintEmpty
  | Some shop =>
      match WeeklyShop.items shop with
      | [] => PrintEmpty
      | _ =>
          match grouped_items shop with
          | Normal o => PrintPage (toLocaleDateString (WeeklyShop.shop_date shop))
                                  (print_sections_from 0 (entries o))
          | Throw e => PrintThrows e
          end
      end
  end.

(** ** Printing

    The page's first block is the print button inside a [print:hidden]
    [div] (lines 75-84); its [handlePrint] (lines 39-41) calls
    [window.print()].  The style sheet the page renders (lines 121-138)
    applies under [@media print]: A4 pages with 2 cm margins, and
    [display: none] for [print:hidden].  The spinner and the empty notice
    have no [print:hidden] part. *)
Inductive print_block : Type :=
| PrintControls                                       (* the print button *)
| PrintLayout (date : string) (sections : list print_section)
| ScreenOnly (s : print_screen).                      (* spinner, notice, error *)

Definition print_blocks (s : print_screen) : list print_block :=
  match s with
  | PrintPage date sections => [PrintControls; PrintLayout date sections]
  | _ => [ScreenOnly s]
  end.

(** [.print\:hidden { display: none !important; }] *)
Definition print_hidden (b : print_block) : bool :=
  match b with PrintControls => true | _ => false end.


(** ** Lemmas *)

#[export] Instance print_compare_consistent : ConsistentComparator print_compare.
Proof.
  split; unfold print_compare.
  - intros a b. replace (product_sequence b - product_sequence a)
      with (- (product_sequence a - product_sequence b)) by lia. rewrite Z.sgn_opp. lia.
  - intros a b c. lia.
Qed.

Lemma print_sections_lines i es :
  concat (map section_lines (print_sections_from i es)) =
  map print_line_of (concat (map snd es)).
Proof.
  revert i. induction es as [|[k b] es IH]; intros i; simpl; [done|].
  by rewrite IH, map_app.
Qed.

Lemma print_sections_titles i es :
  map section_title (print_sections_from i es) = map fst es.
Proof.
  revert i. induction es as [|[k b] es IH]; intros i; simpl; [done|]. by rewrite IH.
Qed.

Lemma concat_sorted_buckets (es : list (string * list WeeklyShopItem.t)) :
  Permutation (concat (map snd (map (fun p => (fst p, js_sort print_compare (snd p))) es)))
              (concat (map snd es)).
Proof.
  induction es as [|[k b] es IH]; simpl; [done|].
  by rewrite IH, js_sort_Permutation.
Qed.

(** PrintView's grouping in closed form. *)
Lemma grouped_items_closed_form shop :
  grouped_items shop =
  if forallb (not_prototype_key location_name) (WeeklyShop.items shop)
  then Normal (mk_object (map (fun p => (fst p, js_sort print_compare (snd p)))
                              (group_spec location_name (WeeklyShop.items shop))))
  else Throw push_not_a_function.
Proof.
  unfold grouped_items, group_by_location. rewrite group_by_closed_form.
  by destruct (forallb _ _).
Qed.

(** A rendered page lists every item of the shop exactly once, bought and
    unavailable items included: PrintView applies no status filter. *)
Lemma print_page_lines toLocaleDateString s date sections :
  print_render toLocaleDateString s = PrintPage date sections ->
  exists shop, print_shop s = Some shop /\
    Permutation (concat (map section_lines sections))
                (map print_line_of (WeeklyShop.items shop)).
Proof.
  unfold print_render.
  destruct (print_loading s); [done|]. destruct (print_shop s) as [shop|]; [|done].
  destruct (WeeklyShop.items shop) as [|i rest] eqn:Hitems; [done|].
  destruct (grouped_items shop) as [o|] eqn:Hg; [|done].
  intros [= <- <-]. exists shop. split; [done|].
  rewrite print_sections_lines. apply Permutation_map.
  unfold grouped_items in Hg.
  destruct (group_by_location (WeeklyShop.items shop)) as [o0|] eqn:H0; [|done].
  injection Hg as <-. unfold sort_buckets. rewrite entries_map_values.
  rewrite concat_sorted_buckets. exact (group_by_buckets_Permutation _ _ _ H0).
Qed.

(** Every printed section lists its section's items sorted by product
    sequence number, stably (items with equal numbers keep fetch order). *)
Lemma print_sections_sorted shop o :
  grouped_items shop = Normal o ->
  Forall (fun p => snd p = js_sort print_compare
                             (bucket location_name (WeeklyShop.items shop) (fst p)) /\
                   StronglySorted (fun a b => product_sequence a <= product_sequence b) (snd p))
         (entries o).
Proof.
  rewrite grouped_items_closed_form. destruct (forallb _ _); [|done]. intros [= <-].
  eapply Permutation_Forall; [symmetry; apply entries_Permutation|]. simpl.
  apply Forall_forall. intros p Hp.
  apply in_map_iff in Hp as ([k b] & <- & Hkb). simpl.
  unfold group_spec in Hkb. apply in_map_iff in Hkb as (k' & [= <- <-] & _).
  split; [done|].
  eapply StronglySorted_impl; [|apply (js_sort_StronglySorted print_compare)].
  unfold print_compare. intros a b' H. lia.
Qed.

Lemma print_eqv_sequence x y :
  sort_eqv print_compare x y = (product_sequence y =? product_sequence x).
Proof.
  unfold sort_eqv, print_compare.
  destruct (Z.eqb_spec (product_sequence x - product_sequence y) 0),
    (Z.eqb_spec (product_sequence y) (product_sequence x)); lia.
Qed.

(** C15: PrintView's sections, as the in-place sort leaves them: every
    section of the grouped object holds exactly the fetched items of that
    section, ordered by nondecreasing product sequence number, and items
    with the same sequence number keep the order they were fetched in. *)
Theorem print_sections_ordered shop o :
  grouped_items shop = Normal o ->
  Forall (fun p =>
    let b := bucket location_name (WeeklyShop.items shop) (fst p) in
    Permutation (snd p) b /\
    StronglySorted (fun x y => product_sequence x <= product_sequence y) (snd p) /\
    forall x, List.filter (fun y => product_sequence y =? product_sequence x) (snd p) =
              List.filter (fun y => product_sequence y =? product_sequence x) b)
    (entries o).
Proof.
  intros Hg. pose proof (print_sections_sorted shop o Hg) as H.
  refine (Forall_impl _ _ H). intros p [Hp Hs]. simpl.
  split; [rewrite Hp; apply js_sort_Permutation|]. split; [exact Hs|].
  intros x. rewrite Hp.
  rewrite !(filter_ext (fun y => product_sequence y =? product_sequence x)
                       (sort_eqv print_compare x)) by (intros y; by rewrite print_eqv_sequence).
  apply js_sort_stable, print_compare_consistent.
Qed.

(** PrintView orders sections by fetch order, not by the store's
    section sequence: with the bakery (sequence 2) fetched before the
    produce section (sequence 1), ShopView shows produce first and the
    printed page shows the bakery first. *)
Example print_section_order_differs :
  let items := [Fixtures.placed "bread" required "Bakery" 2 1;
                Fixtures.placed "apple" required "Produce" 1 1] in
  let shop := WeeklyShop.mk "w1" "2024-06-01" "" items in
  (exists secs, print_render (fun d => d) (mk_print_state (Some shop) false)
                  = PrintPage "2024-06-01" secs /\
                map section_title secs = ["Bakery"; "Produce"]) /\
  (exists o, items_by_location no_collation location false items = Normal o /\
             map fst (entries o) = ["Produce"; "Bakery"]).
Proof. split; eexists; split; reflexivity. Qed.


Lemma print_sections_ordered_witness :
  let shop := WeeklyShop.mk "w1" "2024-06-01" ""
                [Fixtures.placed "bread" required "Bakery" 2 3;
                 Fixtures.placed "apple" bought "Produce" 1 1;
                 Fixtures.placed "rolls" required "Bakery" 2 1] in
  exists o, grouped_items shop = Normal o /\
    map (fun p => map WeeklyShopItem.id (snd p)) (entries o) = [["rolls"; "bread"]; ["apple"]] /\
    Forall (fun p =>
      let b := bucket location_name (WeeklyShop.items shop) (fst p) in
      Permutation (snd p) b /\
      StronglySorted (fun x y => product_sequence x <= product_sequence y) (snd p) /\
      forall x, List.filter (fun y => product_sequence y =? product_sequence x) (snd p) =
                List.filter (fun y => product_sequence y =? product_sequence x) b)
      (entries o).
Proof.
  intros shop. eexists. split; [reflexivity|]. split; [reflexivity|].
  apply (print_sections_ordered shop). reflexivity.
Defined.
