(* ===== verification/ShareView.v ===== *)
(** * The share view ([src/src/views/ShareView.tsx])

    ShareView fetches the latest weekly shop once and offers two actions and
    a preview.
    - [generatePDF] (lines 42-98) draws the list with jsPDF: a centred title
      and date, then for each [Object.entries] bucket of the shared grouping
      reduce a bold section heading and one line per item.  A cursor [y]
      starts at [margin + 20] and moves down [lineHeight] per line.  Before
      each heading and each item line, a cursor below
      [pageHeight - margin] starts a new page with the cursor back at
      [margin].  [generate_pdf] returns the list of jsPDF calls made.
    - [shareList] (lines 99-115) shares the URL of the list page with
      [navigator.share], and on any rejection (the user cancelling
      included) copies it to the clipboard ([share_list_run]).
    - The preview (lines 159-190) renders the same grouping as bullets.
    - The state ([share_state]) holds the shop and the loading flag.  The
      fetch runs once, on mount.  Its error branch returns before
      [setLoading(false)] ([share_apply_fetch]).  The render
      ([share_render]) shows the spinner, the empty-list notice, or the
      page.
    Neither the PDF nor the preview filters by status or sorts.

    Coordinates are in jsPDF's default unit, millimetres on an A4 page of
    width 210.0015555 and height 297.0000833 (jsPDF converts 595.28 x 841.89
    points).  Every cursor value [y] is an integer (20 plus multiples of 7),
    so [y > pageHeight - margin] holds exactly when [y > 297 - margin]: the
    page height is the integer parameter [page_height] (297 on A4), which is
    exact for the comparisons the code makes.  The centred title's
    abscissa, [pageWidth / 2], is recorded as [Centered]. *)

From S2P Require Import Prelude JsString Types JsSort JsObject Grouping ShopView.
Local Open Scope Z_scope.

(** [const margin = 20] *)
Definition margin : Z := 20.
(** [const lineHeight = 7] *)
Definition lineHeight : Z := 7.
Arguments margin : simpl never.
Arguments lineHeight : simpl never.

Inductive font_style : Type :=
| normal_style
| bold_style.

(** The jsPDF calls the function makes. *)
Inductive pdf_op : Type :=
| SetFontSize (size : Z)
| SetFont (style : font_style)
| TextCentered (s : string) (y : Z)      (* doc.text(s, pageWidth / 2, y, { align: 'center' }) *)
| TextAt (s : string) (x y : Z)          (* doc.text(s, x, y) *)
| AddPage
| Save (filename : string).

(** [`${s}`] for a string that may be [undefined]. *)
Definition js_template_string (s : option string) : string :=
  match s with Some v => v | None => "undefined" end.

(** [`□ ${item.product?.name}${item.quantity > 1 ? ` (x${item.quantity})` : ''}`] *)
Definition item_text (item : WeeklyShopItem.t) : string :=
  "□ " +:+ js_template_string (item_product_name item) +:+
  (if 1 <? WeeklyShopItem.quantity item
   then " (x" +:+ js_int_to_string (WeeklyShopItem.quantity item) +:+ ")"
   else "").

(** [if (y > doc.internal.pageSize.getHeight() - margin) { doc.addPage(); y = margin; }] *)
Definition page_break (page_height y : Z) : list pdf_op * Z :=
  if page_height - margin <? y then ([AddPage], margin) else ([], y).

(** [items.forEach(item => { ...; doc.text(text, margin + 5, y); y += lineHeight; })] *)
Fixpoint pdf_items (page_height : Z) (items : list WeeklyShopItem.t) (y : Z)
  : list pdf_op * Z :=
  match items with
  | [] => ([], y)
  | item :: rest =>
      let '(brk, y0) := page_break page_height y in
      let '(ops, y1) := pdf_items page_height rest (y0 + lineHeight) in
      (brk ++ TextAt (item_text item) (margin + 5) y0 :: ops, y1)
  end.

(** [Object.entries(groupedItems).forEach(([location, items]) => { ... })] *)
Fixpoint pdf_sections (page_height : Z) (es : list (string * list WeeklyShopItem.t)) (y : Z)
  : list pdf_op * Z :=
  match es with
  | [] => ([], y)
  | (locationName, items) :: rest =>
      let '(brk, y0) := page_break page_height y in
      let '(ops1, y1) := pdf_items page_height items (y0 + lineHeight) in
      let '(ops2, y2) := pdf_sections page_height rest (y1 + lineHeight) in
      (brk ++ [SetFontSize 14; SetFont bold_style; TextAt locationName margin y0;
               SetFontSize 12; SetFont normal_style] ++ ops1 ++ ops2, y2)
  end.

(** [generatePDF]: the calls it makes, or the error the grouping throws.
    [date] is [new Date(currentShop.shop_date).toLocaleDateString()]. *)
Definition generate_pdf (page_height : Z) (date : string) (currentShop : option WeeklyShop.t)
  : completion (list pdf_op) :=
  match currentShop with
  | None => Normal []
  | Some shop =>
      completion_bind (group_by_location (WeeklyShop.items shop)) (fun groupedItems =>
        let header := [SetFontSize 20; TextCentered "Shopping List" margin;
                       SetFontSize 12; TextCentered ("Date: " +:+ date) (margin + 10)] in
        let '(body, _) := pdf_sections page_height (entries groupedItems) (margin + 20) in
        Normal (header ++ body ++ [Save "shopping-list.pdf"]))
  end.

(** ** Preview and sharing *)

(** One preview bullet: the name and the [x{quantity}] badge shown when the
    quantity exceeds one. *)
Record preview_line : Type := mk_preview_line {
  preview_name : option string;
  preview_badge : option Z
}.

Definition preview_line_of (item : WeeklyShopItem.t) : preview_line :=
  mk_preview_line (item_product_name item)
    (if 1 <? WeeklyShopItem.quantity item then Some (WeeklyShopItem.quantity item) else None).

(** The preview (lines 162-189). *)
Definition share_preview (shop : WeeklyShop.t)
  : completion (list (string * list preview_line)) :=
  completion_bind (group_by_location (WeeklyShop.items shop)) (fun o =>
    Normal (map (fun p => (fst p, map preview_line_of (snd p))) (entries o))).

(** [navigator.share({ title, text, url })], or the clipboard fallback. *)
Record share_request : Type := mk_share_request {
  share_title : string;
  share_text : string;
  share_url : string
}.

(** [shareList]: [origin] is [window.location.origin]. *)
Definition share_list (origin date : string) (currentShop : option WeeklyShop.t)
  : option share_request :=
  match currentShop with
  | None => None
  | Some _ => Some (mk_share_request "Shopping List" ("Shopping List for " +:+ date)
                                     (origin +:+ "/list"))
  end.

(** How the browser settles [navigator.share(...)]: shared, or rejected
    (the user cancelled the sheet: [AbortError]; sharing is not allowed:
    [NotAllowedError]; the browser has no [navigator.share]: calling
    [undefined] throws [TypeError]).  The catch does not tell them apart. *)
Inductive share_outcome : Type :=
| Shared
| ShareRejected.

(** How [navigator.clipboard.writeText(...)] settles. *)
Inductive clipboard_outcome : Type :=
| Copied
| CopyRejected.

(** What [shareList] does, in order. *)
Inductive share_effect : Type :=
| ShareSheet (req : share_request)
| ClipboardWrite (text : string)
| CopiedToast                         (* toast.success('List URL copied to clipboard') *)
| UnhandledRejection.                 (* the rejection of writeText escapes the handler *)

(** [shareList] (lines 99-115) with the outcomes of its two promises. *)
Definition share_list_run (origin date : string) (currentShop : option WeeklyShop.t)
  (shared : share_outcome) (copied : clipboard_outcome) : list share_effect :=
  match share_list origin date currentShop with
  | None => []
  | Some req =>
      ShareSheet req ::
      match shared with
      | Shared => []
      | ShareRejected =>
          ClipboardWrite (origin +:+ "/list") ::
          match copied with
          | Copied => [CopiedToast]
          | CopyRejected => [UnhandledRejection]
          end
      end
  end.

(** The URLs the handler hands out: the shared one, or the copied one. *)
Definition handed_out_urls (shared : share_outcome) (copied : clipboard_outcome)
  (effects : list share_effect) : list string :=
  omap (fun e => match e, shared, copied with
                 | ShareSheet req, Shared, _ => Some (share_url req)
                 | ClipboardWrite url, ShareRejected, Copied => Some url
                 | _, _, _ => None
                 end) effects.

(** ** The view's state *)






(** ** Lemmas on the share handler *)

(** The share button hands out the list page's URL once, whichever way it
    goes, unless the share and the copy both fail. *)
Lemma share_list_run_urls origin date shop shared copied :
  handed_out_urls shared copied (share_list_run origin date (Some shop) shared copied) =
  match shared, copied with
  | ShareRejected, CopyRejected => []
  | _, _ => [origin +:+ "/list"]
  end.
Proof. by destruct shared, copied. Qed.

(** ** Lemmas on the layout *)

(** The ordinates of the text drawn. *)
Definition text_ys (ops : list pdf_op) : list Z :=
  flat_map (fun op => match op with
                      | TextCentered _ y => [y]
                      | TextAt _ _ y => [y]
                      | _ => []
                      end) ops.

(** The item lines drawn, in order: the texts at [margin + 5]. *)
Definition item_lines (ops : list pdf_op) : list string :=
  flat_map (fun op => match op with
                      | TextAt s x _ => if Z.eqb x (margin + 5) then [s] else []
                      | _ => []
                      end) ops.

Definition on_page (page_height y : Z) : Prop := margin <= y <= page_height - margin.

Lemma page_break_spec page_height y :
  margin <= page_height - margin -> margin <= y ->
  on_page page_height (snd (page_break page_height y)) /\
  text_ys (fst (page_break page_height y)) = [] /\
  item_lines (fst (page_break page_height y)) = [].
Proof.
  intros Hh Hy. unfold page_break, on_page.
  destruct (Z.ltb_spec (page_height - margin) y); simpl; repeat split; lia.
Qed.

Lemma pdf_items_on_page page_height items y :
  margin <= page_height - margin -> margin <= y ->
  Forall (on_page page_height) (text_ys (fst (pdf_items page_height items y))) /\
  margin <= snd (pdf_items page_height items y) /\
  item_lines (fst (pdf_items page_height items y)) = map item_text items.
Proof.
  intros Hh. revert y. induction items as [|item rest IH]; intros y Hy; simpl.
  - repeat split; [constructor|lia].
  - destruct (page_break_spec page_height y Hh Hy) as (Hon & Hys & Hil).
    destruct (page_break page_height y) as [brk y0] eqn:Hb. simpl in *.
    unfold on_page in Hon.
    destruct (IH (y0 + lineHeight)) as (Hrest & Hy1 & Hlines); [unfold lineHeight; lia|].
    destruct (pdf_items page_height rest (y0 + lineHeight)) as [ops y1]. simpl in *.
    unfold text_ys, item_lines in *. rewrite !flat_map_app. simpl.
    rewrite Hys, Hil. simpl. repeat split; [|done|].
    + constructor; [unfold on_page; lia|done].
    + rewrite ?Z.eqb_refl. simpl. by rewrite Hlines.
Qed.

Lemma pdf_sections_on_page page_height es y :
  margin <= page_height - margin -> margin <= y ->
  Forall (on_page page_height) (text_ys (fst (pdf_sections page_height es y))) /\
  margin <= snd (pdf_sections page_height es y) /\
  item_lines (fst (pdf_sections page_height es y)) = map item_text (concat (map snd es)).
Proof.
  intros Hh. revert y. induction es as [|[locationName items] rest IH]; intros y Hy; simpl.
  - repeat split; [constructor|lia].
  - destruct (page_break_spec page_height y Hh Hy) as (Hon & Hys & Hil).
    destruct (page_break page_height y) as [brk y0] eqn:Hb. simpl in *.
    unfold on_page in Hon.
    destruct (pdf_items_on_page page_height items (y0 + lineHeight)) as (Hi & Hy1 & Hli);
      [done|unfold lineHeight; lia|].
    destruct (pdf_items page_height items (y0 + lineHeight)) as [ops1 y1]. simpl in *.
    destruct (IH (y1 + lineHeight)) as (Hr & Hy2 & Hlr); [unfold lineHeight; lia|].
    destruct (pdf_sections page_height rest (y1 + lineHeight)) as [ops2 y2]. simpl in *.
    unfold text_ys, item_lines in *. rewrite !flat_map_app. simpl.
    rewrite Hys, Hil. simpl. repeat split.
    + constructor; [unfold on_page; lia|]. rewrite flat_map_app. apply Forall_app. by split.
    + done.
    + rewrite flat_map_app, Hli, Hlr. simpl. by rewrite map_app.
Qed.

(** The section headings drawn, in order: the texts at [margin]. *)
Definition section_headings (ops : list pdf_op) : list string :=
  flat_map (fun op => match op with
                      | TextAt s x _ => if Z.eqb x margin then [s] else []
                      | _ => []
                      end) ops.

Lemma pdf_items_headings page_height items y :
  section_headings (fst (pdf_items page_height items y)) = [].
Proof.
  revert y. induction items as [|item rest IH]; intros y; simpl; [done|].
  destruct (page_break page_height y) as [brk y0] eqn:Hb.
  destruct (pdf_items page_height rest (y0 + lineHeight)) as [ops y1] eqn:Hi. simpl.
  unfold section_headings in *. rewrite flat_map_app. simpl.
  specialize (IH (y0 + lineHeight)). rewrite Hi in IH. simpl in IH. rewrite IH.
  unfold page_break in Hb. destruct (_ <? _); injection Hb as <- _; done.
Qed.

Lemma pdf_sections_headings page_height es y :
  section_headings (fst (pdf_sections page_height es y)) = map fst es.
Proof.
  revert y. induction es as [|[locationName items] rest IH]; intros y; simpl; [done|].
  destruct (page_break page_height y) as [brk y0] eqn:Hb.
  pose proof (pdf_items_headings page_height items (y0 + lineHeight)) as Hi.
  destruct (pdf_items page_height items (y0 + lineHeight)) as [ops1 y1]. simpl in Hi.
  specialize (IH (y1 + lineHeight)).
  destruct (pdf_sections page_height rest (y1 + lineHeight)) as [ops2 y2]. simpl in *.
  unfold section_headings in *. rewrite !flat_map_app. simpl. rewrite !flat_map_app, Hi, IH.
  unfold page_break in Hb. destruct (_ <? _); injection Hb as <- _; done.
Qed.

(** The texts drawn at the left margin, in order: section headings and
    item lines (the title and the date are centred). *)
Definition drawn_texts (ops : list pdf_op) : list string :=
  flat_map (fun op => match op with TextAt s _ _ => [s] | _ => [] end) ops.

Lemma page_break_texts page_height y : drawn_texts (fst (page_break page_height y)) = [].
Proof. unfold page_break. by destruct (_ <? _). Qed.

Lemma pdf_items_texts page_height items y :
  drawn_texts (fst (pdf_items page_height items y)) = map item_text items.
Proof.
  revert y. induction items as [|item rest IH]; intros y; simpl; [done|].
  pose proof (page_break_texts page_height y) as Hb.
  destruct (page_break page_height y) as [brk y0].
  specialize (IH (y0 + lineHeight)).
  destruct (pdf_items page_height rest (y0 + lineHeight)) as [ops y1]. simpl in *.
  unfold drawn_texts in *. rewrite flat_map_app, Hb. simpl. by rewrite IH.
Qed.

(** Each section is drawn as its heading followed by its items' lines. *)
Lemma pdf_sections_texts page_height es y :
  drawn_texts (fst (pdf_sections page_height es y)) =
  concat (map (fun p => fst p :: map item_text (snd p)) es).
Proof.
  revert y. induction es as [|[locationName items] rest IH]; intros y; simpl; [done|].
  pose proof (page_break_texts page_height y) as Hb.
  destruct (page_break page_height y) as [brk y0].
  pose proof (pdf_items_texts page_height items (y0 + lineHeight)) as Hi.
  destruct (pdf_items page_height items (y0 + lineHeight)) as [ops1 y1].
  specialize (IH (y1 + lineHeight)).
  destruct (pdf_sections page_height rest (y1 + lineHeight)) as [ops2 y2]. simpl in *.
  unfold drawn_texts in *. rewrite !flat_map_app, Hb. simpl. rewrite flat_map_app, Hi, IH.
  done.
Qed.

(** C17: the PDF layout stays inside the page: on a page at least 50 units
    high (A4 is 297 mm), every line of text [generatePDF] draws lies
    between the top margin and [margin] above the bottom edge. *)
Theorem generate_pdf_on_page page_height date shop ops :
  50 <= page_height ->
  generate_pdf page_height date (Some shop) = Normal ops ->
  Forall (on_page page_height) (text_ys ops).
Proof.
  intros Hh. unfold generate_pdf.
  destruct (group_by_location (WeeklyShop.items shop)) as [o|] eqn:Hg; simpl; [|done].
  destruct (pdf_sections_on_page page_height (entries o) (margin + 20)) as (Hon & _ & _);
    [unfold margin in *; lia|unfold margin; lia|].
  destruct (pdf_sections page_height (entries o) (margin + 20)) as [body y]. simpl in *.
  intros [= <-]. unfold text_ys in *. simpl. rewrite ?flat_map_app. simpl.
  constructor; [unfold on_page, margin in *; lia|].
  constructor; [unfold on_page, margin in *; lia|].
  rewrite app_nil_r. exact Hon.
Qed.

(** The item lines of the PDF are the items' texts, in bucket order. *)
Lemma generate_pdf_item_lines page_height date shop ops :
  40 <= page_height ->
  generate_pdf page_height date (Some shop) = Normal ops ->
  Permutation (item_lines ops) (map item_text (WeeklyShop.items shop)).
Proof.
  intros Hh. unfold generate_pdf.
  destruct (group_by_location (WeeklyShop.items shop)) as [o|] eqn:Hg; simpl; [|done].
  destruct (pdf_sections_on_page page_height (entries o) (margin + 20)) as (_ & _ & Hl);
    [unfold margin in *; lia|unfold margin; lia|].
  destruct (pdf_sections page_height (entries o) (margin + 20)) as [body y]. simpl in *.
  intros [= <-]. unfold item_lines in *. simpl. rewrite ?flat_map_app. simpl.
  rewrite app_nil_r, Hl. apply Permutation_map. exact (group_by_buckets_Permutation _ _ _ Hg).
Qed.

(** C18: the PDF's body, in order: for each bucket of the grouping, in
    the order [Object.entries] lists them, the section's heading and then
    one line per item of the bucket, in fetch order; the item lines are the
    shop's items, each exactly once, bought and unavailable items included
    (no status filter). *)
Theorem generate_pdf_all_items page_height date shop ops :
  40 <= page_height ->
  generate_pdf page_height date (Some shop) = Normal ops ->
  (exists o, group_by_location (WeeklyShop.items shop) = Normal o /\
     drawn_texts ops = concat (map (fun p => fst p :: map item_text (snd p)) (entries o))) /\
  Permutation (item_lines ops) (map item_text (WeeklyShop.items shop)).
Proof.
  intros Hh Hg. split; [|exact (generate_pdf_item_lines _ _ _ _ Hh Hg)].
  revert Hg. unfold generate_pdf.
  destruct (group_by_location (WeeklyShop.items shop)) as [o|]; simpl; [|done].
  pose proof (pdf_sections_texts page_height (entries o) (margin + 20)) as Ht.
  destruct (pdf_sections page_height (entries o) (margin + 20)) as [body y]. simpl in Ht.
  intros [= <-]. exists o. split; [done|].
  unfold drawn_texts in *. simpl. rewrite ?flat_map_app, Ht. simpl. by rewrite app_nil_r.
Qed.

(** C19: the PDF and the on-screen preview show the same sections in the
    same order. *)
Theorem pdf_preview_same_sections page_height date shop ops preview :
  generate_pdf page_height date (Some shop) = Normal ops ->
  share_preview shop = Normal preview ->
  section_headings ops = map fst preview.
Proof.
  unfold generate_pdf, share_preview.
  destruct (group_by_location (WeeklyShop.items shop)) as [o|]; simpl; [|done].
  destruct (pdf_sections page_height (entries o) (margin + 20)) as [body y] eqn:Hs.
  intros [= <-] [= <-]. unfold section_headings. simpl. rewrite ?flat_map_app. simpl.
  pose proof (pdf_sections_headings page_height (entries o) (margin + 20)) as Hh.
  rewrite Hs in Hh. unfold section_headings in Hh. simpl in Hh. rewrite Hh, app_nil_r.
  rewrite map_map. done.
Qed.


(** ** Concrete runs *)

Definition share_shop : WeeklyShop.t :=
  WeeklyShop.mk "w1" "2024-06-01" ""
    [Fixtures.placed "milk" required "Dairy" 1 1;
     Fixtures.item "mystery" required None;
     WeeklyShopItem.mk "eggs" "w1" "eggs" 12 None None bought ""
       (Some (Fixtures.product "Eggs" 2 (Some (Fixtures.location "Dairy" 1))))].

(** C20: every item whose product join is missing is drawn in the PDF as
    the text "□ undefined", followed by its quantity when above one: the
    template string prints [undefined]. *)
Theorem generate_pdf_undefined_name page_height date shop ops item :
  40 <= page_height ->
  generate_pdf page_height date (Some shop) = Normal ops ->
  In item (WeeklyShop.items shop) -> WeeklyShopItem.product item = None ->
  In ("□ undefined" +:+
      (if 1 <? WeeklyShopItem.quantity item
       then " (x" +:+ js_int_to_string (WeeklyShopItem.quantity item) +:+ ")" else ""))
     (item_lines ops).
Proof.
  intros Hh Hg Hin Hp.
  apply (Permutation_in _ (Permutation_sym (generate_pdf_item_lines _ _ _ _ Hh Hg))).
  replace ("□ undefined" +:+ _) with (item_text item); [by apply in_map|].
  unfold item_text, item_product_name. by rewrite Hp.
Qed.

Lemma generate_pdf_undefined_name_witness :
  exists ops, generate_pdf 297 "01/06/2024" (Some share_shop) = Normal ops /\
    item_lines ops = ["□ milk"; "□ Eggs (x12)"; "□ undefined"] /\
    In "□ undefined" (item_lines ops).
Proof.
  eexists. split; [reflexivity|]. split; [reflexivity|].
  exact (generate_pdf_undefined_name 297 "01/06/2024" share_shop _ (Fixtures.item "mystery" required None)
           ltac:(lia) eq_refl ltac:(simpl; tauto) eq_refl).
Defined.

Lemma generate_pdf_on_page_witness :
  exists ops, generate_pdf 297 "01/06/2024" (Some share_shop) = Normal ops /\
              Forall (on_page 297) (text_ys ops).
Proof.
  eexists. split; [reflexivity|].
  apply (generate_pdf_on_page 297 "01/06/2024" share_shop); [lia|reflexivity].
Defined.

Lemma generate_pdf_all_items_witness :
  exists ops, generate_pdf 297 "01/06/2024" (Some share_shop) = Normal ops /\
    drawn_texts ops = ["Dairy"; "□ milk"; "□ Eggs (x12)"; "Other"; "□ undefined"] /\
    Permutation (item_lines ops) (map item_text (WeeklyShop.items share_shop)).
Proof.
  eexists. split; [reflexivity|]. split; [reflexivity|].
  apply (generate_pdf_all_items 297 "01/06/2024" share_shop); [lia|reflexivity].
Defined.

Lemma pdf_preview_same_sections_witness :
  exists ops preview,
    generate_pdf 297 "01/06/2024" (Some share_shop) = Normal ops /\
    share_preview share_shop = Normal preview /\
    section_headings ops = map fst preview.
Proof.
  do 2 eexists. split; [reflexivity|]. split; [reflexivity|].
  apply (pdf_preview_same_sections 297 "01/06/2024" share_shop); reflexivity.
Defined.
