(* ===== verification/ProductList.v ===== *)
(** * The item list ([src/src/components/ProductList.tsx])

    ProductList renders the items it is given and writes to the backend's
    [weekly_shop_items] table from three handlers:
    - [updateItemStatus(itemId, status)] (lines 20-30):
      [update({ status }).eq('id', itemId)];
    - [updateQuantity(item, delta)] (lines 32-46): computes
      [Math.max(1, item.quantity + delta)] from the item it was rendered
      with, writes it, and on success calls [onQuantityChanged];
    - [removeItem(itemId)] (lines 48-61): [delete().eq('id', itemId)], then
      [onItemRemoved] and a toast.
    The table is a [gmap] from row id to row.  An update or delete matching
    no row succeeds and changes nothing, as PostgREST's do.  A write may
    fail: the handler's [write_ok] argument says whether it succeeded.  On
    failure the table is unchanged and the handler only shows an error
    toast.

    Each item renders as a row ([item_row]): the image or its placeholder,
    the name, the notes, the quantity controls, the link, the maximum
    price, and the status buttons (shop mode) or the remove button (list
    mode).  A child [{cond && <element>}] renders nothing for [null],
    [undefined], [false] and [''], but renders a falsy number as text
    ([max_price_part]).  The status buttons are
    [Object.entries(statusIcons)] ([status_buttons]).  Each passes its key,
    cast to the status type, to [updateItemStatus], which receives a
    string.  The status column is an enum, so the backend rejects any
    other string.  The image and page modals the rows open are in
    Modals.v, the objects the handlers send in Schema.v. *)

From S2P Require Import Prelude Types JsSort JsObject.
From stdpp Require Import gmap.
From Stdlib Require Import QArith_base.
Local Open Scope Z_scope.

Abbreviation table := (gmap string WeeklyShopItem.t).

(** What the handler reports besides the write: the callbacks and toasts it
    triggers. *)
Inductive notice : Type :=
| QuantityChanged (itemId : string) (newQuantity : Z)   (* onQuantityChanged?.(...) *)
| ItemRemoved (itemId : string)                         (* onItemRemoved?.(...) + toast *)
| ErrorToast (message : string).

Definition with_status (st : item_status) (row : WeeklyShopItem.t) : WeeklyShopItem.t :=
  WeeklyShopItem.mk (WeeklyShopItem.id row) (WeeklyShopItem.weekly_shop_id row)
    (WeeklyShopItem.product_id row) (WeeklyShopItem.quantity row) (WeeklyShopItem.max_price row)
    (WeeklyShopItem.notes row) st (WeeklyShopItem.created_at row) (WeeklyShopItem.product row).

Definition with_quantity (q : Z) (row : WeeklyShopItem.t) : WeeklyShopItem.t :=
  WeeklyShopItem.mk (WeeklyShopItem.id row) (WeeklyShopItem.weekly_shop_id row)
    (WeeklyShopItem.product_id row) q (WeeklyShopItem.max_price row)
    (WeeklyShopItem.notes row) (WeeklyShopItem.status row) (WeeklyShopItem.created_at row)
    (WeeklyShopItem.product row).

(** [updateItemStatus]: [status] is the string the button passes through
    the cast.  The [status] column is an enum, so the backend rejects a
    string outside it, and the handler shows its error toast. *)
Definition update_item_status (write_ok : bool) (itemId status : string)
  (db : table) : table * list notice :=
  match status_of_string status with
  | Some st =>
      if write_ok then (alter (with_status st) itemId db, [])
      else (db, [ErrorToast "Failed to update item status"])
  | None => (db, [ErrorToast "Failed to update item status"])
  end.

(** [Math.max(1, item.quantity + delta)] *)
Definition new_quantity (item : WeeklyShopItem.t) (delta : Z) : Z :=
  Z.max 1 (WeeklyShopItem.quantity item + delta).

(** [updateQuantity]: [item] is the row as the list last rendered it. *)
Definition update_quantity (write_ok : bool) (item : WeeklyShopItem.t) (delta : Z)
  (db : table) : table * list notice :=
  let newQuantity := new_quantity item delta in
  if write_ok
  then (alter (with_quantity newQuantity) (WeeklyShopItem.id item) db,
        [QuantityChanged (WeeklyShopItem.id item) newQuantity])
  else (db, [ErrorToast "Failed to update quantity"]).

(** [removeItem] *)
Definition remove_item (write_ok : bool) (itemId : string) (db : table) : table * list notice :=
  if write_ok then (delete itemId db, [ItemRemoved itemId])
  else (db, [ErrorToast "Failed to remove item"]).

(** [statusIcons] (lines 63-67): an object literal from status strings to
    icons. *)
Inductive status_icon : Type :=
| NoIcon
| CheckIcon
| XIcon.

Definition statusIcons : js_object status_icon :=
  mk_object [("required", NoIcon); ("bought", CheckIcon); ("unavailable", XIcon)].

(** [Object.entries(statusIcons)]: the keys the status buttons pass. *)
Definition status_buttons : list (string * status_icon) := entries statusIcons.

Inductive view_mode : Type :=
| list_mode
| shop_mode.

(** The parts of an item's row (lines 72-163), in document order.  A
    [cond && <element>] child renders nothing when [cond] is [null],
    [undefined], [false] or [''], and renders a falsy number as text. *)
Inductive row_part : Type :=
| ImageButton (url : string)                 (* opens the image modal *)
| ImagePlaceholder
| NameHeading (name : option string)
| NotesLine (notes : string)
| MinusButton
| QuantityText (q : Z)
| PlusButton
| LinkButton (url : string)                  (* opens the iframe modal *)
| MaxPriceText (text : string)               (* [item.max_price] rendered as text *)
| MaxPriceBadge (price : Q)
| StatusButton (status : string) (icon : status_icon) (selected : bool)
| RemoveButton.

(** A string that may be [null] or [undefined] is truthy when nonempty. *)
Definition truthy_str (s : option string) : bool :=
  match s with Some v => negb (String.eqb v "") | None => false end.

(** [{item.max_price && (...)}] for a [number | null] column. *)
Definition max_price_part (p : option Q) : list row_part :=
  match p with
  | None => []
  | Some q => if Qeq_bool q 0%Q then [MaxPriceText "0"] else [MaxPriceBadge q]
  end.

Definition in_shop (mode : view_mode) : bool :=
  match mode with shop_mode => true | list_mode => false end.

(** The image button, or its placeholder, in shop mode (lines 77-96). *)
Definition image_part (mode : view_mode) (item : WeeklyShopItem.t) : list row_part :=
  let image := WeeklyShopItem.product item ≫= Product.image_url in
  if in_shop mode then
    match image with
    | Some url => if truthy_str image then [ImageButton url] else [ImagePlaceholder]
    | None => [ImagePlaceholder]
    end
  else [].

(** [{viewMode === 'shop' && item.product?.notes && (...)}] (lines 99-103). *)
Definition notes_part (mode : view_mode) (item : WeeklyShopItem.t) : list row_part :=
  let notes := WeeklyShopItem.product item ≫= Product.notes in
  match notes with
  | Some n => if in_shop mode && truthy_str notes then [NotesLine n] else []
  | None => []
  end.

(** [{viewMode === 'shop' && item.product?.product_url && (...)}] (lines 122-129). *)
Definition link_part (mode : view_mode) (item : WeeklyShopItem.t) : list row_part :=
  let url := WeeklyShopItem.product item ≫= Product.product_url in
  match url with
  | Some u => if in_shop mode && truthy_str url then [LinkButton u] else []
  | None => []
  end.

(** The status buttons in shop mode, the remove button in list mode
    (lines 136-161). *)
Definition action_part (mode : view_mode) (item : WeeklyShopItem.t) : list row_part :=
  if in_shop mode then
    map (fun p => StatusButton (fst p) (snd p)
                    (String.eqb (status_literal (WeeklyShopItem.status item)) (fst p)))
        status_buttons
  else [RemoveButton].

Definition item_row (mode : view_mode) (item : WeeklyShopItem.t) : list row_part :=
  image_part mode item ++ [NameHeading (item_product_name item)] ++ notes_part mode item ++
  [MinusButton; QuantityText (WeeklyShopItem.quantity item); PlusButton] ++
  link_part mode item ++ max_price_part (WeeklyShopItem.max_price item) ++
  action_part mode item.

(** Every row's quantity is at least one. *)
Definition quantities_positive (db : table) : Prop :=
  map_Forall (fun _ row => 1 <= WeeklyShopItem.quantity row) db.

(** ** Lemmas *)

Lemma new_quantity_ge_1 item delta : 1 <= new_quantity item delta.
Proof. unfold new_quantity. lia. Qed.

Lemma quantities_positive_alter f k db :
  (forall row, 1 <= WeeklyShopItem.quantity row -> 1 <= WeeklyShopItem.quantity (f row)) ->
  quantities_positive db -> quantities_positive (alter f k db).
Proof.
  intros Hf Hdb. unfold quantities_positive in *. apply map_Forall_lookup.
  intros i row. rewrite lookup_alter.
  destruct (decide (k = i)) as [->|Hne].
  - destruct (db !! i) as [r|] eqn:E; simpl; [|done]. intros [= <-].
    apply Hf. by eapply map_Forall_lookup_1 in Hdb.
  - intros Hi. by eapply map_Forall_lookup_1 in Hdb.
Qed.

(** A call of one of the three handlers, with whether its write succeeds. *)
Inductive handler_call : Type :=
| CallUpdateStatus (write_ok : bool) (itemId status : string)
| CallUpdateQuantity (write_ok : bool) (item : WeeklyShopItem.t) (delta : Z)
| CallRemove (write_ok : bool) (itemId : string).

Definition run_handler (c : handler_call) (db : table) : table * list notice :=
  match c with
  | CallUpdateStatus ok itemId st => update_item_status ok itemId st db
  | CallUpdateQuantity ok item delta => update_quantity ok item delta db
  | CallRemove ok itemId => remove_item ok itemId db
  end.

Definition handler_step (db1 db2 : table) : Prop :=
  exists c, db2 = fst (run_handler c db1).

Lemma handler_step_positive db1 db2 :
  quantities_positive db1 -> handler_step db1 db2 -> quantities_positive db2.
Proof.
  intros Hdb [c ->]. destruct c as [ok id st|ok item delta|ok id]; simpl.
  - unfold update_item_status. destruct (status_of_string st); [|done]. destruct ok; simpl; [|done].
    apply quantities_positive_alter; [|done]. intros row H. exact H.
  - unfold update_quantity. destruct ok; simpl; [|done].
    apply quantities_positive_alter; [|done]. intros row _. apply new_quantity_ge_1.
  - unfold remove_item. destruct ok; simpl; [|done].
    unfold quantities_positive in *. by apply map_Forall_delete.
Qed.

(** C21: the quantity invariant: if every row of [weekly_shop_items] has
    a quantity of at least one, it still holds after any sequence of status
    updates, quantity changes (with any delta, from any rendered copy of an
    item) and removals, whether their writes succeed or fail. *)
Theorem quantities_stay_positive db1 db2 :
  quantities_positive db1 -> star handler_step db1 db2 -> quantities_positive db2.
Proof.
  intros H1 Hs. exact (star_invariant handler_step quantities_positive
                         handler_step_positive db1 db2 Hs H1).
Qed.

Lemma new_quantity_clamped item delta :
  new_quantity item delta =
  if 1 <=? WeeklyShopItem.quantity item + delta then WeeklyShopItem.quantity item + delta else 1.
Proof. unfold new_quantity. destruct (Z.leb_spec 1 (WeeklyShopItem.quantity item + delta)); lia. Qed.

(** C22: [updateQuantity] on both branches.  When the write succeeds, the
    row [item.id] (if the table has it) gets the quantity
    [item.quantity + delta], or one when that is below one, every other row
    is unchanged, and the handler reports exactly the quantity written
    through [onQuantityChanged].  When it fails, the table is unchanged and
    the error toast is the only notice. *)
Theorem update_quantity_written ok db item delta :
  let q := if 1 <=? WeeklyShopItem.quantity item + delta
           then WeeklyShopItem.quantity item + delta else 1 in
  (forall k, fst (update_quantity ok item delta db) !! k =
     if ok && bool_decide (k = WeeklyShopItem.id item)
     then with_quantity q <$> db !! k else db !! k) /\
  snd (update_quantity ok item delta db) =
    if ok then [QuantityChanged (WeeklyShopItem.id item) q]
    else [ErrorToast "Failed to update quantity"].
Proof.
  unfold update_quantity. rewrite new_quantity_clamped.
  destruct ok; simpl; [|done]. split; [|done]. intros k.
  case_bool_decide as Hk; [subst k; apply lookup_alter_eq|by apply lookup_alter_ne].
Qed.

(** C23: a lost update.  The handler computes the new quantity from the
    item it was rendered with; ShopView passes no [onQuantityChanged], so
    until the change notification's refetch arrives two clicks on "+" both
    write [quantity + 1]: the row ends one higher, not two. *)
Theorem double_increment_lost db item :
  db !! WeeklyShopItem.id item = Some item ->
  1 <= WeeklyShopItem.quantity item ->
  let db1 := fst (update_quantity true item 1 db) in
  let db2 := fst (update_quantity true item 1 db1) in
  db2 !! WeeklyShopItem.id item = Some (with_quantity (WeeklyShopItem.quantity item + 1) item).
Proof.
  intros Hin Hq. simpl. rewrite !lookup_alter_eq, Hin. simpl.
  unfold new_quantity, with_quantity. simpl.
  by replace (Z.max 1 (WeeklyShopItem.quantity item + 1)) with (WeeklyShopItem.quantity item + 1) by lia.
Qed.

Lemma status_buttons_eq :
  status_buttons = [("required", NoIcon); ("bought", CheckIcon); ("unavailable", XIcon)].
Proof. reflexivity. Qed.

Definition button_selected (part : row_part) : bool :=
  match part with StatusButton _ _ sel => sel | _ => false end.

(** The parts before the status buttons: a filter on them keeps what the
    filter keeps of the image, notes, link and price parts. *)
(** The parts before the status buttons select nothing. *)
Lemma item_row_shop item :
  exists pre, item_row shop_mode item = app pre (action_part shop_mode item) /\
    Forall (fun part => button_selected part = false) pre.
Proof.
  unfold item_row. eexists. rewrite !app_assoc. split; [reflexivity|].
  rewrite !Forall_app. unfold image_part, notes_part, link_part, max_price_part.
  repeat split; repeat case_match; repeat constructor.
Qed.

Definition is_price_text (part : row_part) : bool :=
  match part with MaxPriceText _ => true | _ => false end.

(** Only the price child can render as text. *)
Lemma item_row_price_texts mode item :
  List.filter is_price_text (item_row mode item) =
  List.filter is_price_text (max_price_part (WeeklyShopItem.max_price item)).
Proof.
  unfold item_row. rewrite !List.filter_app.
  assert (forall l, Forall (fun part => is_price_text part = false) l ->
                    List.filter is_price_text l = []) as Hnil
    by (intros l Hl; apply filter_false_nil; by apply List.Forall_forall).
  rewrite !(Hnil (image_part _ _)), !(Hnil (notes_part _ _)), !(Hnil (link_part _ _)),
    !(Hnil (action_part _ _)); [simpl; by rewrite app_nil_r|..];
    unfold image_part, notes_part, link_part, action_part; repeat case_match;
    try (apply List.Forall_forall; intros ? (? & <- & _)%in_map_iff; done);
    repeat constructor.
Qed.

(** C24: the cast [status as WeeklyShopItem['status']] (line 141) is
    sound: every key of [statusIcons] the status buttons pass has the
    column's literal type, so a button never makes the backend reject the
    enum value.  The buttons decode to required, bought, unavailable in
    this order, and exactly the item's own status is selected. *)
Theorem status_buttons_well_typed item :
  Forall (fun p => has_literal_type status_literal (fst p)) status_buttons /\
  map (fun p => status_of_string (fst p)) status_buttons =
    [Some required; Some bought; Some unavailable] /\
  exists icon, List.filter button_selected (item_row shop_mode item) =
    [StatusButton (status_literal (WeeklyShopItem.status item)) icon true].
Proof.
  rewrite status_buttons_eq. split; [|split; [reflexivity|]].
  - apply List.Forall_forall. intros p Hp. apply has_status_type.
    repeat destruct Hp as [<-|Hp]; [by exists required|by exists bought|by exists unavailable|done].
  - destruct (item_row_shop item) as (pre & -> & Hpre).
    rewrite List.filter_app, (filter_false_nil button_selected pre).
    + unfold action_part. rewrite status_buttons_eq.
      destruct (WeeklyShopItem.status item); simpl; eauto.
    + intros x Hx. rewrite List.Forall_forall in Hpre. by apply Hpre.
Qed.

(** C25: [{item.max_price && (...)}] renders the number itself when it is
    falsy: a maximum price of 0 shows a stray text "0" in the row, in both
    view modes; [null] shows nothing, any other price the badge. *)
Theorem max_price_stray_zero mode item t :
  In (MaxPriceText t) (item_row mode item) <->
  t = "0" /\ exists q, WeeklyShopItem.max_price item = Some q /\ Qeq_bool q 0%Q = true.
Proof.
  transitivity (In (MaxPriceText t) (List.filter is_price_text (item_row mode item))).
  { rewrite filter_In. simpl. tauto. }
  rewrite item_row_price_texts. unfold max_price_part.
  destruct (WeeklyShopItem.max_price item) as [q|]; simpl.
  - destruct (Qeq_bool q 0%Q) eqn:Hq; simpl; split.
    + intros [[= <-]|[]]. eauto.
    + intros [-> _]. by left.
    + intros [].
    + intros (_ & q' & [= <-] & Hq'). congruence.
  - split; [intros []|intros (_ & q & [=] & _)].
Qed.

(** ** Concrete runs *)

Definition milk_row : WeeklyShopItem.t := Fixtures.placed "milk" required "Dairy" 1 1.

Definition milk_table : table := {[ "milk" := milk_row ]}.

(** The spec's scenario: decrementing an item at quantity 1 writes 1. *)
Example decrement_at_one_clamped :
  fst (update_quantity true milk_row (-1) milk_table) !! "milk" = Some (with_quantity 1 milk_row).
Proof. reflexivity. Qed.

Lemma quantities_stay_positive_witness :
  quantities_positive milk_table /\
  star handler_step milk_table (fst (update_quantity true milk_row (-5) milk_table)) /\
  quantities_positive (fst (update_quantity true milk_row (-5) milk_table)).
Proof.
  assert (H0 : quantities_positive milk_table).
  { unfold quantities_positive, milk_table. apply map_Forall_singleton. simpl. lia. }
  assert (Hs : star handler_step milk_table (fst (update_quantity true milk_row (-5) milk_table))).
  { apply star_one. exists (CallUpdateQuantity true milk_row (-5)). reflexivity. }
  exact (conj H0 (conj Hs (quantities_stay_positive _ _ H0 Hs))).
Defined.

Lemma double_increment_lost_witness :
  fst (update_quantity true milk_row 1 (fst (update_quantity true milk_row 1 milk_table))) !! "milk"
  = Some (with_quantity 2 milk_row).
Proof. exact (double_increment_lost milk_table milk_row eq_refl ltac:(simpl; lia)). Defined.
