(* ===== verification/Modals.v ===== *)
(** * The item list's picture and page modals
      ([src/src/components/ProductList.tsx], [src/src/components/modals/])

    ProductList keeps two pieces of React state, [selectedImage] and
    [selectedUrl] (lines 17-18).  In shop mode a row's image button sets
    [selectedImage] to the product's [image_url] (line 79), and its link
    button sets [selectedUrl] to the product's [product_url] (line 124).
    [{selectedImage && <ImageModal .../>}] and
    [{selectedUrl && <IframeModal .../>}] (lines 166-172) render the modals.
    Each modal ([modals/ImageModal.tsx], [modals/IframeModal.tsx]) is a
    fixed, full-window overlay [div] with [onClick={onClose}].  Inside it
    are an inner [div] and an [img] or an [iframe]; [onClose] sets the state
    back to [null].

    A click bubbles from the inner [div] and from the [img] to the overlay
    ([closes]).  A click inside the [iframe] goes to the framed page's own
    document and never reaches the overlay.  The overlay covers the window
    ([fixed inset-0 z-50]), so while a modal is shown the rows cannot be
    clicked with the pointer.  The overlay traps neither the focus nor the
    keys, and there is no guard in the handlers: Tab reaches the rows'
    buttons behind it and Enter opens the other modal too.  Of two modals
    the later sibling, the page modal, lies on top and receives the click.
    [ui_step] is the list's modal state under these clicks and key presses,
    for a fixed list of items. *)

From S2P Require Import Prelude Types ProductList.

Inductive modal : Type :=
| ImageModal (url : string)            (* <img src={url} alt="Product" /> *)
| IframeModal (url : string).          (* <iframe src={url} title="Product page" /> *)

(** Where in a modal a click lands: the overlay itself, the inner [div]
    (its padding), or the picture or framed page. *)
Inductive modal_target : Type :=
| OnOverlay
| OnFrame
| OnMedia.

(** Whether the click reaches the overlay's [onClick]. *)
Definition closes (m : modal) (t : modal_target) : bool :=
  match m, t with
  | IframeModal _, OnMedia => false
  | _, _ => true
  end.

Record list_ui : Type := mk_list_ui {
  selectedImage : option string;
  selectedUrl : option string
}.

(** [useState<string | null>(null)], twice. *)
Definition list_ui_initial : list_ui := mk_list_ui None None.

(** [{selected && <Modal url={selected} ... />}]: an empty string renders
    nothing. *)
Definition modal_of (mk : string -> modal) (selected : option string) : list modal :=
  match selected with
  | Some url => if truthy_str selected then [mk url] else []
  | None => []
  end.

(** The modals rendered after the rows (lines 166-172), in document order. *)
Definition modals (u : list_ui) : list modal :=
  modal_of ImageModal (selectedImage u) ++ modal_of IframeModal (selectedUrl u).

(** The image button's and the link button's [onClick] (lines 79, 124).
    The other parts of a row call the handlers of ProductList.v, which
    leave this state alone. *)
Definition click_part (part : row_part) (u : list_ui) : list_ui :=
  match part with
  | ImageButton url => mk_list_ui (Some url) (selectedUrl u)
  | LinkButton url => mk_list_ui (selectedImage u) (Some url)
  | _ => u
  end.

(** [onClose={() => setSelectedImage(null)}] and
    [onClose={() => setSelectedUrl(null)}]. *)
Definition close_modal (m : modal) (u : list_ui) : list_ui :=
  match m with
  | ImageModal _ => mk_list_ui None (selectedUrl u)
  | IframeModal _ => mk_list_ui (selectedImage u) None
  end.

Definition click_modal (m : modal) (t : modal_target) (u : list_ui) : list_ui :=
  if closes m t then close_modal m u else u.

(** The modal on top: the last one rendered. *)
Definition topmost (ms : list modal) : option modal := head (reverse ms).

(** The parts of all rows of the list. *)
Definition list_parts (mode : view_mode) (items : list WeeklyShopItem.t) : list row_part :=
  concat (map (item_row mode) items).

(** A click on a row's part, possible while no modal covers the list;
    the activation of a row's button from the keyboard, possible at any
    time (Tab moves the focus to the buttons behind the overlays, which
    trap neither the focus nor the keys, and Enter or Space clicks the
    focused button); a click on the topmost modal. *)
Inductive ui_step (mode : view_mode) (items : list WeeklyShopItem.t) : list_ui -> list_ui -> Prop :=
| ui_click_row u part :
    modals u = [] -> In part (list_parts mode items) ->
    ui_step mode items u (click_part part u)
| ui_key_row u part :
    In part (list_parts mode items) ->
    ui_step mode items u (click_part part u)
| ui_click_modal u m t :
    topmost (modals u) = Some m ->
    ui_step mode items u (click_modal m t u).

(** A modal shows the URL of one of the rows' buttons. *)
Definition offered (parts : list row_part) (m : modal) : Prop :=
  match m with
  | ImageModal url => In (ImageButton url) parts
  | IframeModal url => In (LinkButton url) parts
  end.

(** The state the clicks keep: a selected URL is one a row's button
    offered, and it is not empty. *)
Definition ui_sound (mode : view_mode) (items : list WeeklyShopItem.t) (u : list_ui) : Prop :=
  (forall url, selectedImage u = Some url -> In (ImageButton url) (list_parts mode items) /\ url <> "") /\
  (forall url, selectedUrl u = Some url -> In (LinkButton url) (list_parts mode items) /\ url <> "").

(** ** Lemmas *)

(** The buttons that open a modal carry a nonempty URL, and only shop mode
    has them. *)
Definition button_url_ok (mode : view_mode) (part : row_part) : Prop :=
  match part with
  | ImageButton url | LinkButton url => url <> "" /\ mode = shop_mode
  | _ => True
  end.

Lemma item_row_buttons mode item :
  Forall (button_url_ok mode) (item_row mode item).
Proof.
  unfold item_row. rewrite !Forall_app.
  repeat split; try by repeat constructor.
  - unfold image_part. destruct mode; cbn [in_shop]; [constructor|].
    destruct (WeeklyShopItem.product item ≫= Product.image_url) as [url|]; [|repeat constructor].
    unfold truthy_str. destruct (String.eqb url "") eqn:E; [by repeat constructor|].
    apply String.eqb_neq in E. by repeat constructor.
  - unfold notes_part. repeat case_match; repeat constructor.
  - unfold link_part.
    destruct (WeeklyShopItem.product item ≫= Product.product_url) as [url|]; [|constructor].
    destruct mode; cbn [in_shop andb]; [constructor|].
    unfold truthy_str. destruct (String.eqb url "") eqn:E; [constructor|].
    apply String.eqb_neq in E. by repeat constructor.
  - unfold max_price_part. repeat case_match; repeat constructor.
  - unfold action_part. destruct mode; simpl; by repeat constructor.
Qed.

Lemma list_parts_buttons mode items part :
  In part (list_parts mode items) -> button_url_ok mode part.
Proof.
  unfold list_parts. intros (row & Hrow & Hin)%in_concat.
  apply in_map_iff in Hrow as (item & <- & _).
  pose proof (item_row_buttons mode item) as H. rewrite List.Forall_forall in H. auto.
Qed.

Lemma modal_of_some mk url : url <> "" -> modal_of mk (Some url) = [mk url].
Proof. intros H. unfold modal_of, truthy_str. by rewrite (proj2 (String.eqb_neq _ _) H). Qed.

(** A selection renders one modal or none. *)
Lemma modal_of_cases mk sel :
  modal_of mk sel = [] \/ exists url, sel = Some url /\ modal_of mk sel = [mk url].
Proof.
  destruct sel as [url|]; [|by left]. unfold modal_of.
  destruct (truthy_str (Some url)); [right; by exists url|by left].
Qed.

Lemma click_part_sound mode items u part :
  ui_sound mode items u -> In part (list_parts mode items) ->
  ui_sound mode items (click_part part u).
Proof.
  intros [Hi Hu] Hin. pose proof (list_parts_buttons _ _ _ Hin) as Hok.
  destruct part as [url| | | | | | |url| | | |]; simpl in *; try (split; assumption).
  - split; [|exact Hu]. intros ? [= <-]. tauto.
  - split; [exact Hi|]. intros ? [= <-]. tauto.
Qed.

Lemma click_modal_sound mode items u m t :
  ui_sound mode items u -> ui_sound mode items (click_modal m t u).
Proof.
  intros [Hi Hu]. unfold click_modal. destruct (closes m t); [|by split].
  destruct m; simpl; (split; [|done]) || split; done.
Qed.

Lemma ui_sound_step mode items u1 u2 :
  ui_sound mode items u1 -> ui_step mode items u1 u2 -> ui_sound mode items u2.
Proof.
  intros Hs Hstep. destruct Hstep as [u part _ Hin|u part Hin|u m t _].
  - by apply click_part_sound.
  - by apply click_part_sound.
  - by apply click_modal_sound.
Qed.

Lemma ui_reachable_sound mode items u :
  star (ui_step mode items) list_ui_initial u -> ui_sound mode items u.
Proof.
  intros H. apply (star_invariant _ _ (ui_sound_step mode items) _ _ H). by split.
Qed.

Lemma ui_sound_offered mode items u :
  ui_sound mode items u -> Forall (offered (list_parts mode items)) (modals u).
Proof.
  intros [Hi Hu]. unfold modals. apply Forall_app. split.
  - destruct (modal_of_cases ImageModal (selectedImage u)) as [->|(url & Hs & ->)];
      [constructor|]. constructor; [apply (Hi url Hs)|constructor].
  - destruct (modal_of_cases IframeModal (selectedUrl u)) as [->|(url & Hs & ->)];
      [constructor|]. constructor; [apply (Hu url Hs)|constructor].
Qed.

(** A click on the topmost modal removes that modal and no other, unless
    it lands inside the framed page. *)
Lemma click_topmost u m t :
  topmost (modals u) = Some m ->
  modals (click_modal m t u) = if closes m t then removelast (modals u) else modals u.
Proof.
  unfold click_modal. destruct (closes m t); [|done].
  destruct u as [img url]. unfold topmost, modals. cbn [selectedImage selectedUrl].
  destruct (modal_of_cases ImageModal img) as [Ei|(a & -> & Ei)],
    (modal_of_cases IframeModal url) as [Eu|(b & -> & Eu)];
    rewrite Ei, Eu; simpl; try done; intros [= <-]; cbn [close_modal selectedImage selectedUrl];
    by rewrite ?Ei, ?Eu.
Qed.

(** In list mode the rows have no image or link button. *)
Lemma list_mode_no_modal items u :
  star (ui_step list_mode items) list_ui_initial u -> modals u = [].
Proof.
  intros H%ui_reachable_sound%ui_sound_offered.
  destruct (modals u) as [|m ms]; [done|]. inversion H as [|? ? Hm _]; subst.
  destruct m; simpl in Hm; by destruct (list_parts_buttons _ _ _ Hm).
Qed.

(** C26: the list's modals: in every state the clicks and key presses
    reach from the initial one, every modal shown shows the URL of a row's
    image button (an image modal) or link button (a page modal); a click
    on the topmost modal removes it and leaves the one below, if any,
    unless the click lands inside the framed page.  Both modals can be
    shown at once: the page modal above the image modal. *)
Theorem modal_state_sound mode items u :
  star (ui_step mode items) list_ui_initial u ->
  Forall (offered (list_parts mode items)) (modals u) /\
  forall m t, topmost (modals u) = Some m ->
    modals (click_modal m t u) = if closes m t then removelast (modals u) else modals u.
Proof.
  intros H. split; [by apply ui_sound_offered, ui_reachable_sound|]. apply click_topmost.
Qed.

(** ** Concrete runs *)

Definition milk_pictured : WeeklyShopItem.t :=
  Fixtures.item "milk" required
    (Some (Product.mk "milk" "Milk" "" middle None None 1 "" (Some "https://shop.example/milk")
             (Some "milk.jpg") None 1 None None)).

Definition milk_both_open : list_ui := mk_list_ui (Some "milk.jpg") (Some "https://shop.example/milk").

(** The image modal open, the link button behind it activated from the
    keyboard: both modals are shown. *)
Lemma modal_state_sound_witness :
  star (ui_step shop_mode [milk_pictured]) list_ui_initial milk_both_open /\
  modals milk_both_open = [ImageModal "milk.jpg"; IframeModal "https://shop.example/milk"] /\
  Forall (offered (list_parts shop_mode [milk_pictured])) (modals milk_both_open) /\
  modals (click_modal (IframeModal "https://shop.example/milk") OnOverlay milk_both_open)
    = [ImageModal "milk.jpg"].
Proof.
  assert (Hs : star (ui_step shop_mode [milk_pictured]) list_ui_initial milk_both_open).
  { eapply star_step.
    { apply (ui_click_row _ _ list_ui_initial (ImageButton "milk.jpg")); [reflexivity|].
      simpl. tauto. }
    apply star_one.
    apply (ui_key_row _ _ (click_part (ImageButton "milk.jpg") list_ui_initial)
                      (LinkButton "https://shop.example/milk")).
    simpl. tauto. }
  destruct (modal_state_sound _ _ _ Hs) as [Hoff Hclick].
  split; [exact Hs|]. split; [reflexivity|]. split; [exact Hoff|].
  exact (Hclick (IframeModal "https://shop.example/milk") OnOverlay eq_refl).
Defined.
