(* ===== verification/AdminForm.v ===== *)
(** * The product form of the catalogue editor ([src/src/views/AdminView.tsx])

    AdminView's product form has one controlled field, the aliases text,
    and uncontrolled inputs whose text [FormData.get] returns on submit
    ([product_form]).  [product_data_of] (lines 47-66) converts them to the
    columns the backend receives:
    - the aliases text is split at commas, trimmed, and emptied pieces
      dropped ([parse_aliases]);
    - [parseInt(...) || 0] for the sequence number, [|| 1] for the default
      quantity;
    - [parseFloat] for a nonempty price (a parameter: the browser's number
      input only submits valid decimal numbers);
    - [s || null] for the optional strings;
    - the shelf-height select's value, cast to the column's union
      ([select_value]).
    [form_of_product] gives the [defaultValue] props of the inputs while a
    product is edited, and [aliases_input] the aliases field's text
    ([product.aliases?.join(', ') || '']); AdminDom.v says which of them
    the browser shows.  The location form's data ([location_data_of],
    lines 94-97) is here too.

    The theorems: aliases joined and parsed back (C27); inputs prefilled
    from a saved row write it back, in the section and on the shelf the
    selects show ([data_of_form_of_product], used by C28).  The location
    form's handler is attached to no form (dead code); its data is
    modelled for the schema check of Schema.v.
    Schema.v checks the object [productData] against the [products] table. *)

From S2P Require Import Prelude JsString Types.
From stdpp Require Import gmap.
From Stdlib Require Import QArith_base.
Local Open Scope Z_scope.

(** [aliases.split(',').map(alias => alias.trim()).filter(alias => alias.length > 0)] *)
Definition parse_aliases (aliases : string) : list string :=
  List.filter (fun a => Nat.ltb 0 (String.length a)) (map js_trim (js_split "," aliases)).

(** [editingProduct.aliases?.join(', ') || ''] *)
Definition aliases_input (p : Product.t) : string :=
  js_or_str (option_map (js_join ", ") (Product.aliases p)) "".

(** [formData.get(f) as string || null] *)
Definition str_or_null (s : string) : option string :=
  if String.eqb s "" then None else Some s.

(** The text of the uncontrolled inputs, as [FormData.get] returns it.  The
    shelf-height select only offers the three values. *)
Record product_form : Type := mk_product_form {
  form_name : string;
  form_location : string;
  form_shelf_height : shelf_height;
  form_typical_price : string;
  form_notes : string;
  form_sequence_number : string;
  form_product_url : string;
  form_image_url : string;
  form_barcode : string;
  form_default_quantity : string
}.

(** [productData] (lines 52-65): the columns the form writes. *)
Record product_data : Type := mk_product_data {
  pd_name : string;
  pd_store_location_id : string;
  pd_shelf_height : shelf_height;
  pd_typical_price : option Q;
  pd_notes : string;
  pd_sequence_number : Z;
  pd_product_url : option string;
  pd_image_url : option string;
  pd_barcode : option string;
  pd_default_quantity : Z;
  pd_aliases : list string
}.

(** The stored row after [update(productData)]: the written columns
    replaced, [id], [created_at] and the join kept. *)
Definition apply_product_data (d : product_data) (p : Product.t) : Product.t :=
  Product.mk (Product.id p) (pd_name d) (pd_store_location_id d) (pd_shelf_height d)
    (pd_typical_price d) (Some (pd_notes d)) (pd_sequence_number d) (Product.created_at p)
    (pd_product_url d) (pd_image_url d) (pd_barcode d) (pd_default_quantity d)
    (Some (pd_aliases d)) (Product.location p).

(** The row [insert(productData)] creates, under the id and timestamp the
    backend draws. *)
Definition new_product_row (newId createdAt : string) (d : product_data) : Product.t :=
  Product.mk newId (pd_name d) (pd_store_location_id d) (pd_shelf_height d)
    (pd_typical_price d) (Some (pd_notes d)) (pd_sequence_number d) createdAt
    (pd_product_url d) (pd_image_url d) (pd_barcode d) (pd_default_quantity d)
    (Some (pd_aliases d)) None.

(** [{ name, sequence_number: parseInt(...) || locations.length + 1 }]
    (lines 94-97). *)
Record location_data : Type := mk_location_data {
  ld_name : string;
  ld_sequence_number : Z
}.

Definition location_data_of (name sequence : string) (locations : list StoreLocation.t)
  : location_data :=
  mk_location_data name (js_or_num (js_parseInt sequence) (Z.of_nat (length locations) + 1)).

Section Forms.
(** [parseFloat] and [String(x)] on the price, a JavaScript number. *)
Variable parseFloat : string -> Q.
Variable number_to_string : Q -> string.

Definition product_data_of (f : product_form) (aliases : string) : product_data :=
  mk_product_data (form_name f) (form_location f) (form_shelf_height f)
    (if String.eqb (form_typical_price f) "" then None
     else Some (parseFloat (form_typical_price f)))
    (form_notes f)
    (js_or_num (js_parseInt (form_sequence_number f)) 0)
    (str_or_null (form_product_url f)) (str_or_null (form_image_url f))
    (str_or_null (form_barcode f))
    (js_or_num (js_parseInt (form_default_quantity f)) 1)
    (parse_aliases aliases).

(** The inputs' [defaultValue] props while [p] is edited: an empty input
    for a [null] column, [editingProduct?.default_quantity || 1] for the
    quantity, and the selects' props (which only count at mount,
    AdminDom.v). *)
Definition form_of_product (p : Product.t) : product_form :=
  mk_product_form (Product.name p) (Product.store_location_id p) (Product.shelf_height p)
    (match Product.typical_price p with Some q => number_to_string q | None => "" end)
    (default "" (Product.notes p))
    (js_int_to_string (Product.sequence_number p))
    (default "" (Product.product_url p)) (default "" (Product.image_url p))
    (default "" (Product.barcode p))
    (js_int_to_string (js_or_num (Some (Product.default_quantity p)) 1)).
End Forms.

(** The shelf-height select's options (lines 179-181). *)
Definition shelf_options : list string := ["top"; "middle"; "bottom"].

(** The value [FormData.get('shelf_height')] returns for the [required]
    select: the option the user picked, else the option its
    [defaultValue] names, else (no option named) the first option. *)
Definition select_value (options : list string) (defaultValue : option string)
  (picked : option nat) : string :=
  match picked ≫= (fun i => options !! i) with
  | Some v => v
  | None =>
      match defaultValue with
      | Some d => if bool_decide (d ∈ options) then d else default "" (head options)
      | None => default "" (head options)
      end
  end.

(** An alias as [parse_aliases] produces it: trimmed, nonempty, free of
    commas. *)
Definition alias_normal (a : string) : bool :=
  String.eqb (js_trim a) a && Nat.ltb 0 (String.length a) && negb (str_has "," a).

(** ** Lemmas *)

Lemma js_or_str_empty x : js_or_str (Some x) "" = x.
Proof. simpl. by destruct (String.eqb_spec x ""). Qed.

Lemma js_or_num_nonzero n d : n <> 0 -> js_or_num (Some n) d = n.
Proof. intros Hn. simpl. by destruct (Z.eqb_spec n 0). Qed.

Lemma js_or_num_zero_default n : js_or_num (Some n) 0 = n.
Proof. simpl. destruct (Z.eqb_spec n 0); congruence. Qed.

Lemma str_or_null_default u : u <> Some "" -> str_or_null (default "" u) = u.
Proof.
  intros Hu. unfold str_or_null. destruct u as [s|]; simpl; [|done].
  destruct (String.eqb_spec s ""); congruence.
Qed.

Lemma split_join_aliases a l :
  Forall (fun x => str_has "," x = false) (a :: l) ->
  js_split "," (js_join ", " (a :: l)) = a :: map (String " ") l.
Proof.
  revert a. induction l as [|b l IH]; intros a Hl; apply Forall_cons_iff in Hl as [Ha Hl].
  - by apply js_split_no_sep.
  - change (js_join ", " (a :: b :: l)) with (a +:+ String "," (String " " (js_join ", " (b :: l)))).
    rewrite js_split_app by done. f_equal. cbn [js_split]. by rewrite IH.
Qed.

Lemma alias_normal_trim a : alias_normal a = true -> js_trim a = a.
Proof. unfold alias_normal. intros [[H%String.eqb_eq _]%andb_true_iff _]%andb_true_iff. done. Qed.

Lemma alias_normal_comma a : alias_normal a = true -> str_has "," a = false.
Proof. unfold alias_normal. intros [_ H%negb_true_iff]%andb_true_iff. done. Qed.

Lemma alias_normal_length a : alias_normal a = true -> Nat.ltb 0 (String.length a) = true.
Proof. unfold alias_normal. intros [[_ H]%andb_true_iff _]%andb_true_iff. done. Qed.

(** Parsing normal aliases joined with [", "] gives them back. *)
Lemma parse_join_aliases l :
  Forall (fun a => alias_normal a = true) l -> parse_aliases (js_join ", " l) = l.
Proof.
  destruct l as [|a l]; [done|]. intros Hl. unfold parse_aliases.
  rewrite split_join_aliases by (eapply Forall_impl; [exact Hl|]; intros x; apply alias_normal_comma).
  apply Forall_cons_iff in Hl as [Ha Hl]. simpl map. rewrite map_map.
  rewrite (alias_normal_trim a Ha).
  rewrite (map_ext_in _ (fun x => x)), map_id.
  - apply filter_true_id. rewrite List.Forall_forall in Hl.
    intros x [<-|Hx]; apply alias_normal_length; auto.
  - intros x Hx. rewrite js_trim_space by reflexivity. rewrite List.Forall_forall in Hl.
    by apply alias_normal_trim, Hl.
Qed.

(** C27: saving aliases [l] as the edit button prints them, joined with
    [", "], reads [l] back, when every alias is trimmed, nonempty and free
    of commas. *)
Theorem aliases_roundtrip l :
  Forall (fun a => alias_normal a = true) l -> parse_aliases (js_join ", " l) = l.
Proof. apply parse_join_aliases. Qed.

(** Every alias [parse_aliases] returns is normal. *)
Lemma parse_aliases_normal s : Forall (fun a => alias_normal a = true) (parse_aliases s).
Proof.
  unfold parse_aliases. apply List.Forall_forall. intros x Hx.
  apply filter_In in Hx as [Hx Hlen]. apply in_map_iff in Hx as (p & <- & Hp).
  unfold alias_normal. rewrite js_trim_idem, String.eqb_refl, Hlen. simpl.
  apply negb_true_iff, str_has_trim.
  pose proof (js_split_pieces "," s) as Hs. rewrite List.Forall_forall in Hs. by apply Hs.
Qed.

(** Aliases survive an unchanged edit: the field the edit button
    fills from saved aliases parses back to the same aliases. *)
Lemma aliases_edit_roundtrip s :
  parse_aliases (js_join ", " (parse_aliases s)) = parse_aliases s.
Proof. apply parse_join_aliases, parse_aliases_normal. Qed.

(** A row as the product form writes it: notes and aliases present, the
    aliases normal, no empty optional string, a nonzero default quantity. *)
Definition form_normal (p : Product.t) : bool :=
  match Product.notes p, Product.aliases p with
  | Some _, Some l => forallb alias_normal l
  | _, _ => false
  end &&
  negb (bool_decide (Product.product_url p = Some "")) &&
  negb (bool_decide (Product.image_url p = Some "")) &&
  negb (bool_decide (Product.barcode p = Some "")) &&
  negb (Z.eqb (Product.default_quantity p) 0).

Lemma str_or_null_not_empty s : str_or_null s <> Some "".
Proof. unfold str_or_null. destruct (String.eqb_spec s ""); congruence. Qed.

Lemma js_or_num_one n : js_or_num n 1 <> 0.
Proof. destruct n as [v|]; simpl; [destruct (Z.eqb_spec v 0)|]; lia. Qed.

Lemma form_normal_data d p : form_normal (apply_product_data d p) = form_normal (new_product_row "" "" d).
Proof. done. Qed.

(** Every row the form writes, by update or by insert, is normal. *)
Lemma form_normal_written parseFloat f a :
  (forall p, form_normal (apply_product_data (product_data_of parseFloat f a) p) = true) /\
  (forall newId createdAt,
     form_normal (new_product_row newId createdAt (product_data_of parseFloat f a)) = true).
Proof.
  enough (form_normal (new_product_row "" "" (product_data_of parseFloat f a)) = true) as H
    by (split; intros; exact H).
  unfold form_normal; simpl.
  pose proof (parse_aliases_normal a) as Ha. rewrite List.Forall_forall in Ha.
  pose proof (js_or_num_one (js_parseInt (form_default_quantity f))) as Hq.
  repeat (apply andb_true_intro; split).
  - apply forallb_forall. intros x Hx. by apply Ha.
  - apply negb_true_iff, bool_decide_eq_false, str_or_null_not_empty.
  - apply negb_true_iff, bool_decide_eq_false, str_or_null_not_empty.
  - apply negb_true_iff, bool_decide_eq_false, str_or_null_not_empty.
  - apply negb_true_iff, Z.eqb_neq, Hq.
Qed.

Section EditRoundtrip.
Variable parseFloat : string -> Q.
Variable number_to_string : Q -> string.

(** The browser shows a price [q] as text that [parseFloat] reads back. *)
Definition price_roundtrip (p : Product.t) : Prop :=
  forall q, Product.typical_price p = Some q ->
    number_to_string q <> "" /\ parseFloat (number_to_string q) = q.

(** The prefilled form with its two selects showing [loc] and [h]. *)
Definition with_selects (loc : string) (h : shelf_height) (f : product_form) : product_form :=
  mk_product_form (form_name f) loc h (form_typical_price f) (form_notes f)
    (form_sequence_number f) (form_product_url f) (form_image_url f) (form_barcode f)
    (form_default_quantity f).

(** [p] in section [loc] on shelf [h]. *)
Definition relocate (loc : string) (h : shelf_height) (p : Product.t) : Product.t :=
  Product.mk (Product.id p) (Product.name p) loc h (Product.typical_price p) (Product.notes p)
    (Product.sequence_number p) (Product.created_at p) (Product.product_url p)
    (Product.image_url p) (Product.barcode p) (Product.default_quantity p) (Product.aliases p)
    (Product.location p).

(** Submitting the inputs prefilled from a normal row writes the row back,
    with the section and shelf the selects show. *)
Lemma data_of_form_of_product p loc h :
  form_normal p = true -> price_roundtrip p ->
  apply_product_data
    (product_data_of parseFloat (with_selects loc h (form_of_product number_to_string p))
       (aliases_input p)) p = relocate loc h p.
Proof.
  intros Hn Hp. unfold form_normal in Hn.
  destruct p as [id name loc0 sh price notes seq created url img bar dq als jn]; simpl in *.
  destruct notes as [notes|], als as [l|]; try done.
  rewrite !andb_true_iff in Hn. destruct Hn as [[[[Hl Hurl] Himg] Hbar] Hdq].
  apply negb_true_iff in Hurl, Himg, Hbar, Hdq.
  apply bool_decide_eq_false in Hurl, Himg, Hbar. apply Z.eqb_neq in Hdq.
  unfold apply_product_data, product_data_of, form_of_product, aliases_input, with_selects, relocate.
  cbn -[js_or_num js_or_str js_parseInt js_int_to_string parse_aliases js_join].
  rewrite !str_or_null_default by done. rewrite !js_parseInt_to_string.
  rewrite js_or_num_zero_default, !(js_or_num_nonzero dq) by done.
  rewrite js_or_str_empty, parse_join_aliases.
  2:{ apply List.Forall_forall. intros x Hx. rewrite forallb_forall in Hl. by apply Hl. }
  f_equal. destruct price as [q|]; [|done].
  destruct (Hp q eq_refl) as [Hne ->]. by rewrite (proj2 (String.eqb_neq _ _) Hne).
Qed.

End EditRoundtrip.

Lemma shelf_options_typed v : v ∈ shelf_options -> has_literal_type shelf_height_literal v.
Proof.
  intros Hv. apply has_shelf_height_type. unfold shelf_options in Hv.
  set_unfold in Hv. destruct Hv as [-> | [-> | [-> | []]]]; [exists Types.top|exists middle|exists Types.bottom]; done.
Qed.

Lemma shelf_literal_option h : shelf_height_literal h ∈ shelf_options.
Proof. destruct h; simpl; set_solver. Qed.

(** ** Witnesses *)

Lemma aliases_roundtrip_witness :
  Forall (fun a => alias_normal a = true) ["semi-skimmed"; "milk 2%"] /\
  parse_aliases (js_join ", " ["semi-skimmed"; "milk 2%"]) = ["semi-skimmed"; "milk 2%"].
Proof.
  assert (Forall (fun a => alias_normal a = true) ["semi-skimmed"; "milk 2%"]) as H
    by (repeat constructor).
  exact (conj H (aliases_roundtrip _ H)).
Defined.

