(* ===== verification/AdminDom.v ===== *)
(** * The product form in the browser ([src/src/views/AdminView.tsx], lines 136-262)

    The product form is rendered once the first fetch has answered, with
    [editingProduct] null, and stays mounted: [fetchData] never sets
    [loading] back.  Its inputs are uncontrolled.  At every render React
    passes [defaultValue] props computed from [editingProduct], and the
    browser keeps each field's value:
    - an [input] ([ReactDOMInput]) takes the new [defaultValue] as its
      default, a null or undefined prop giving back the default it was
      mounted with ([input_update]);
    - the [textarea] ([ReactDOMTextarea]) takes a new default only when the
      prop is not null or undefined ([textarea_update]);
    - a [select] ([ReactDOMSelect]) applies [defaultValue] at mount only.
      Mounted with [editingProduct] null, no option is selected by
      default, so the select shows the option the user picked, or else
      its first option.
    A field shows its default until the user types in it (the browser's
    dirty flag).  [form.reset()] brings every field back to its default and
    every select to its first option ([form_reset]).  On submit,
    [FormData] reads the fields' values ([form_data]).  The number inputs'
    constraints ([min], [step]) are not modelled: the model lets any text
    through. *)

From S2P Require Import Prelude JsString Types AdminForm.
From Stdlib Require Import QArith_base.
Local Open Scope Z_scope.

(** An uncontrolled field: its default value, its value, and whether the
    user has typed in it. *)
Record field : Type := mk_field {
  fdefault : string;
  fvalue : string;
  fdirty : bool
}.

(** At mount: the default is the prop's value, [''] when it is absent. *)
Definition field_mount (initial : string) : field := mk_field initial initial false.

(** [ReactDOMInput.updateWrapper]: [setDefaultValue] with the prop, or with
    the value the input was mounted with when the prop is null or
    undefined. *)
Definition input_update (initial : string) (prop : option string) (f : field) : field :=
  let d := default initial prop in
  mk_field d (if fdirty f then fvalue f else d) (fdirty f).

(** [ReactDOMTextarea.updateWrapper]: [if (defaultValue != null)
    node.defaultValue = ...]. *)
Definition textarea_update (prop : option string) (f : field) : field :=
  match prop with
  | Some d => mk_field d (if fdirty f then fvalue f else d) (fdirty f)
  | None => f
  end.

Definition type_in (text : string) (f : field) : field := mk_field (fdefault f) text true.

Definition field_reset (f : field) : field := mk_field (fdefault f) (fdefault f) false.

(** The form's fields in document order (the aliases input is controlled
    and lives in the view's state). *)
Record form_dom : Type := mk_form_dom {
  dom_name : field;
  dom_location : option nat;          (* the option picked in the location select *)
  dom_shelf : option nat;             (* the option picked in the shelf-height select *)
  dom_typical_price : field;
  dom_default_quantity : field;
  dom_sequence_number : field;
  dom_barcode : field;
  dom_product_url : field;
  dom_image_url : field;
  dom_notes : field
}.

(** What the select submits, its cast read back: the options are the
    three literals (C30). *)
Definition shelf_of_value (v : string) : shelf_height :=
  default Types.top (shelf_height_of_string v).

(** [new FormData(form)] (line 45): the fields' values. *)
Definition form_data (locations : list StoreLocation.t) (d : form_dom) : product_form :=
  mk_product_form (fvalue (dom_name d))
    (select_value (map StoreLocation.id locations) None (dom_location d))
    (shelf_of_value (select_value shelf_options None (dom_shelf d)))
    (fvalue (dom_typical_price d)) (fvalue (dom_notes d)) (fvalue (dom_sequence_number d))
    (fvalue (dom_product_url d)) (fvalue (dom_image_url d)) (fvalue (dom_barcode d))
    (fvalue (dom_default_quantity d)).

(** [form.reset()] (line 80). *)
Definition form_reset (d : form_dom) : form_dom :=
  mk_form_dom (field_reset (dom_name d)) None None (field_reset (dom_typical_price d))
    (field_reset (dom_default_quantity d)) (field_reset (dom_sequence_number d))
    (field_reset (dom_barcode d)) (field_reset (dom_product_url d))
    (field_reset (dom_image_url d)) (field_reset (dom_notes d)).

(** Which field the user types in. *)
Inductive form_input : Type :=
| InName | InTypicalPrice | InDefaultQuantity | InSequenceNumber
| InBarcode | InProductUrl | InImageUrl | InNotes.

Definition type_field (k : form_input) (text : string) (d : form_dom) : form_dom :=
  let t := type_in text in
  match k with
  | InName => mk_form_dom (t (dom_name d)) (dom_location d) (dom_shelf d) (dom_typical_price d)
      (dom_default_quantity d) (dom_sequence_number d) (dom_barcode d) (dom_product_url d)
      (dom_image_url d) (dom_notes d)
  | InTypicalPrice => mk_form_dom (dom_name d) (dom_location d) (dom_shelf d)
      (t (dom_typical_price d)) (dom_default_quantity d) (dom_sequence_number d) (dom_barcode d)
      (dom_product_url d) (dom_image_url d) (dom_notes d)
  | InDefaultQuantity => mk_form_dom (dom_name d) (dom_location d) (dom_shelf d)
      (dom_typical_price d) (t (dom_default_quantity d)) (dom_sequence_number d) (dom_barcode d)
      (dom_product_url d) (dom_image_url d) (dom_notes d)
  | InSequenceNumber => mk_form_dom (dom_name d) (dom_location d) (dom_shelf d)
      (dom_typical_price d) (dom_default_quantity d) (t (dom_sequence_number d)) (dom_barcode d)
      (dom_product_url d) (dom_image_url d) (dom_notes d)
  | InBarcode => mk_form_dom (dom_name d) (dom_location d) (dom_shelf d) (dom_typical_price d)
      (dom_default_quantity d) (dom_sequence_number d) (t (dom_barcode d)) (dom_product_url d)
      (dom_image_url d) (dom_notes d)
  | InProductUrl => mk_form_dom (dom_name d) (dom_location d) (dom_shelf d) (dom_typical_price d)
      (dom_default_quantity d) (dom_sequence_number d) (dom_barcode d) (t (dom_product_url d))
      (dom_image_url d) (dom_notes d)
  | InImageUrl => mk_form_dom (dom_name d) (dom_location d) (dom_shelf d) (dom_typical_price d)
      (dom_default_quantity d) (dom_sequence_number d) (dom_barcode d) (dom_product_url d)
      (t (dom_image_url d)) (dom_notes d)
  | InNotes => mk_form_dom (dom_name d) (dom_location d) (dom_shelf d) (dom_typical_price d)
      (dom_default_quantity d) (dom_sequence_number d) (dom_barcode d) (dom_product_url d)
      (dom_image_url d) (t (dom_notes d))
  end.

(** Picking an option of the location or the shelf-height select. *)
Definition pick_location (i : nat) (d : form_dom) : form_dom :=
  mk_form_dom (dom_name d) (Some i) (dom_shelf d) (dom_typical_price d) (dom_default_quantity d)
    (dom_sequence_number d) (dom_barcode d) (dom_product_url d) (dom_image_url d) (dom_notes d).

Definition pick_shelf (i : nat) (d : form_dom) : form_dom :=
  mk_form_dom (dom_name d) (dom_location d) (Some i) (dom_typical_price d) (dom_default_quantity d)
    (dom_sequence_number d) (dom_barcode d) (dom_product_url d) (dom_image_url d) (dom_notes d).

(** The [required] name input and location select: the browser submits
    only a form whose name is not empty and whose location select has a
    value. *)
Definition form_submittable (locations : list StoreLocation.t) (d : form_dom) : bool :=
  negb (String.eqb (fvalue (dom_name d)) "") &&
  negb (String.eqb (form_location (form_data locations d)) "").

Section Render.
(** [String(q)] on a price. *)
Variable number_to_string : Q -> string.

(** The form as mounted (lines 136-250 with [editingProduct] null). *)
Definition form_mount : form_dom :=
  mk_form_dom (field_mount "") None None (field_mount "") (field_mount "1") (field_mount "")
    (field_mount "") (field_mount "") (field_mount "") (field_mount "").

(** A render with [editingProduct = e]: the [defaultValue] props of lines
    143, 192, 202, 211, 219, 227, 235 and 244 (the selects' props of lines
    161 and 176 have no effect after mount). *)
Definition form_update (e : option Product.t) (d : form_dom) : form_dom :=
  mk_form_dom
    (input_update "" (Product.name <$> e) (dom_name d))
    (dom_location d) (dom_shelf d)
    (input_update "" (number_to_string <$> (e ≫= Product.typical_price)) (dom_typical_price d))
    (input_update "1" (Some (js_int_to_string (js_or_num (Product.default_quantity <$> e) 1)))
       (dom_default_quantity d))
    (input_update "" (js_int_to_string <$> (Product.sequence_number <$> e))
       (dom_sequence_number d))
    (input_update "" (e ≫= Product.barcode) (dom_barcode d))
    (input_update "" (e ≫= Product.product_url) (dom_product_url d))
    (input_update "" (e ≫= Product.image_url) (dom_image_url d))
    (textarea_update (e ≫= Product.notes) (dom_notes d)).
End Render.

(** No field typed in and no option picked since the mount or the last
    reset. *)
Definition pristine (d : form_dom) : Prop :=
  fdirty (dom_name d) = false /\ dom_location d = None /\ dom_shelf d = None /\
  fdirty (dom_typical_price d) = false /\ fdirty (dom_default_quantity d) = false /\
  fdirty (dom_sequence_number d) = false /\ fdirty (dom_barcode d) = false /\
  fdirty (dom_product_url d) = false /\ fdirty (dom_image_url d) = false /\
  fdirty (dom_notes d) = false.

(** The value the location select shows with nothing picked: its first
    option. *)
Definition first_location (locations : list StoreLocation.t) : string :=
  select_value (map StoreLocation.id locations) None None.

(** ** Lemmas *)

Lemma input_update_clean initial prop f :
  fdirty f = false -> fvalue (input_update initial prop f) = default initial prop.
Proof. intros H. unfold input_update. simpl. by rewrite H. Qed.

Lemma textarea_update_clean d f :
  fdirty f = false -> fvalue (textarea_update (Some d) f) = d.
Proof. intros H. simpl. by rewrite H. Qed.

Lemma shelf_select_unpicked : shelf_of_value (select_value shelf_options None None) = Types.top.
Proof. reflexivity. Qed.

Section Edit.
Variable number_to_string : Q -> string.

(** Clicking "Edit" on [p] in a form nobody has touched since the mount or
    the last reset: the inputs show [p]'s values, the selects their first
    options. *)
Lemma form_data_after_edit locs p d :
  pristine d -> Product.notes p <> None ->
  form_data locs (form_update number_to_string (Some p) d) =
  with_selects (first_location locs) Types.top (form_of_product number_to_string p).
Proof.
  intros (Hn & Hl & Hs & Hp & Hq & Hseq & Hb & Hu & Hi & Hno) Hnotes.
  destruct (Product.notes p) as [n|] eqn:En; [|done].
  unfold form_data, form_update, with_selects, form_of_product. cbn [dom_name dom_location dom_shelf
    dom_typical_price dom_default_quantity dom_sequence_number dom_barcode dom_product_url
    dom_image_url dom_notes].
  rewrite Hl, Hs, !input_update_clean by assumption. cbn [mbind option_bind].
  rewrite En, textarea_update_clean by assumption. f_equal.
  by destruct (Product.typical_price p).
Qed.

(** After a successful save the form is reset, then rendered with no
    product edited: the inputs are empty again, but the notes keep the
    text of the product that was edited, whatever was typed. *)
Lemma form_after_save_notes p n d :
  Product.notes p = Some n ->
  let d1 := form_update number_to_string None (form_reset (form_update number_to_string (Some p) d)) in
  fvalue (dom_notes d1) = n /\ fvalue (dom_name d1) = "".
Proof. intros Hn. simpl. by rewrite Hn. Qed.
End Edit.

(** C30: the cast [formData.get('shelf_height') as 'top' | 'middle' |
    'bottom'] (line 55) is sound: whatever option the user picks, the
    select submits a member of the union.  The select's [defaultValue] only
    counts at mount, where no product is edited: with nothing picked it
    submits "top", whichever product is being edited. *)
Theorem shelf_select_well_typed picked nts editing locs d :
  has_literal_type shelf_height_literal (select_value shelf_options None picked) /\
  (dom_shelf d = None ->
   form_shelf_height (form_data locs (form_update nts editing d)) = Types.top).
Proof.
  split.
  - unfold select_value. destruct (picked ≫= _) as [v|] eqn:Hv.
    + apply shelf_options_typed. destruct picked as [i|]; [|done].
      simpl in Hv. by eapply list_elem_of_lookup_2.
    + apply shelf_options_typed. constructor.
  - intros Hs. simpl. rewrite Hs. reflexivity.
Qed.
