(* ===== verification/Schema.v ===== *)
(** * The backend schema and the client's writes ([src/src/types/supabase.ts])

    [supabase.ts] declares, for each table, its [Row] type, its
    [Insert] type [Omit<Row, 'id' | 'created_at'>] and its [Update] type
    [Partial<Insert>].  The client sends each write as a JSON object:
    - [insert(productData)] and [update(productData)] on [products]
      (AdminView, lines 52-75);
    - [insert(locationData)] and [update(locationData)] on
      [store_locations] (AdminView, lines 94-107);
    - [update({ status })] and [update({ quantity: newQuantity })] on
      [weekly_shop_items] (ProductList, lines 23 and 37).
    A column's type is a string, a number, a union of string literals, a
    string array, or a nullable type ([col_type]).  [has_type] is the
    typing of a JSON value against it.  An insert must give every column of
    [Insert] exactly once and nothing else; an update a subset of them.
    The payloads are the object literals of the code, built from the
    models of the forms and handlers (AdminForm.v, ProductList.v). *)

From S2P Require Import Prelude JsString Types ProductList AdminForm.
From Stdlib Require Import QArith_base.
Local Open Scope Z_scope.

(** The JSON values the payloads hold. *)
Inductive json : Type :=
| JString (s : string)
| JNumber (q : Q)
| JNull
| JStrings (l : list string).

(** The TypeScript types of the columns. *)
Inductive col_type : Type :=
| TString
| TNumber
| TUnion (literals : list string)
| TStringArray
| TNullable (t : col_type).

Fixpoint has_type (v : json) (t : col_type) : bool :=
  match t, v with
  | TString, JString _ => true
  | TNumber, JNumber _ => true
  | TUnion lits, JString s => bool_decide (s ∈ lits)
  | TStringArray, JStrings _ => true
  | TNullable _, JNull => true
  | TNullable t', _ => has_type v t'
  | _, _ => false
  end.

(** A table's [Row] type: its columns in declaration order. *)
Abbreviation row_type := (list (string * col_type)).

(** [products.Row] (lines 5-19). *)
Definition products_row : row_type :=
  [("id", TString); ("name", TString); ("store_location_id", TString);
   ("shelf_height", TUnion ["top"; "middle"; "bottom"]);
   ("typical_price", TNullable TNumber); ("notes", TNullable TString);
   ("sequence_number", TNumber); ("created_at", TString);
   ("product_url", TNullable TString); ("image_url", TNullable TString);
   ("barcode", TNullable TString); ("default_quantity", TNumber);
   ("aliases", TNullable TStringArray)].

(** [store_locations.Row] (lines 24-29). *)
Definition store_locations_row : row_type :=
  [("id", TString); ("name", TString); ("sequence_number", TNumber); ("created_at", TString)].

(** [weekly_shops.Row] (lines 33-37). *)
Definition weekly_shops_row : row_type :=
  [("id", TString); ("shop_date", TString); ("created_at", TString)].

(** [weekly_shop_items.Row] (lines 43-52). *)
Definition weekly_shop_items_row : row_type :=
  [("id", TString); ("weekly_shop_id", TString); ("product_id", TString);
   ("quantity", TNumber); ("max_price", TNullable TNumber); ("notes", TNullable TString);
   ("status", TUnion ["required"; "bought"; "unavailable"]); ("created_at", TString)].

(** [Insert: Omit<Row, 'id' | 'created_at'>] *)
Definition insert_type (row : row_type) : row_type :=
  List.filter (fun c => negb (String.eqb (fst c) "id" || String.eqb (fst c) "created_at")) row.

(** A JSON object, as the list of its properties. *)
Abbreviation payload := (list (string * json)).

(** The column [k] of [cols] has the type of [v]. *)
Definition column_typed (cols : row_type) (kv : string * json) : bool :=
  match List.find (fun c => String.eqb (fst c) (fst kv)) cols with
  | Some (_, t) => has_type (snd kv) t
  | None => false
  end.

(** [Partial<Insert>]: distinct keys, each a column with a value of its
    type. *)
Definition conforms_update (cols : row_type) (obj : payload) : bool :=
  bool_decide (NoDup (map fst obj)) && forallb (column_typed cols) obj.

(** [Insert]: an update that gives every column. *)
Definition conforms_insert (cols : row_type) (obj : payload) : bool :=
  conforms_update cols obj && forallb (fun c => bool_decide (fst c ∈ map fst obj)) cols.

(** ** The payloads *)

Definition json_of_option_string (s : option string) : json :=
  match s with Some v => JString v | None => JNull end.

(** [productData] (AdminView, lines 52-65), as sent. *)
Definition product_payload (d : product_data) : payload :=
  [("name", JString (pd_name d));
   ("store_location_id", JString (pd_store_location_id d));
   ("shelf_height", JString (shelf_height_literal (pd_shelf_height d)));
   ("typical_price", match pd_typical_price d with Some q => JNumber q | None => JNull end);
   ("notes", JString (pd_notes d));
   ("sequence_number", JNumber (inject_Z (pd_sequence_number d)));
   ("product_url", json_of_option_string (pd_product_url d));
   ("image_url", json_of_option_string (pd_image_url d));
   ("barcode", json_of_option_string (pd_barcode d));
   ("default_quantity", JNumber (inject_Z (pd_default_quantity d)));
   ("aliases", JStrings (pd_aliases d))].

(** [locationData] (AdminView, lines 94-97). *)
Definition location_payload (ld : location_data) : payload :=
  [("name", JString (ld_name ld)); ("sequence_number", JNumber (inject_Z (ld_sequence_number ld)))].

(** [{ status }] (ProductList, line 23): the string the status button
    passes. *)
Definition status_payload (status : string) : payload := [("status", JString status)].

(** [{ quantity: newQuantity }] (ProductList, line 37). *)
Definition quantity_payload (newQuantity : Z) : payload :=
  [("quantity", JNumber (inject_Z newQuantity))].

(** ** Lemmas *)

Lemma product_payload_insert d :
  conforms_insert (insert_type products_row) (product_payload d) = true.
Proof.
  destruct d as [n loc h price notes seq url img barcode qty al].
  by destruct h, price, url, img, barcode.
Qed.

Lemma location_payload_insert ld :
  conforms_insert (insert_type store_locations_row) (location_payload ld) = true.
Proof. by destruct ld. Qed.

Lemma conforms_insert_update cols obj :
  conforms_insert cols obj = true -> conforms_update cols obj = true.
Proof. unfold conforms_insert. by intros [-> _]%andb_true_iff. Qed.

(** A status string passes the column's check exactly when it has the
    union's type. *)
Lemma status_payload_update s :
  conforms_update (insert_type weekly_shop_items_row) (status_payload s) = true <->
  has_literal_type status_literal s.
Proof.
  rewrite has_status_type. unfold conforms_update, status_payload. cbn -[bool_decide].
  rewrite bool_decide_eq_true_2 by apply NoDup_singleton. simpl.
  rewrite andb_true_r, bool_decide_eq_true.
  unfold status_of_string. rewrite !elem_of_cons, elem_of_nil.
  destruct (String.eqb_spec s "required") as [->|]; [split; [by eexists|by left]|].
  destruct (String.eqb_spec s "bought") as [->|]; [split; [by eexists|by right; left]|].
  destruct (String.eqb_spec s "unavailable") as [->|];
    [split; [by eexists|by right; right; left]|].
  split; [intros [?|[?|[?|[]]]]; congruence|by intros [? [=]]].
Qed.

Lemma quantity_payload_update q :
  conforms_update (insert_type weekly_shop_items_row) (quantity_payload q) = true.
Proof. reflexivity. Qed.

(** C31: every write the client sends matches the schema: whatever the
    forms hold, the product form's object is an [Insert] of [products]
    and the location form's an [Insert] of [store_locations] (each also
    an [Update]); every status button's object and every quantity
    button's object is an [Update] of [weekly_shop_items]. *)
Theorem writes_match_schema parseFloat f aliases name sequence locations item delta :
  conforms_insert (insert_type products_row)
    (product_payload (product_data_of parseFloat f aliases)) = true /\
  conforms_insert (insert_type store_locations_row)
    (location_payload (location_data_of name sequence locations)) = true /\
  Forall (fun p => conforms_update (insert_type weekly_shop_items_row) (status_payload (fst p)) = true)
    status_buttons /\
  conforms_update (insert_type weekly_shop_items_row) (quantity_payload (new_quantity item delta)) = true.
Proof.
  split; [apply product_payload_insert|]. split; [apply location_payload_insert|].
  split; [|apply quantity_payload_update].
  rewrite status_buttons_eq. repeat constructor.
Qed.
