(* ===== verification/AdminView.v ===== *)
(** * The catalogue editor's state and handlers ([src/src/views/AdminView.tsx])

    AdminView keeps its state in React hooks (lines 8-14): the product and
    location lists, [loading], the product or location being edited, the
    location form's visibility and the controlled aliases field.  Its
    handlers are:
    - [fetchData] (lines 28-40), which stores the two query results (an
      error giving the empty list);
    - the edit and cancel buttons;
    - [handleProductSubmit] (lines 42-87), which updates the edited row or
      inserts a new one from the form's data (AdminForm.v);
    - [handleLocationSubmit] (lines 89-119), which no form references:
      the only [<form>] submits to [handleProductSubmit], and no handler
      sets [showLocationForm] or [editingLocation], so it is dead code and
      [admin_step] has no step for it;
    - the delete button.
    The page lists the products with their aliases, section, sequence,
    default quantity and barcode ([product_row]).

    The products and locations tables are [gmap]s from row id to row.
    [update(...).eq('id', id)] alters the row if present, and [insert] adds
    a row under the id the backend draws.  The backend's reply
    ([write_reply]) selects the success or error branch of each handler.
    A query's answer is any ordering of the table's rows: the backend's
    [order(...)] is not modelled.  The view is a transition system over
    its state, the product form as the browser holds it (AdminDom.v) and
    the products table ([admin_step]). *)

From S2P Require Import Prelude JsString Types AdminForm AdminDom.
From stdpp Require Import gmap.
From Stdlib Require Import QArith_base.
Local Open Scope Z_scope.

Abbreviation products_table := (gmap string Product.t).

(** ** The view's state and handlers *)

Record admin_state : Type := mk_admin_state {
  products : list Product.t;
  locations : list StoreLocation.t;
  loading : bool;
  editingProduct : option Product.t;
  editingLocation : option StoreLocation.t;
  showLocationForm : bool;
  aliases : string
}.

Definition admin_initial : admin_state := mk_admin_state [] [] true None None false "".

(** The backend's answer to a write: [{ error: null }] or an error with its
    message. *)
Inductive write_reply : Type :=
| Written
| Rejected (message : string).

(** A query's result: its rows, or an error ([data] is then [null]). *)
Inductive query_reply (A : Type) : Type :=
| Rows (rows : list A)
| QueryFailed.
Arguments Rows {A} rows.
Arguments QueryFailed {A}.

(** The toasts and the [fetchData()] the handlers trigger. *)
Inductive admin_notice : Type :=
| SuccessToast (message : string)
| ErrorToast (message : string)
| Refetch.

Definition rows_or_empty {A} (r : query_reply A) : list A :=
  match r with Rows l => l | QueryFailed => [] end.

Definition fetch_errors {A B} (pr : query_reply A) (lr : query_reply B) : list admin_notice :=
  (match pr with QueryFailed => [ErrorToast "Error fetching products"] | _ => [] end) ++
  (match lr with QueryFailed => [ErrorToast "Error fetching locations"] | _ => [] end).

(** The continuation of [fetchData] (lines 34-39). *)
Definition fetch_data (pr : query_reply Product.t) (lr : query_reply StoreLocation.t)
  (s : admin_state) : admin_state * list admin_notice :=
  (mk_admin_state (rows_or_empty pr) (rows_or_empty lr) false (editingProduct s)
     (editingLocation s) (showLocationForm s) (aliases s),
   fetch_errors pr lr).

(** The edit button, with the effect on [editingProduct]: both set the
    aliases field to [aliases_input p]. *)
Definition edit_product (p : Product.t) (s : admin_state) : admin_state :=
  mk_admin_state (products s) (locations s) (loading s) (Some p) (editingLocation s)
    (showLocationForm s) (aliases_input p).

(** The cancel button (lines 256-259). *)
Definition cancel_edit (s : admin_state) : admin_state :=
  mk_admin_state (products s) (locations s) (loading s) None (editingLocation s)
    (showLocationForm s) "".

(** The success branch of [handleProductSubmit]: editing ends, the aliases
    field is emptied, the lists are fetched again. *)
Definition product_saved (s : admin_state) : admin_state :=
  mk_admin_state (products s) (locations s) (loading s) None (editingLocation s)
    (showLocationForm s) "".

Section Submit.
Variable parseFloat : string -> Q.

(** [handleProductSubmit] (lines 42-87): [newId] and [createdAt] are what the
    backend draws for an insert. *)
Definition handle_product_submit (reply : write_reply) (newId createdAt : string)
  (f : product_form) (s : admin_state) (db : products_table)
  : admin_state * products_table * list admin_notice :=
  let d := product_data_of parseFloat f (aliases s) in
  let db' := match editingProduct s with
             | Some p => alter (apply_product_data d) (Product.id p) db
             | None => <[newId := new_product_row newId createdAt d]> db
             end in
  match reply with
  | Rejected message => (s, db, [ErrorToast (js_or_str (Some message) "Error saving product")])
  | Written =>
      (product_saved s, db',
       [SuccessToast (match editingProduct s with
                      | Some _ => "Product updated" | None => "Product added" end);
        Refetch])
  end.
End Submit.

(** The delete button (lines 336-351): [confirm] first. *)
Definition delete_product (confirmed : bool) (reply : write_reply) (p : Product.t)
  (db : products_table) : products_table * list admin_notice :=
  if confirmed then
    match reply with
    | Rejected _ => (db, [ErrorToast "Error deleting product"])
    | Written => (delete (Product.id p) db, [SuccessToast "Product deleted"; Refetch])
    end
  else (db, []).

Abbreviation locations_table := (gmap string StoreLocation.t).

(** The success branch of [handleLocationSubmit]: editing ends and the
    location form closes. *)
Definition location_saved (s : admin_state) : admin_state :=
  mk_admin_state (products s) (locations s) (loading s) (editingProduct s) None false
    (aliases s).

Definition apply_location_data (ld : location_data) (l : StoreLocation.t) : StoreLocation.t :=
  StoreLocation.mk (StoreLocation.id l) (ld_name ld) (ld_sequence_number ld)
    (StoreLocation.created_at l).

(** [handleLocationSubmit] (lines 89-119). *)
Definition handle_location_submit (reply : write_reply) (newId createdAt : string)
  (name sequence : string) (s : admin_state) (db : locations_table)
  : admin_state * locations_table * list admin_notice :=
  let ld := location_data_of name sequence (locations s) in
  let db' := match editingLocation s with
             | Some l => alter (apply_location_data ld) (StoreLocation.id l) db
             | None => <[newId := StoreLocation.mk newId (ld_name ld) (ld_sequence_number ld)
                                   createdAt]> db
             end in
  match reply with
  | Rejected message => (s, db, [ErrorToast (js_or_str (Some message) "Error saving location")])
  | Written =>
      (location_saved s, db',
       [SuccessToast (match editingLocation s with
                      | Some _ => "Location updated" | None => "Location added" end);
        Refetch])
  end.

(** One entry of the product list (lines 279-353), in document order. *)
Inductive product_part : Type :=
| ProductImage (url alt : string)
| ProductName (name : string)
| AkaText (aliases : string)             (* (aka: {product.aliases.join(', ')}) *)
| SectionName (name : option string)     (* locations.find(...)?.name *)
| SequenceText (n : Z)
| DefaultQuantityText (n : Z)
| BarcodeText (barcode : string)
| ProductLink (url : string)
| EditButton
| DeleteButton.

(** [locations.find(l => l.id === product.store_location_id)?.name] *)
Definition section_name (locations : list StoreLocation.t) (p : Product.t) : option string :=
  StoreLocation.name <$>
    List.find (fun l => String.eqb (StoreLocation.id l) (Product.store_location_id p)) locations.

(** [{s && <element>}] for a string that may be [null]: [''] renders nothing. *)
Definition truthy_part (s : option string) (f : string -> product_part) : list product_part :=
  match s with Some v => if String.eqb v "" then [] else [f v] | None => [] end.

(** [{product.aliases && product.aliases.length > 0 && (...)}] *)
Definition aka_part (p : Product.t) : list product_part :=
  match Product.aliases p with
  | Some l => if Nat.ltb 0 (length l) then [AkaText (js_join ", " l)] else []
  | None => []
  end.

Definition product_row (locations : list StoreLocation.t) (p : Product.t) : list product_part :=
  truthy_part (Product.image_url p) (fun url => ProductImage url (Product.name p)) ++
  [ProductName (Product.name p)] ++ aka_part p ++
  [SectionName (section_name locations p)] ++
  (if 0 <? Product.sequence_number p then [SequenceText (Product.sequence_number p)] else []) ++
  (if 1 <? Product.default_quantity p then [DefaultQuantityText (Product.default_quantity p)]
   else []) ++
  truthy_part (Product.barcode p) BarcodeText ++
  truthy_part (Product.product_url p) ProductLink ++
  [EditButton; DeleteButton].

(** What the page shows: the spinner while loading, then the form's title
    and submit label and the product list. *)
Inductive admin_screen : Type :=
| AdminSpinner
| AdminPage (formTitle submitLabel : string) (rows : list (list product_part)).

Definition admin_render (s : admin_state) : admin_screen :=
  if loading s then AdminSpinner
  else
    let rows := map (product_row (locations s)) (products s) in
    match editingProduct s with
    | Some _ => AdminPage "Edit Product" "Update Product" rows
    | None => AdminPage "Add New Product" "Add Product" rows
    end.

Lemma alter_lookup_insert {V} (f : V -> V) (k : string) (x : V) (m : gmap string V) :
  m !! k = Some x -> alter f k m = <[k := f x]> m.
Proof.
  intros Hk. apply map_eq. intros i. destruct (decide (k = i)) as [<-|Hne].
  - by rewrite lookup_alter_eq, lookup_insert_eq, Hk.
  - by rewrite lookup_alter_ne, lookup_insert_ne.
Qed.

Section EditRoundtrip.
Variable parseFloat : string -> Q.
Variable number_to_string : Q -> string.

(** C28: editing a product and saving the form unchanged does not give the
    product back.  The form was mounted with no product edited, and React
    applies a select's [defaultValue] only at mount: the location and
    shelf-height selects still show their first options, so the product
    is moved to the first section and the top shelf, every other column
    kept.  After the save, the reset form still shows the product's notes,
    which the next product added inherits. *)
Theorem edit_unchanged_moves_product p s d db newId createdAt :
  form_normal p = true -> price_roundtrip parseFloat number_to_string p ->
  db !! Product.id p = Some p -> pristine d ->
  let s1 := edit_product p s in
  let d1 := form_update number_to_string (Some p) d in
  let r := handle_product_submit parseFloat Written newId createdAt
             (form_data (locations s1) d1) s1 db in
  r.1.2 = <[Product.id p := relocate (first_location (locations s)) Types.top p]> db /\
  fvalue (dom_notes (form_update number_to_string None (form_reset d1))) =
    default "" (Product.notes p).
Proof.
  intros Hn Hp Hdb Hd s1 d1 r.
  assert (Hnotes : Product.notes p <> None).
  { unfold form_normal in Hn. by destruct (Product.notes p), (Product.aliases p). }
  split.
  - unfold r, d1. rewrite form_data_after_edit by done. simpl.
    rewrite (alter_lookup_insert _ _ p) by done. f_equal.
    by apply data_of_form_of_product.
  - destruct (Product.notes p) as [n|] eqn:En; [|done].
    apply (form_after_save_notes number_to_string p n d En).
Qed.
End EditRoundtrip.

(** ** The view as a transition system

    A state is the view's hooks, the product form in the browser
    (AdminDom.v) and the products table.  A step is one handler run to
    completion, each followed by React's render of the form: the fetch
    continuation with any query replies, the edit and cancel buttons,
    typing in the aliases field or in another field, picking an option, a
    product submit the browser lets through with any backend reply, a
    delete.  [number_to_string] is [String(q)] on prices. *)
Definition set_aliases (txt : string) (s : admin_state) : admin_state :=
  mk_admin_state (products s) (locations s) (loading s) (editingProduct s)
    (editingLocation s) (showLocationForm s) txt.

(** The form after a submit: reset and rendered for no product on
    success (lines 79-81), untouched on failure. *)
Definition form_after_submit (number_to_string : Q -> string) (reply : write_reply)
  (d : form_dom) : form_dom :=
  match reply with
  | Written => form_update number_to_string None (form_reset d)
  | Rejected _ => d
  end.

Inductive admin_step (number_to_string : Q -> string) :
  admin_state * form_dom * products_table -> admin_state * form_dom * products_table -> Prop :=
| admin_fetch pr lr s d db :
    admin_step number_to_string (s, d, db)
      ((fetch_data pr lr s).1, form_update number_to_string (editingProduct s) d, db)
| admin_edit p s d db :
    admin_step number_to_string (s, d, db)
      (edit_product p s, form_update number_to_string (Some p) d, db)
| admin_cancel s d db :
    admin_step number_to_string (s, d, db) (cancel_edit s, form_update number_to_string None d, db)
| admin_type txt s d db : admin_step number_to_string (s, d, db) (set_aliases txt s, d, db)
| admin_type_field k txt s d db :
    admin_step number_to_string (s, d, db) (s, type_field k txt d, db)
| admin_pick_location i s d db : admin_step number_to_string (s, d, db) (s, pick_location i d, db)
| admin_pick_shelf i s d db : admin_step number_to_string (s, d, db) (s, pick_shelf i d, db)
| admin_submit parseFloat reply newId createdAt s d db :
    form_submittable (locations s) d = true ->
    admin_step number_to_string (s, d, db)
      (let r := handle_product_submit parseFloat reply newId createdAt
                  (form_data (locations s) d) s db in
       (r.1.1, form_after_submit number_to_string reply d, r.1.2))
| admin_delete confirmed reply p s d db :
    admin_step number_to_string (s, d, db) (s, d, (delete_product confirmed reply p db).1).

Definition rows_normal (db : products_table) : Prop :=
  map_Forall (fun _ p => form_normal p = true) db.

Lemma submit_cases parseFloat reply newId createdAt f s db :
  let r := (handle_product_submit parseFloat reply newId createdAt f s db).1 in
  (r = (s, db)) \/
  (r.1 = product_saved s /\
   r.2 = match editingProduct s with
         | Some p => alter (apply_product_data (product_data_of parseFloat f (aliases s))) (Product.id p) db
         | None => <[newId := new_product_row newId createdAt (product_data_of parseFloat f (aliases s))]> db
         end).
Proof. unfold handle_product_submit. destruct reply; simpl; [right|left]; done. Qed.

Lemma admin_step_rows_normal nts st1 st2 :
  rows_normal st1.2 -> admin_step nts st1 st2 -> rows_normal st2.2.
Proof.
  intros Hdb Hstep.
  destruct Hstep as [| | | | | | |pf reply newId createdAt s d db _|c reply p s d db];
    simpl in *; try done.
  - set (f := form_data (locations s) d).
    destruct (submit_cases pf reply newId createdAt f s db) as [->|[_ ->]]; [done|].
    destruct (form_normal_written pf f (aliases s)) as [Hupd Hnew].
    destruct (editingProduct s) as [p|].
    + apply map_Forall_lookup. intros i x.
      destruct (decide (Product.id p = i)) as [<-|Hne].
      * rewrite lookup_alter_eq. destruct (db !! Product.id p); simpl; [|done].
        intros [= <-]. apply Hupd.
      * rewrite lookup_alter_ne by done. intros Hi. exact (Hdb i x Hi).
    + by apply map_Forall_insert_2; [apply Hnew|].
  - unfold delete_product. destruct c, reply; simpl; try done. by apply map_Forall_delete.
Qed.

(** C32: the admin view only writes normal rows: from a table of normal
    rows, every sequence of handler runs keeps every row normal. *)
Theorem admin_rows_normal nts st1 st2 :
  star (admin_step nts) st1 st2 -> rows_normal st1.2 -> rows_normal st2.2.
Proof. apply (star_invariant _ (fun st => rows_normal st.2)), admin_step_rows_normal. Qed.

(** The form a save leaves behind is untouched again: an edit started
    from it shows the edited product's values. *)
Lemma pristine_after_save nts d : pristine (form_after_submit nts Written d).
Proof. repeat split. Qed.

Lemma pristine_mount : pristine form_mount.
Proof. repeat split. Qed.

(** The row a successful product submit writes. *)
Definition saved_row (parseFloat : string -> Q) (newId createdAt : string) (f : product_form)
  (s : admin_state) : Product.t :=
  let d := product_data_of parseFloat f (aliases s) in
  match editingProduct s with
  | Some p => apply_product_data d p
  | None => new_product_row newId createdAt d
  end.

(** A successful submit stores [saved_row] under its id. *)
Lemma submit_stores_row parseFloat newId createdAt f s db :
  (forall p, editingProduct s = Some p -> db !! Product.id p = Some p) ->
  exists k, (handle_product_submit parseFloat Written newId createdAt f s db).1.2 !! k =
            Some (saved_row parseFloat newId createdAt f s).
Proof.
  intros Hdb. unfold handle_product_submit, saved_row. simpl.
  destruct (editingProduct s) as [p|].
  - exists (Product.id p). rewrite lookup_alter_eq, (Hdb p eq_refl). done.
  - exists newId. apply lookup_insert_eq.
Qed.

(** The aliases an entry shows are the ones the form stored. *)
Lemma truthy_part_In s f x : In x (truthy_part s f) -> exists v, x = f v.
Proof.
  unfold truthy_part. destruct s as [v|]; [destruct (String.eqb v "")|]; simpl;
    [tauto|intros [<-|[]]; eauto|tauto].
Qed.

Lemma product_row_aka locs p t :
  In (AkaText t) (product_row locs p) ->
  exists l, Product.aliases p = Some l /\ t = js_join ", " l.
Proof.
  unfold product_row. rewrite !in_app_iff.
  intros [H|[[H|[]]|[H|[[H|[]]|[H|[H|[H|[H|[H|[H|[]]]]]]]]]]];
    try (apply truthy_part_In in H as [? [=]]); try discriminate H;
    try (case_decide; destruct H as [H|[]]; discriminate H);
    try (destruct (_ <? _); [destruct H as [H|[]]; discriminate H|destruct H]).
  unfold aka_part in H. destruct (Product.aliases p) as [l|]; [|destruct H].
  destruct (Nat.ltb 0 (length l)); [|destruct H]. destruct H as [[= <-]|[]]. eauto.
Qed.

(** C29: saving a product, then the refetch the save triggers, lists the
    saved row (whatever order the backend returns the rows in), ends the
    edit, and the entry's "aka" text parses back to the aliases the admin
    typed. *)
Theorem saved_product_listed parseFloat newId createdAt f s db rows lr :
  (forall p, editingProduct s = Some p -> db !! Product.id p = Some p) ->
  let r := handle_product_submit parseFloat Written newId createdAt f s db in
  Permutation rows (map snd (map_to_list r.1.2)) ->
  let s2 := (fetch_data (Rows rows) lr r.1.1).1 in
  let row := saved_row parseFloat newId createdAt f s in
  In Refetch r.2 /\ In row (products s2) /\ editingProduct s2 = None /\
  (forall t, In (AkaText t) (product_row (locations s2) row) ->
             parse_aliases t = parse_aliases (aliases s)).
Proof.
  intros Hdb r Hrows s2 row. split; [simpl; tauto|].
  split; [|split; [done|]].
  - simpl. rewrite Hrows. destruct (submit_stores_row parseFloat newId createdAt f s db Hdb)
      as [k Hk]. apply in_map_iff. exists (k, row). split; [done|].
    apply list_elem_of_In, elem_of_map_to_list. exact Hk.
  - intros t (l & Hl & ->)%product_row_aka.
    assert (l = parse_aliases (aliases s)) as ->.
    { revert Hl. unfold row, saved_row. by destruct (editingProduct s); intros [= <-]. }
    apply aliases_edit_roundtrip.
Qed.

(** ** Witnesses *)

Definition edited_product : Product.t :=
  Product.mk "p1" "Milk" "l1" middle None (Some "") 3 "2024-01-01" None None (Some "5000112")
    2 (Some ["semi-skimmed"]) None.

Lemma edit_unchanged_moves_product_witness :
  let db := <[Product.id edited_product := edited_product]> (∅ : products_table) in
  let s := mk_admin_state [edited_product] [StoreLocation.mk "l0" "Produce" 1 "";
                                            StoreLocation.mk "l1" "Dairy" 2 ""] false None None false "" in
  let s1 := edit_product edited_product s in
  let d1 := form_update (fun _ => "0") (Some edited_product) form_mount in
  (handle_product_submit (fun _ => 0%Q) Written "p2" "2024-06-01"
     (form_data (locations s1) d1) s1 db).1.2 =
    <[Product.id edited_product := relocate "l0" Types.top edited_product]> db /\
  fvalue (dom_notes (form_update (fun _ => "0") None (form_reset d1))) = "".
Proof.
  intros db s s1 d1.
  apply (edit_unchanged_moves_product (fun _ => 0%Q) (fun _ => "0") edited_product s form_mount).
  - reflexivity.
  - intros q Hq. discriminate Hq.
  - unfold db. apply lookup_insert_eq.
  - apply pristine_mount.
Defined.

Lemma admin_rows_normal_witness :
  let nts := fun _ : Q => "0" in
  let db := <[Product.id edited_product := edited_product]> (∅ : products_table) in
  let st := (edit_product edited_product admin_initial,
             form_update nts (Some edited_product) form_mount, db) in
  rows_normal db /\ star (admin_step nts) (admin_initial, form_mount, db) st /\ rows_normal st.2.
Proof.
  intros nts db st.
  assert (rows_normal db) as Hdb.
  { apply map_Forall_insert_2; [reflexivity|apply map_Forall_empty]. }
  assert (star (admin_step nts) (admin_initial, form_mount, db) st) as Hst
    by (apply star_one, admin_edit).
  exact (conj Hdb (conj Hst (admin_rows_normal _ _ _ Hst Hdb))).
Defined.

Lemma saved_product_listed_witness :
  let s := edit_product edited_product admin_initial in
  let db : products_table := {[Product.id edited_product := edited_product]} in
  let f := form_of_product (fun _ => "0") edited_product in
  let r := handle_product_submit (fun _ => 0%Q) Written "p2" "2024-06-01" f s db in
  let s2 := (fetch_data (Rows (map snd (map_to_list r.1.2))) QueryFailed r.1.1).1 in
  let row := saved_row (fun _ => 0%Q) "p2" "2024-06-01" f s in
  In Refetch r.2 /\ In row (products s2) /\ editingProduct s2 = None /\
  (forall t, In (AkaText t) (product_row (locations s2) row) ->
             parse_aliases t = parse_aliases (aliases s)).
Proof.
  intros s db f r s2 row.
  apply (saved_product_listed (fun _ => 0%Q) "p2" "2024-06-01" f s db).
  - intros p [= <-]. apply lookup_singleton_eq.
  - reflexivity.
Defined.
