(* ===== verification/Layout.v ===== *)
(** * Navigation ([src/src/App.tsx], [src/src/components/Layout.tsx])

    [App] declares one layout route whose children map a path to a lazily
    loaded view.  The path ["/"] is a [<Navigate to="/list" replace />].
    React Router v6 matches a static path pattern case-insensitively and
    lets any number of trailing slashes follow it: the pattern ["/list"]
    compiles to [^\/list\/*$] with the [i] flag ([path_matches]).  A
    redirect renders once more at its target ([resolve], with fuel for the
    number of redirects followed).  A path no route matches renders
    nothing.

    [Layout] keeps [isMenuOpen] and [pageTitle].  An effect on
    [location.pathname] sets the title to ["Weekly Shop"] followed by
    [" - " ++ label] of the menu item whose path equals the pathname
    ([===], case-sensitive).  The menu lists six links, highlights the one
    equal to the pathname, and closes on a link or overlay click
    ([menu_links]).  [layout_step] is the layout with the router's
    location; the title effect keeps the title naming the location
    ([layout_title_consistent]).

    The layout's document is its header, the menu while open, and the
    page ([layout_document]); [printed] is what [window.print()] puts on
    paper under the print rules of PrintView's style sheet, which hide only
    PrintView's [print:hidden] button: the header is printed too.

    [ListView] ([views/ListView.tsx]) has a body of two comments and no
    [return]: its component returns [undefined].  React 18 renders nothing
    for it; React 17 throws ("Nothing was returned from render").  The
    repository does not pin React's version; [page_renders_content] takes
    React 18.  The case folding modelled is ASCII's, the only one the
    routes' letters need. *)

From S2P Require Import Prelude Types PrintView ShareView.
Local Open Scope Z_scope.

Inductive page : Type :=
| ListViewPage
| ShopViewPage
| PrintViewPage
| AdminViewPage
| HelpViewPage
| ShareViewPage.

(** Whether the view's component renders any element: each view but
    [ListView] returns a tree in every branch; [ListView]'s function body
    is empty and returns [undefined], which React 18 renders as nothing. *)
Definition page_renders_content (p : page) : bool :=
  match p with ListViewPage => false | _ => true end.

Inductive route_element : Type :=
| Redirect (to : string)        (* <Navigate to=... replace /> *)
| Lazy (p : page).              (* <Suspense><View /></Suspense> *)

(** The child routes of the layout route, in declaration order. *)
Definition routes : list (string * route_element) :=
  [("/", Redirect "/list"); ("/list", Lazy ListViewPage); ("/shop", Lazy ShopViewPage);
   ("/print", Lazy PrintViewPage); ("/admin", Lazy AdminViewPage);
   ("/help", Lazy HelpViewPage); ("/share", Lazy ShareViewPage)].

Definition ascii_lower (c : ascii) : ascii :=
  let n := nat_of_ascii c in
  if ((65 <=? n) && (n <=? 90))%nat then ascii_of_nat (n + 32) else c.

Fixpoint str_lower (s : string) : string :=
  match s with
  | EmptyString => EmptyString
  | String c rest => String (ascii_lower c) (str_lower rest)
  end.

(** [s] without its trailing slashes. *)
Fixpoint strip_trailing_slashes (s : string) : string :=
  match s with
  | EmptyString => EmptyString
  | String c rest =>
      let rest' := strip_trailing_slashes rest in
      if Ascii.eqb c "/" && String.eqb rest' "" then "" else String c rest'
  end.

(** [matchPath(pattern, pathname)] for a static pattern. *)
Definition path_matches (pattern pathname : string) : bool :=
  String.eqb (str_lower (strip_trailing_slashes pathname))
             (str_lower (strip_trailing_slashes pattern)).

Definition match_route (pathname : string) : option route_element :=
  option_map snd (List.find (fun r => path_matches (fst r) pathname) routes).

(** What the router ends on: a view at a location, or nothing. *)
Inductive outcome : Type :=
| ShowPage (pathname : string) (p : page)
| NothingMatched.

Fixpoint resolve (fuel : nat) (pathname : string) : outcome :=
  match match_route pathname with
  | Some (Lazy p) => ShowPage pathname p
  | Some (Redirect to) =>
      match fuel with
      | O => NothingMatched
      | S fuel' => resolve fuel' to
      end
  | None => NothingMatched
  end.

(** ** Layout *)

Record menu_item : Type := mk_menu_item {
  item_path : string;
  item_label : string
}.

Definition menu_items : list menu_item :=
  [mk_menu_item "/list" "List View"; mk_menu_item "/shop" "Shopping View";
   mk_menu_item "/admin" "Admin"; mk_menu_item "/share" "Share";
   mk_menu_item "/print" "Print List"; mk_menu_item "/help" "How to Use"].

(** [menuItems.find(item => item.path === location.pathname)] *)
Definition current_item (pathname : string) : option menu_item :=
  List.find (fun it => String.eqb (item_path it) pathname) menu_items.

(** [`Weekly Shop${currentItem ? ` - ${currentItem.label}` : ''}`] *)
Definition page_title (pathname : string) : string :=
  "Weekly Shop" +:+ match current_item pathname with
                    | Some it => " - " +:+ item_label it
                    | None => ""
                    end.

(** [isCurrentPath(path)] *)
Definition is_current_path (pathname path : string) : bool := String.eqb pathname path.

(** The menu links highlighted at [pathname]. *)
Definition highlighted (pathname : string) : list string :=
  List.filter (is_current_path pathname) (map item_path menu_items).

Record layout_state : Type := mk_layout_state {
  isMenuOpen : bool;
  pageTitle : string
}.

Definition layout_initial : layout_state := mk_layout_state false "Weekly Shop".

(** The menu button, the overlay, a menu link. *)
Definition toggle_menu (s : layout_state) : layout_state :=
  mk_layout_state (negb (isMenuOpen s)) (pageTitle s).

Definition close_menu (s : layout_state) : layout_state :=
  mk_layout_state false (pageTitle s).

(** The effect on [location.pathname]. *)
Definition title_effect (pathname : string) (s : layout_state) : layout_state :=
  mk_layout_state (isMenuOpen s) (page_title pathname).

(** The menu (lines 50-78): nothing while closed; while open, one link per
    menu item with its highlight. *)
Definition menu_links (pathname : string) (s : layout_state) : list (string * string * bool) :=
  if isMenuOpen s
  then map (fun it => (item_path it, item_label it, is_current_path pathname (item_path it)))
           menu_items
  else [].

(** The layout with the router's location: a click on the menu button, on
    the overlay or on a link (both only while the menu is shown), or a
    navigation from outside (the address bar, history).  A change of
    location runs the title effect. *)
Inductive layout_step : layout_state * string -> layout_state * string -> Prop :=
| layout_toggle s path : layout_step (s, path) (toggle_menu s, path)
| layout_overlay s path :
    isMenuOpen s = true -> layout_step (s, path) (close_menu s, path)
| layout_link s path to :
    isMenuOpen s = true -> In to (map item_path menu_items) ->
    layout_step (s, path) (title_effect to (close_menu s), to)
| layout_navigate s path to : layout_step (s, path) (title_effect to s, to).

(** ** The document and its printout

    The layout renders (lines 27-84) the sticky header with the menu
    button, the title and the theme toggle; the menu while it is open; and
    the page inside [main].  No element of the layout has the
    [print:hidden] class, so under [@media print] the page's style sheet
    (PrintView, lines 118-136) hides only the page's own [print:hidden]
    blocks. *)
Inductive document_block : Type :=
| LayoutHeader (title : string)
| LayoutMenu (links : list (string * string * bool))
| PageBlock (b : print_block).

Definition layout_document (st : layout_state * string) (page : list print_block)
  : list document_block :=
  LayoutHeader (pageTitle st.1) ::
  (if isMenuOpen st.1 then [LayoutMenu (menu_links st.2 st.1)] else []) ++
  map PageBlock page.

Definition document_print_hidden (b : document_block) : bool :=
  match b with PageBlock b => print_hidden b | _ => false end.

(** What [window.print()] puts on paper. *)
Definition printed (d : list document_block) : list document_block :=
  List.filter (fun b => negb (document_print_hidden b)) d.

(** ** Lemmas *)



(** Once the mount effect has run, the title always names the current
    location. *)
Lemma layout_title_consistent st1 st2 :
  star layout_step st1 st2 -> pageTitle st1.1 = page_title st1.2 ->
  pageTitle st2.1 = page_title st2.2.
Proof.
  revert st1 st2. apply (star_invariant layout_step (fun st => pageTitle st.1 = page_title st.2)).
  intros [s p] [s' p'] Hs Hstep. by inversion Hstep; subst.
Qed.


(** Split on whether [x] is the literal path [p]: a matching path
    computes; otherwise both orientations of the test are false. *)
Ltac path_case x p :=
  destruct (String.eqb_spec x p) as [->|Hne];
  [cbn; eexists; split; [|reflexivity]; tauto
  |rewrite ?(proj2 (String.eqb_neq x p) Hne), ?(proj2 (String.eqb_neq p x) (not_eq_sym Hne));
   clear Hne].

(** The title, computed from a path, names exactly the highlighted menu
    item: with no item highlighted it is ["Weekly Shop"]; otherwise exactly
    one item is highlighted and the title ends with its label. *)
Lemma page_title_highlighted pathname :
  match highlighted pathname with
  | [] => page_title pathname = "Weekly Shop"
  | [path] => exists label, In (mk_menu_item path label) menu_items /\
               page_title pathname = "Weekly Shop - " +:+ label
  | _ => False
  end.
Proof.
  unfold highlighted, page_title, current_item, is_current_path.
  cbn -[String.eqb String.append].
  path_case pathname "/list". path_case pathname "/shop". path_case pathname "/admin".
  path_case pathname "/share". path_case pathname "/print". path_case pathname "/help".
  reflexivity.
Qed.

(** The layout once its effect has run on the first location. *)
Definition layout_mounted (pathname : string) : layout_state * string :=
  (title_effect pathname layout_initial, pathname).

(** C34: in every state the layout reaches from its mount, through menu
    clicks and navigations, the title shown names exactly the highlighted
    menu item: ["Weekly Shop"] when none is, and ["Weekly Shop - "]
    followed by its label when one is; two are never highlighted. *)
Theorem title_names_highlighted pathname st :
  star layout_step (layout_mounted pathname) st ->
  match highlighted st.2 with
  | [] => pageTitle st.1 = "Weekly Shop"
  | [path] => exists label, In (mk_menu_item path label) menu_items /\
               pageTitle st.1 = "Weekly Shop - " +:+ label
  | _ => False
  end.
Proof.
  intros Hs. rewrite (layout_title_consistent _ _ Hs eq_refl).
  apply page_title_highlighted.
Qed.

(** C16: what PrintView's print button prints: on the route ["/print"],
    in every state the layout reaches from its mount, the printout of a
    rendered page is the application's header, titled
    ["Weekly Shop - Print List"], then the menu if it is open (the button
    can still be reached from the keyboard), then the page's layout without
    its print button; the layout lists every item of the shop exactly once,
    bought and unavailable items included. *)
Theorem print_page_printout toLocaleDateString pathname st s date sections :
  star layout_step (layout_mounted pathname) st -> st.2 = "/print" ->
  print_render toLocaleDateString s = PrintPage date sections ->
  printed (layout_document st (print_blocks (print_render toLocaleDateString s))) =
    LayoutHeader "Weekly Shop - Print List" ::
    (if isMenuOpen st.1 then [LayoutMenu (menu_links st.2 st.1)] else []) ++
    [PageBlock (PrintLayout date sections)] /\
  exists shop, print_shop s = Some shop /\
    Permutation (concat (map section_lines sections)) (map print_line_of (WeeklyShop.items shop)).
Proof.
  intros Hs Hpath Hr. split; [|exact (print_page_lines _ _ _ _ Hr)].
  pose proof (layout_title_consistent _ _ Hs eq_refl) as Ht. rewrite Hpath in Ht.
  unfold printed, layout_document. rewrite Hr, Ht. simpl.
  by destruct (isMenuOpen st.1).
Qed.

(** React Router matches ["/Shop"] to ShopView, but the title's
    case-sensitive lookup finds no menu item: the page shows the bare
    title and no highlighted link. *)
Example title_case_sensitive :
  resolve 1 "/Shop" = ShowPage "/Shop" ShopViewPage /\
  page_title "/Shop" = "Weekly Shop" /\ highlighted "/Shop" = [].
Proof. repeat split. Qed.

Lemma title_names_highlighted_witness :
  let st := (title_effect "/shop" (close_menu (toggle_menu (title_effect "/list" layout_initial))), "/shop") in
  star layout_step (layout_mounted "/list") st /\
  exists label, In (mk_menu_item "/shop" label) menu_items /\
    pageTitle st.1 = "Weekly Shop - " +:+ label.
Proof.
  intros st.
  assert (Hs : star layout_step (layout_mounted "/list") st).
  { eapply star_step; [apply layout_toggle|].
    eapply star_step; [apply (layout_link _ _ "/shop"); [reflexivity|simpl; tauto]|].
    apply star_refl. }
  split; [exact Hs|]. exact (title_names_highlighted "/list" st Hs).
Defined.

Lemma print_page_printout_witness :
  let shop := WeeklyShop.mk "w1" "2024-06-01" ""
                [Fixtures.placed "bread" bought "Bakery" 2 1;
                 Fixtures.placed "apple" required "Produce" 1 1] in
  let s := mk_print_state (Some shop) false in
  exists sections,
    print_render (fun d => d) s = PrintPage "2024-06-01" sections /\
    printed (layout_document (layout_mounted "/print") (print_blocks (print_render (fun d => d) s)))
    = [LayoutHeader "Weekly Shop - Print List"; PageBlock (PrintLayout "2024-06-01" sections)].
Proof.
  intros shop s. eexists. split; [reflexivity|].
  exact (proj1 (print_page_printout (fun d => d) "/print" (layout_mounted "/print") s _ _
                  ltac:(constructor) eq_refl eq_refl)).
Defined.
