(* ===== verification/HelpView.v ===== *)
(** * The help page ([src/src/views/HelpView.tsx])

    The route ["/help"] renders [views/HelpView].  It declares the array
    [sections] (lines 5-46): four cards, each with an icon, a title and a
    list of bullet texts.  The page (lines 48-88) is:
    - a header with the book icon, a title and a subtitle;
    - one card per section, [key={title}], whose bullets are
      [content.map((item, index) => <li key={index}>...)];
    - a closing "Need More Help?" box.
    [help_page] is that element tree.  JSX joins the lines of a text child
    with single spaces ([help_footer_text]).

    React tells siblings apart by their [key]: two siblings with one key
    make it reuse or drop an element.  The theorem shows the keys of the
    page are distinct. *)

From S2P Require Import Prelude Layout.
From stdpp Require Import list_numbers.

(** The lucide-react icons the page draws. *)
Inductive help_icon : Type :=
| Book
| Search
| ShoppingCart
| Settings
| Share2.

Record help_section : Type := mk_help_section {
  icon : help_icon;
  title : string;
  content : list string
}.

(** [const sections = [...]] (lines 5-46). *)
Definition sections : list help_section :=
  [mk_help_section Search "Creating Your List"
     ["Use the search bar to find products";
      "Click the plus icon to add items to your list";
      "Use voice search by clicking the microphone icon";
      "Specify quantities and special instructions for each item"];
   mk_help_section ShoppingCart "Shopping Mode"
     ["Items are sorted by store location for efficient shopping";
      "Mark items as bought or unavailable";
      "View item locations and shelf positions";
      "Track your shopping progress"];
   mk_help_section Settings "Managing Products"
     ["Add new products in the Admin section";
      "Specify store locations and shelf positions";
      "Set typical prices and notes";
      "Edit or remove existing products"];
   mk_help_section Share2 "Sharing Your List"
     ["Download your list as a PDF";
      "Share your list with others";
      "View a preview of your list before sharing";
      "Lists are organized by store sections"]].

(** The elements of the page, with the [key] of each keyed element. *)
Inductive help_element : Type :=
| HelpHeader (icon : help_icon) (heading subtitle : string)
| SectionCard (key : string) (icon : help_icon) (heading : string)
              (bullets : list (nat * string))
| HelpFooter (heading text : string).

(** [({ icon: Icon, title, content }) => <div key={title}> ... </div>]
    (lines 59-77). *)
Definition section_card (s : help_section) : help_element :=
  SectionCard (title s) (icon s) (title s) (imap pair (content s)).

Definition help_footer_text : string :=
  "This app is designed to make your shopping experience easier and more " +:+
  "organized. If you have any questions or suggestions, please don't " +:+
  "hesitate to reach out to our support team.".

(** The returned tree (lines 48-88): header, cards, closing box. *)
Definition help_page : list help_element :=
  [HelpHeader Book "How to Use the Shopping List App"
     "Get started with our easy-to-use shopping list manager"] ++
  map section_card sections ++
  [HelpFooter "Need More Help?" help_footer_text].

(** The keys of the cards, the children of the grid. *)
Definition card_keys (page : list help_element) : list string :=
  omap (fun e => match e with SectionCard k _ _ _ => Some k | _ => None end) page.

(** The lists of bullets, one per card, with their keys. *)
Definition card_bullets (page : list help_element) : list (list (nat * string)) :=
  omap (fun e => match e with SectionCard _ _ _ b => Some b | _ => None end) page.

(** ** Lemmas *)

(** [key={index}] numbers a list's items from 0. *)
Lemma imap_pair_keys {A} (l : list A) : fst <$> imap pair l = seq 0 (length l).
Proof.
  rewrite fmap_imap, (imap_ext _ (fun j _ => id j)) by done.
  by rewrite imap_seq_0, list_fmap_id.
Qed.

Lemma index_keys_distinct {A} (l : list A) : NoDup (fst <$> imap pair l).
Proof. rewrite imap_pair_keys. apply NoDup_seq. Qed.

Lemma card_keys_page : card_keys help_page = map title sections.
Proof. reflexivity. Qed.

Lemma card_bullets_page :
  card_bullets help_page = map (fun s => imap pair (content s)) sections.
Proof. reflexivity. Qed.

(** The keys of the help page are distinct among siblings: the four
    cards are keyed by four different titles, and in every card the
    bullets' keys are distinct; the bullets are the section's texts in
    order. *)
Theorem help_keys_distinct :
  NoDup (card_keys help_page) /\
  Forall (fun b => NoDup (fst <$> b)) (card_bullets help_page) /\
  map (fun b => snd <$> b) (card_bullets help_page) = map content sections.
Proof.
  rewrite card_keys_page, card_bullets_page. split; [|split].
  - apply (bool_decide_unpack (NoDup (map title sections))). vm_compute. exact I.
  - apply Forall_forall. intros b (s & <- & _)%list_elem_of_In%in_map_iff.
    apply index_keys_distinct.
  - reflexivity.
Qed.

(** The first card tells the reader to search, add and dictate items on
    the list page; ["/list"] renders ListView, whose component renders
    nothing, while ["/help"] renders this page. *)
Example help_describes_blank_list :
  (exists s, In s sections /\ title s = "Creating Your List" /\
     In "Use the search bar to find products" (content s)) /\
  resolve 1 "/help" = ShowPage "/help" HelpViewPage /\
  resolve 1 "/list" = ShowPage "/list" ListViewPage /\
  page_renders_content ListViewPage = false.
Proof. split; [eexists; split; [left; reflexivity|split; [reflexivity|left; reflexivity]]|]. done. Qed.
